(** * ImportBodyComposition2GarminConnect: a shallow embedding

    The Python program [app/ImportBodyComposition2GarminConnect.py] reads
    body-composition CSV exports, normalises every row through a mapping schema
    taken from a JSON settings document, accumulates the rows in a pandas
    DataFrame ([self.BodyComposition]) and pushes them to a Garmin Connect
    account.

    Conventions of the embedding:
    - Python exceptions are an error monad [res]; [try ... except Exception]
      is [try_except], which lets [SystemExit] through as Python does.
    - Values loaded from the settings document are [json]; the cells of a
      DataFrame row and the values computed from them are [pyval].
    - Strings are sequences of ASCII characters, compared as Python compares
      [str] (lexicographically by code point).  The decimal digits outside
      ASCII that [\d] and [float()] also accept are not part of the model.
    - A Python [float] is an IEEE binary64 number, kept as its exact value
      [m * 2^e] with [m] odd.
    - A pandas [Timestamp] is its [value]: nanoseconds since the epoch, time
      zone naive.
    - Library code that lives outside the repository and whose details no
      property here depends on ([pd.to_datetime], [DataFrame.sort_values] on
      the input frame, [str] of a Timestamp, the Garmin client) is an
      interface, see [Library] and [GarminClient]. *)

From Stdlib Require Import ZArith NArith List String Ascii Bool Lia.
From Stdlib Require Import Permutation Sorted DecimalString.
Import ListNotations.
#[local] Set Warnings "-register-all".
Open Scope string_scope.
Open Scope Z_scope.

(** ** Exceptions *)

Inductive exn : Type :=
| KeyError
| TypeError
| ValueError
| AttributeError
| OverflowError
| RemoteError (msg : string)
| SystemExit (msg : string).

Inductive res (A : Type) : Type :=
| Ok (a : A)
| Raise (e : exn).
Arguments Ok {A} a.
Arguments Raise {A} e.

Definition bind {A B : Type} (c : res A) (k : A -> res B) : res B :=
  match c with
  | Ok a => k a
  | Raise e => Raise e
  end.

Notation "x <- c ;; k" := (bind c (fun x => k))
  (at level 61, c at next level, right associativity).
Notation "' pat <- c ;; k" := (bind c (fun x => match x with pat => k end))
  (at level 61, pat pattern, c at next level, right associativity).

(** [SystemExit] derives from [BaseException], every other exception of the
    model from [Exception]. *)
Definition is_Exception (e : exn) : bool :=
  match e with
  | SystemExit _ => false
  | _ => true
  end.

(** [try: body / except Exception as e: handler]. *)
Definition try_except {A : Type} (body : res A) (handler : exn -> res A) : res A :=
  match body with
  | Ok a => Ok a
  | Raise e => if is_Exception e then handler e else Raise e
  end.

Definition raises {A : Type} (c : res A) : Prop := exists e, c = Raise e.

Fixpoint mapM {A B : Type} (f : A -> res B) (l : list A) : res (list B) :=
  match l with
  | [] => Ok []
  | a :: l' => b <- f a ;; bs <- mapM f l' ;; Ok (b :: bs)
  end.

(** ** Characters and strings *)

Definition is_digit (c : ascii) : bool :=
  let n := N_of_ascii c in ((48 <=? n) && (n <=? 57))%N.

Definition is_dot (c : ascii) : bool := Ascii.eqb c ".".

(** The white space [float()] strips: code points 9-13 and 32. *)
Definition is_space (c : ascii) : bool :=
  let n := N_of_ascii c in
  (((9 <=? n) && (n <=? 13)) || (n =? 32))%N.

Definition digit_value (c : ascii) : Z := Z.of_N (N_of_ascii c) - 48.

Definition lower (c : ascii) : ascii :=
  let n := N_of_ascii c in
  if ((65 <=? n) && (n <=? 90))%N then ascii_of_N (n + 32) else c.

Fixpoint lower_string (s : string) : string :=
  match s with
  | "" => ""
  | String c s' => String (lower c) (lower_string s')
  end.

(** Python's [a in b] for two strings. *)
Definition substring_of (a b : string) : bool :=
  match String.index 0 a b with
  | Some _ => true
  | None => false
  end.

Definition N_to_string (n : N) : string := NilZero.string_of_uint (N.to_uint n).

Definition Z_to_string (z : Z) : string := NilZero.string_of_int (Z.to_int z).

Fixpoint zeros (n : nat) : string :=
  match n with
  | O => ""
  | S n' => String "0" (zeros n')
  end.

(** ["%0<w>d"] for a non-negative number. *)
Definition pad_zeros (w : nat) (n : N) : string :=
  let s := N_to_string n in zeros (w - String.length s) ++ s.

(** Python's [a >= b] on two strings. *)
Definition str_ge (a b : string) : bool := negb (String.ltb a b).

(** ** Python floats (IEEE binary64) *)

(** [FFin neg m e] is [(-1)^neg * m * 2^e]; the mantissa [m] is odd, or
    [m = 0] and [e = 0], so that equal numbers have equal representations up
    to the sign of zero. *)
Inductive pyfloat : Type :=
| FNan
| FInf (neg : bool)
| FFin (neg : bool) (m : N) (e : Z).

Definition round_half_even (n d : Z) : Z :=
  let q := n / d in
  match 2 * (n mod d) ?= d with
  | Lt => q
  | Gt => q + 1
  | Eq => if Z.even q then q else q + 1
  end.

(** [(n / d) / 2^e] as a fraction. *)
Definition scale2 (n d e : Z) : Z * Z :=
  if 0 <=? e then (n, d * 2 ^ e) else (n * 2 ^ (- e), d).

Fixpoint odd_part (p : positive) (e : Z) : positive * Z :=
  match p with
  | xO p' => odd_part p' (e + 1)
  | _ => (p, e)
  end.

Definition canonical (neg : bool) (m e : Z) : pyfloat :=
  match m with
  | Zpos p => let '(p', e') := odd_part p e in FFin neg (Npos p') e'
  | _ => FFin neg 0 0
  end.

(** The binary64 number nearest to [n / d] (ties to even), for [0 <= n] and
    [0 < d]: 53 bits of precision, least exponent -1074, overflow to
    infinity from [2^1024]. *)
Definition binary64_of_ratio (neg : bool) (n d : Z) : pyfloat :=
  if n <=? 0 then FFin neg 0 0 else
  let k := Z.log2 n - Z.log2 d in
  let '(n1, d1) := scale2 n d k in
  let lg := if n1 <? d1 then k - 1 else k in
  let e := Z.max (lg - 52) (-1074) in
  let '(n2, d2) := scale2 n d e in
  let m := round_half_even n2 d2 in
  if (971 <? e) || ((e =? 971) && (m =? 2 ^ 53)) then FInf neg
  else canonical neg m e.

Definition float_is_zero (f : pyfloat) : bool :=
  match f with
  | FFin _ 0%N _ => true
  | _ => false
  end.

Definition float_eqb (f g : pyfloat) : bool :=
  match f, g with
  | FInf a, FInf b => Bool.eqb a b
  | FFin a m e, FFin b m' e' =>
      ((m =? 0)%N && (m' =? 0)%N) || (Bool.eqb a b && (m =? m')%N && (e =? e'))
  | _, _ => false
  end.

(** Python compares a float and an int by their exact values. *)
Definition float_eq_int (f : pyfloat) (z : Z) : bool :=
  match f with
  | FFin neg m e =>
      (0 <=? e) && ((if neg then - (Z.of_N m * 2 ^ e) else Z.of_N m * 2 ^ e) =? z)
  | _ => false
  end.

(** [float(i)] for an int: correctly rounded, [OverflowError] when the
    result is not finite. *)
Definition float_of_int (z : Z) : res pyfloat :=
  match binary64_of_ratio (z <? 0) (Z.abs z) 1 with
  | FInf _ => Raise OverflowError
  | f => Ok f
  end.

(** *** [float(s)] for a string

    White space is stripped, underscores are accepted between two digits, then
    the whole text must be a signed [inf], [infinity], [nan] or decimal number
    with an optional exponent. *)

Fixpoint lstrip (s : string) : string :=
  match s with
  | "" => ""
  | String c s' => if is_space c then lstrip s' else s
  end.

Fixpoint rstrip (s : string) : string :=
  match s with
  | "" => ""
  | String c s' =>
      let t := rstrip s' in
      if is_space c && (t =? "")%string then "" else String c t
  end.

Definition is_underscore (c : ascii) : bool := Ascii.eqb c "_".

Fixpoint drop_underscores (prev : ascii) (s : string) : option string :=
  match s with
  | "" => if is_underscore prev then None else Some ""
  | String c s' =>
      if is_underscore c then
        if is_digit prev then drop_underscores c s' else None
      else if is_underscore prev && negb (is_digit c) then None
      else option_map (String c) (drop_underscores c s')
  end.

Definition parse_sign (s : string) : bool * string :=
  match s with
  | String "-" s' => (true, s')
  | String "+" s' => (false, s')
  | _ => (false, s)
  end.

(** The longest prefix of digits, and the rest. *)
Fixpoint span_digits (s : string) : string * string :=
  match s with
  | String c s' =>
      if is_digit c then let '(ds, r) := span_digits s' in (String c ds, r)
      else ("", s)
  | "" => ("", "")
  end.

Fixpoint digits_value (acc : Z) (ds : string) : Z :=
  match ds with
  | "" => acc
  | String c ds' => digits_value (10 * acc + digit_value c) ds'
  end.

(** [[e|E] [sign] digits], to the end of the text; no exponent is 0. *)
Definition parse_exponent (s : string) : option Z :=
  match s with
  | "" => Some 0
  | String c s' =>
      if Ascii.eqb (lower c) "e" then
        let '(neg, s'') := parse_sign s' in
        match span_digits s'' with
        | (String d ds, "") =>
            let v := digits_value 0 (String d ds) in
            Some (if neg then - v else v)
        | _ => None
        end
      else None
  end.

Definition parse_decimal (neg : bool) (s : string) : option pyfloat :=
  let '(ip, r) := span_digits s in
  let '(fp, r') :=
    match r with
    | String "." r1 => span_digits r1
    | _ => ("", r)
    end in
  if ((ip =? "") && (fp =? ""))%string then None else
  match parse_exponent r' with
  | None => None
  | Some x =>
      let mant := digits_value 0 (ip ++ fp) in
      let x10 := x - Z.of_nat (String.length fp) in
      Some (if 0 <=? x10 then binary64_of_ratio neg (mant * 10 ^ x10) 1
            else binary64_of_ratio neg mant (10 ^ (- x10)))
  end.

Definition float_of_string (s : string) : res pyfloat :=
  match drop_underscores "000" (rstrip (lstrip s)) with
  | None => Raise ValueError
  | Some t =>
      let '(neg, u) := parse_sign t in
      let l := lower_string u in
      if ((l =? "inf") || (l =? "infinity"))%string then Ok (FInf neg)
      else if (l =? "nan")%string then Ok FNan
      else match parse_decimal neg u with
           | Some f => Ok f
           | None => Raise ValueError
           end
  end.

(** *** [repr(f)] *)

(** Same float, the sign of zero included. *)
Definition float_same (f g : pyfloat) : bool :=
  match f, g with
  | FFin a m e, FFin b m' e' => Bool.eqb a b && (m =? m')%N && (e =? e')
  | FInf a, FInf b => Bool.eqb a b
  | FNan, FNan => true
  | _, _ => false
  end.

(** [(n / d) * 10^k] as a fraction. *)
Definition scale10 (n d k : Z) : Z * Z :=
  if 0 <=? k then (n * 10 ^ k, d) else (n, d * 10 ^ (- k)).

(** [n / d < 10^p] *)
Definition below_pow10 (n d p : Z) : bool :=
  let '(a, b) := scale10 1 1 p in n * b <? d * a.

(** The position of the decimal point: the least [p] with [n / d < 10^p]. *)
Definition decimal_point (n d : Z) : Z :=
  let est := (Z.log2 n - Z.log2 d) * 30103 / 100000 in
  if below_pow10 n d (est - 1) then est - 1
  else if below_pow10 n d est then est
  else if below_pow10 n d (est + 1) then est + 1
  else est + 2.

Fixpoint strip_zeros_rev (s : list ascii) : list ascii :=
  match s with
  | "0"%char :: s' => strip_zeros_rev s'
  | _ => s
  end.

Definition strip_trailing_zeros (s : string) : string :=
  string_of_list_ascii (rev (strip_zeros_rev (rev (list_ascii_of_string s)))).

(** The shortest digit string that reads back as the float, and its decimal
    point: [nd] digits are tried, then one more. *)
Fixpoint shortest_digits (fuel : nat) (f : pyfloat) (n d p nd : Z) : Z * Z :=
  let '(a, b) := scale10 n d (nd - p) in
  let lo := a / b in
  let hi := lo + 1 in
  let back (D : Z) :=
    let '(x, y) := scale10 D 1 (p - nd) in float_same (binary64_of_ratio false x y) f in
  let nearer_lo := 2 * (a - lo * b) <=? b in
  match fuel with
  | O => (lo, nd)
  | S fuel' =>
      if back lo && (nearer_lo || negb (back hi)) then (lo, nd)
      else if back hi then (hi, nd)
      else shortest_digits fuel' f n d p (nd + 1)
  end.

(** [repr] of the finite float [(-1)^neg * m * 2^e]: its shortest digits,
    in positional notation when the decimal point falls within, else with an
    exponent. *)
Definition float_repr (neg : bool) (m : N) (e : Z) : string :=
  let sign := if neg then "-" else "" in
  if (m =? 0)%N then sign ++ "0.0" else
  let '(n, d) := scale2 (Z.of_N m) 1 (- e) in
  let p := decimal_point n d in
  let '(D, nd) := shortest_digits 17 (FFin false m e) n d p 1 in
  let s := N_to_string (Z.to_N D) in
  let p := if nd <? Z.of_nat (String.length s) then p + 1 else p in
  let ds := strip_trailing_zeros s in
  let len := Z.of_nat (String.length ds) in
  if (-4 <? p) && (p <=? 16) then
    if p <=? 0 then sign ++ "0." ++ zeros (Z.to_nat (- p)) ++ ds
    else if len <=? p then sign ++ ds ++ zeros (Z.to_nat (p - len)) ++ ".0"
    else sign ++ substring 0 (Z.to_nat p) ds ++ "." ++ substring (Z.to_nat p) (Z.to_nat (len - p)) ds
  else
    let x := p - 1 in
    let mant := match ds with
                | String c "" => String c ""
                | String c r => String c ("." ++ r)
                | "" => ""
                end in
    sign ++ mant ++ "e" ++ (if x <? 0 then "-" else "+") ++ pad_zeros 2 (Z.to_N (Z.abs x)).

(** ** Timestamps *)

(** A [Timestamp] is its count of nanoseconds since 1970-01-01T00:00. *)
Definition Timestamp : Type := Z.

Definition ns_per_day : Z := 86400 * 1000000000.

(** The civil date (year, month, day) of a day number counted from the epoch
    (proleptic Gregorian calendar). *)
Definition civil_of_days (days : Z) : Z * Z * Z :=
  let z := days + 719468 in
  let era := z / 146097 in
  let doe := z mod 146097 in
  let yoe := (doe - doe / 1460 + doe / 36524 - doe / 146096) / 365 in
  let doy := doe - (365 * yoe + yoe / 4 - yoe / 100) in
  let mp := (5 * doy + 2) / 153 in
  let d := doy - (153 * mp + 2) / 5 + 1 in
  let m := if mp <? 10 then mp + 3 else mp - 9 in
  let y := yoe + era * 400 + (if m <=? 2 then 1 else 0) in
  (y, m, d).

Definition days_of_civil (y m d : Z) : Z :=
  let y' := if m <=? 2 then y - 1 else y in
  let era := y' / 400 in
  let yoe := y' mod 400 in
  let doy := (153 * (if 2 <? m then m - 3 else m + 9) + 2) / 5 + d - 1 in
  let doe := yoe * 365 + yoe / 4 - yoe / 100 + doy in
  era * 146097 + doe - 719468.

(** [Timestamp(year, month, day, hour, minute)]. *)
Definition mk_timestamp (y m d hh mm : Z) : Timestamp :=
  days_of_civil y m d * ns_per_day + (hh * 60 + mm) * 60 * 1000000000.

(** [t.date().isoformat()]: ["%04d-%02d-%02d"]. *)
Definition date_isoformat (t : Timestamp) : string :=
  let '(y, m, d) := civil_of_days (t / ns_per_day) in
  pad_zeros 4 (Z.to_N y) ++ "-" ++ pad_zeros 2 (Z.to_N m) ++ "-" ++ pad_zeros 2 (Z.to_N d).

(** ** Values *)

(** What [json.loads] returns.  An object is the list of its members; a key
    occurs once. *)
Inductive json : Type :=
| JNull
| JBool (b : bool)
| JInt (z : Z)
| JFloat (f : pyfloat)
| JStr (s : string)
| JArr (l : list json)
| JObj (members : list (string * json)).

(** What a cell of a DataFrame row holds, and what the mapping computes from
    it. *)
Inductive pyval : Type :=
| PNone
| PBool (b : bool)
| PInt (z : Z)
| PFloat (f : pyfloat)
| PStr (s : string)
| PStamp (t : Timestamp)
| PNaT.

Definition NaN : pyval := PFloat FNan.

(** A [dict] with string keys, in insertion order. *)
Definition dict (V : Type) : Type := list (string * V).

Fixpoint lookup {V : Type} (k : string) (d : dict V) : option V :=
  match d with
  | [] => None
  | (k', v) :: d' => if (k' =? k)%string then Some v else lookup k d'
  end.

Definition has_key {V : Type} (k : string) (d : dict V) : bool :=
  match lookup k d with
  | Some _ => true
  | None => false
  end.

(** [d[k] = v]: replaces the value of an existing key in place, appends a
    new key. *)
Fixpoint setitem {V : Type} (k : string) (v : V) (d : dict V) : dict V :=
  match d with
  | [] => [(k, v)]
  | (k', v') :: d' =>
      if (k' =? k)%string then (k, v) :: d' else (k', v') :: setitem k v d'
  end.

(** [d[k]] on a dict. *)
Definition getitem {V : Type} (k : string) (d : dict V) : res V :=
  match lookup k d with
  | Some v => Ok v
  | None => Raise KeyError
  end.

(** [j[k]] for a string [k]: only an object can be subscripted by a string. *)
Definition subscript (j : json) (k : string) : res json :=
  match j with
  | JObj d => getitem k d
  | _ => Raise TypeError
  end.

(** [j == s] for a [str] literal [s]. *)
Definition json_eq_str (j : json) (s : string) : bool :=
  match j with
  | JStr t => (t =? s)%string
  | _ => false
  end.

(** [k in j] for a string [k]: key of an object, element of an array,
    substring of a string; [TypeError] for the rest. *)
Definition json_contains (k : string) (j : json) : res bool :=
  match j with
  | JObj d => Ok (has_key k d)
  | JArr l => Ok (existsb (fun x => json_eq_str x k) l)
  | JStr s => Ok (substring_of k s)
  | _ => Raise TypeError
  end.

Definition json_truthy (j : json) : bool :=
  match j with
  | JNull => false
  | JBool b => b
  | JInt z => negb (z =? 0)
  | JFloat f => negb (float_is_zero f)
  | JStr s => negb (s =? "")%string
  | JArr l => negb (Nat.eqb (List.length l) 0)
  | JObj d => negb (Nat.eqb (List.length d) 0)
  end.

(** Truth value of a cell: [None], zero and the empty string are false;
    a Timestamp and [NaT] are true. *)
Definition truthy (v : pyval) : bool :=
  match v with
  | PNone => false
  | PBool b => b
  | PInt z => negb (z =? 0)
  | PFloat f => negb (float_is_zero f)
  | PStr s => negb (s =? "")%string
  | PStamp _ => true
  | PNaT => true
  end.

(** Numbers compare across [bool], [int] and [float]. *)
Inductive number : Type :=
| NumInt (z : Z)
| NumFloat (f : pyfloat).

Definition number_eqb (a b : number) : bool :=
  match a, b with
  | NumInt x, NumInt y => x =? y
  | NumInt x, NumFloat f => float_eq_int f x
  | NumFloat f, NumInt y => float_eq_int f y
  | NumFloat f, NumFloat g => float_eqb f g
  end.

Definition pyval_number (v : pyval) : option number :=
  match v with
  | PBool b => Some (NumInt (if b then 1 else 0))
  | PInt z => Some (NumInt z)
  | PFloat f => Some (NumFloat f)
  | _ => None
  end.

Definition json_number (j : json) : option number :=
  match j with
  | JBool b => Some (NumInt (if b then 1 else 0))
  | JInt z => Some (NumInt z)
  | JFloat f => Some (NumFloat f)
  | _ => None
  end.

(** [v == j] between a mapped value and a value of the settings document. *)
Definition py_eq (v : pyval) (j : json) : bool :=
  match v, j with
  | PNone, JNull => true
  | PStr a, JStr b => (a =? b)%string
  | _, _ =>
      match pyval_number v, json_number j with
      | Some a, Some b => number_eqb a b
      | _, _ => false
      end
  end.

(** [a == b] between two timestamp cells: [NaT] equals nothing, itself
    included. *)
Definition stamp_eq (a b : pyval) : bool :=
  match a, b with
  | PStamp x, PStamp y => x =? y
  | _, _ => false
  end.

(** ** Regular expressions

    The fragment of [re] the program uses: a pattern is an optional [^]
    anchor followed by a sequence of character classes, each taken once or
    under a greedy [?], [*] or [+].  In the three patterns of the program the
    only group spans the whole pattern, so [match.group(1)] is the matched
    text. *)
Module Re.

Inductive quantifier : Type := One | Opt | Star | Plus.

Definition atom : Type := ((ascii -> bool) * quantifier)%type.

Record pattern : Type := { anchored : bool; atoms : list atom }.

(** Greedy repetition with backtracking: take one more character when the
    rest of the match then succeeds, else continue after the repetition. *)
Fixpoint star (p : ascii -> bool) (k : string -> option string) (s : string)
  : option string :=
  match s with
  | String c s' =>
      if p c then
        match star p k s' with
        | Some m => Some (String c m)
        | None => k s
        end
      else k s
  | "" => k s
  end.

(** The text matched by the atoms at the start of [s]. *)
Fixpoint match_here (l : list atom) (s : string) : option string :=
  match l with
  | [] => Some ""
  | (p, q) :: l' =>
      let once (k : string -> option string) :=
        match s with
        | String c s' => if p c then option_map (String c) (k s') else None
        | "" => None
        end in
      match q with
      | One => once (match_here l')
      | Opt =>
          match once (match_here l') with
          | Some m => Some m
          | None => match_here l' s
          end
      | Star => star p (match_here l') s
      | Plus => once (star p (match_here l'))
      end
  end.

(** Leftmost match from any start position. *)
Fixpoint search_from (l : list atom) (s : string) : option string :=
  match match_here l s with
  | Some m => Some m
  | None =>
      match s with
      | String _ s' => search_from l s'
      | "" => None
      end
  end.

(** [re.search(pattern, s)], giving [match.group(1)]. *)
Definition search (r : pattern) (s : string) : option string :=
  if anchored r then match_here (atoms r) s else search_from (atoms r) s.

End Re.

(** The pattern of a [weight] rule: [^] then a group of [[\d.]+]. *)
Definition regex_weight : Re.pattern :=
  {| Re.anchored := true;
     Re.atoms := [(fun c => is_digit c || is_dot c, Re.Plus)] |}.

(** The pattern of a [kcal] rule: a group of [\d+], [\.?], [\d*]. *)
Definition regex_kcal : Re.pattern :=
  {| Re.anchored := false;
     Re.atoms := [(is_digit, Re.Plus); (is_dot, Re.Opt); (is_digit, Re.Star)] |}.

(** The pattern of a [percent] rule: a group of [\d+], [\.], [\d+]. *)
Definition regex_percent : Re.pattern :=
  {| Re.anchored := false;
     Re.atoms := [(is_digit, Re.Plus); (is_dot, Re.One); (is_digit, Re.Plus)] |}.

(** ** DataFrames and the library interface *)

(** A row of a DataFrame as [iterrows] yields it: the column labels with the
    cells of the row. *)
Definition Series : Type := dict pyval.

(** The frame [pd.read_csv] returns: the header and the data rows, every row
    labelled by the header.  An empty CSV field is read as [NaN]. *)
Record DataFrame : Type := {
  columns : list string;
  rows : list Series
}.

(** Library functions whose code is outside the repository. *)
Class Library : Type := {
  (** [pd.to_datetime(cell, format = fmt)] for one cell of a column; [None]
      is [NaT]. *)
  to_datetime : json -> pyval -> res (option Timestamp);
  (** [frame[key] = pd.to_datetime(frame[key], format = fmt)] for a [key]
      that is an array or an object. *)
  to_datetime_columns : json -> json -> DataFrame -> res DataFrame;
  (** [frame.sort_values(by = keys, ascending = [True, ...])]. *)
  sort_values : list json -> DataFrame -> res DataFrame;
  (** [str] of a Timestamp. *)
  timestamp_str : Timestamp -> string
}.

Definition datetime_cell (t : option Timestamp) : pyval :=
  match t with
  | Some ns => PStamp ns
  | None => PNaT
  end.

Section Program.

Context {lib : Library}.

(** [str(v)] *)
Definition py_str (v : pyval) : string :=
  match v with
  | PNone => "None"
  | PBool true => "True"
  | PBool false => "False"
  | PInt z => Z_to_string z
  | PFloat FNan => "nan"
  | PFloat (FInf false) => "inf"
  | PFloat (FInf true) => "-inf"
  | PFloat (FFin neg m e) => float_repr neg m e
  | PStr s => s
  | PStamp t => timestamp_str t
  | PNaT => "NaT"
  end.

(** [float(v)] *)
Definition py_float (v : pyval) : res pyfloat :=
  match v with
  | PBool b => Ok (if b then FFin false 1 0 else FFin false 0 0)
  | PInt z => float_of_int z
  | PFloat f => Ok f
  | PStr s => float_of_string s
  | PNone | PStamp _ | PNaT => Raise TypeError
  end.

(** [key in row] on a Series: an unhashable key raises, a key that is not a
    string is no label of a CSV header. *)
Definition series_contains (key : json) (row : Series) : res bool :=
  match key with
  | JStr s => Ok (has_key s row)
  | JArr _ | JObj _ => Raise TypeError
  | _ => Ok false
  end.

(** [row[key]] *)
Definition series_getitem (key : json) (row : Series) : res pyval :=
  match key with
  | JStr s => getitem s row
  | _ => Raise KeyError
  end.

(** ** class ImportBodyComposition *)

(** The fields of the object that the import reads and writes.
    [BodyComposition] holds the rows of the DataFrame in positional order;
    its row labels are always [0 .. len - 1] in some order, so that
    [self.BodyComposition.loc[len(self.BodyComposition)] = row] adds a row. *)
Record ImportBodyComposition : Type := {
  jsonProperties : json;
  mapInfo : dict json;
  BodyComposition : list (dict pyval);
  lastDate : json
}.

Definition set_BodyComposition (self : ImportBodyComposition) (bc : list (dict pyval))
  : ImportBodyComposition :=
  {| jsonProperties := jsonProperties self;
     mapInfo := mapInfo self;
     BodyComposition := bc;
     lastDate := lastDate self |}.

Definition set_jsonProperties (self : ImportBodyComposition) (j : json)
  : ImportBodyComposition :=
  {| jsonProperties := j;
     mapInfo := mapInfo self;
     BodyComposition := BodyComposition self;
     lastDate := lastDate self |}.

(** The columns [initBodyCompositionDF] gives the frame. *)
Definition BodyComposition_columns : list string :=
  ["timestamp"; "weight"; "percent_fat"; "percent_hydration"; "visceral_fat_mass";
   "bone_mass"; "muscle_mass"; "basal_met"; "active_met"; "physique_rating";
   "metabolic_age"; "visceral_fat_rating"; "bmi"].

Definition getPropertyValue (self : ImportBodyComposition)
  (section property : string) (default : json) : res json :=
  try_except
    (sec <- subscript (jsonProperties self) section ;;
     present <- json_contains property sec ;;
     if present then subscript sec property else Ok default)
    (fun _ => Ok default).

(** The inner [try] of [validMandatoryValues]. *)
Definition isMandatory (self : ImportBodyComposition) (key : string) : res bool :=
  try_except
    (if has_key key (mapInfo self) then
       rule <- getitem key (mapInfo self) ;;
       m <- subscript rule "mandatory" ;;
       Ok (json_eq_str m "True")
     else Ok false)
    (fun _ => Ok false).

(** The [for key in row] loop of [validMandatoryValues], entered with
    [boolTest]. *)
Fixpoint validMandatoryValues_loop (self : ImportBodyComposition)
  (items : dict pyval) (boolTest : bool) : res bool :=
  match items with
  | [] => Ok boolTest
  | (key, v) :: items' =>
      let hasValue := truthy v in
      mandatory <- isMandatory self key ;;
      let boolTest := boolTest && (hasValue || negb mandatory) in
      if negb boolTest then Ok boolTest
      else validMandatoryValues_loop self items' boolTest
  end.

(** The outer handlers print and re-raise. *)
Definition validMandatoryValues (self : ImportBodyComposition) (row : dict pyval)
  : res bool :=
  validMandatoryValues_loop self row true.

(** [if regex: ... value = float(match.group(1))]; [value] stays [None]
    without a match. *)
Definition regex_value (regex : Re.pattern) (rowValue : pyval) : res pyval :=
  let valueStr := py_str rowValue in
  match Re.search regex valueStr with
  | Some group1 => f <- float_of_string group1 ;; Ok (PFloat f)
  | None => Ok PNone
  end.

(** The body of the [try] of [getMappingColumnValue]. *)
Definition getMappingColumnValue_body (self : ImportBodyComposition)
  (row : Series) (columnName : string) : res pyval :=
  if has_key columnName (mapInfo self) then
    rule <- getitem columnName (mapInfo self) ;;
    hasName <- json_contains "name" rule ;;
    if hasName then
      name <- subscript rule "name" ;;
      inRow <- series_contains name row ;;
      if inRow then
        rowValue <- series_getitem name row ;;
        hasType <- json_contains "type" rule ;;
        colType <- (if hasType then subscript rule "type" else Ok (JStr "value")) ;;
        if json_eq_str colType "weight" then regex_value regex_weight rowValue
        else if json_eq_str colType "kcal" then regex_value regex_kcal rowValue
        else if json_eq_str colType "percent" then regex_value regex_percent rowValue
        else if json_eq_str colType "value" then
          f <- py_float rowValue ;; Ok (PFloat f)
        else Ok rowValue
      else Ok PNone
    else Ok PNone
  else Ok PNone.

Definition getMappingColumnValue (self : ImportBodyComposition)
  (row : Series) (columnName : string) : res pyval :=
  try_except (getMappingColumnValue_body self row columnName) (fun _ => Ok PNone).

Definition getMappingRowValues (self : ImportBodyComposition) (row : Series)
  : res (dict pyval) :=
  mapM (fun key => v <- getMappingColumnValue self row key ;; Ok (key, v))
       BodyComposition_columns.

(** *** processWeightFile *)

(** [v.date().isoformat()]: a Timestamp gives its date, [NaT.date()] is
    [NaT] and [NaT.isoformat()] is ["NaT"]; nothing else has a [date]
    method. *)
Definition timestamp_date_isoformat (v : pyval) : res string :=
  match v with
  | PStamp t => Ok (date_isoformat t)
  | PNaT => Ok "NaT"
  | _ => Raise AttributeError
  end.

(** [not self.lastDate or (dateISOformat >= self.lastDate)]; a [str]
    compares with a [str] only. *)
Definition not_before_watermark (lastDate : json) (dateISOformat : string) : res bool :=
  if negb (json_truthy lastDate) then Ok true
  else match lastDate with
       | JStr w => Ok (str_ge dateISOformat w)
       | _ => Raise TypeError
       end.

(** [record['timestamp']] of a stored row. *)
Definition record_timestamp (r : dict pyval) : pyval :=
  match lookup "timestamp" r with
  | Some v => v
  | None => PNone
  end.

(** [self.BodyComposition.loc[self.BodyComposition['timestamp'] == ts]] *)
Definition findRecord (bc : list (dict pyval)) (ts : pyval) : list (dict pyval) :=
  filter (fun r => stamp_eq (record_timestamp r) ts) bc.

Definition empty {A : Type} (l : list A) : bool :=
  match l with
  | [] => true
  | _ => false
  end.

(** Order of two timestamp cells under [sort_values]: ascending, [NaT]
    last. *)
Definition stamp_le (a b : pyval) : bool :=
  match a, b with
  | PStamp x, PStamp y => x <=? y
  | PStamp _, _ => true
  | _, PStamp _ => false
  | _, _ => true
  end.

Fixpoint insert_sorted (r : dict pyval) (l : list (dict pyval)) : list (dict pyval) :=
  match l with
  | [] => [r]
  | r' :: l' =>
      if stamp_le (record_timestamp r) (record_timestamp r') then r :: l
      else r' :: insert_sorted r l'
  end.

(** [self.BodyComposition.sort_values(by = ['timestamp'], ascending = [True])].
    pandas leaves the order of rows with equal timestamps to its sorting
    algorithm; the model keeps them in their order.  *)
Fixpoint sort_by_timestamp (l : list (dict pyval)) : list (dict pyval) :=
  match l with
  | [] => []
  | r :: l' => insert_sorted r (sort_by_timestamp l')
  end.

(** The body of the [for index, rowInput in InputData.iterrows()] loop. *)
Definition process_row (filterByUser : bool) (user : json)
  (self : ImportBodyComposition) (insertedItems : Z) (rowInput : Series)
  : res (ImportBodyComposition * Z) :=
  considered <-
    (if negb filterByUser then Ok true
     else userName <- getMappingColumnValue self rowInput "userName" ;;
          Ok (py_eq userName user)) ;;
  if considered : bool then
    rowOutput <- getMappingRowValues self rowInput ;;
    ts <- getitem "timestamp" rowOutput ;;
    dateISOformat <- timestamp_date_isoformat ts ;;
    fresh <- not_before_watermark (lastDate self) dateISOformat ;;
    if fresh : bool then
      let found := findRecord (BodyComposition self) ts in
      valid <- validMandatoryValues self rowOutput ;;
      if valid && empty found then
        Ok (set_BodyComposition self (BodyComposition self ++ [rowOutput])%list,
            insertedItems + 1)
      else Ok (self, insertedItems)
    else Ok (self, insertedItems)
  else Ok (self, insertedItems).

Fixpoint process_rows (filterByUser : bool) (user : json)
  (self : ImportBodyComposition) (insertedItems : Z) (rowsInput : list Series)
  : res (ImportBodyComposition * Z) :=
  match rowsInput with
  | [] => Ok (self, insertedItems)
  | rowInput :: rest =>
      '(self', insertedItems') <- process_row filterByUser user self insertedItems rowInput ;;
      process_rows filterByUser user self' insertedItems' rest
  end.

(** [InputData[name] = pd.to_datetime(InputData[name], format = fmt)] *)
Definition convert_timestamps (fmt name : json) (InputData : DataFrame)
  : res DataFrame :=
  match name with
  | JStr s =>
      if existsb (String.eqb s) (columns InputData) then
        rows' <- mapM (fun row =>
                         v <- getitem s row ;;
                         t <- to_datetime fmt v ;;
                         Ok (setitem s (datetime_cell t) row))
                      (rows InputData) ;;
        Ok {| columns := columns InputData; rows := rows' |}
      else Raise KeyError
  | JArr _ | JObj _ => to_datetime_columns fmt name InputData
  | _ => Raise KeyError
  end.

(** [self.mapInfo[field]['name']] *)
Definition mapped_name (self : ImportBodyComposition) (field : string) : res json :=
  rule <- getitem field (mapInfo self) ;;
  subscript rule "name".

(** What [processWeightFile] prints for a file. *)
Record FileReport : Type := {
  rows_found : Z;
  rows_discarded : Z;
  rows_loaded : Z
}.

(** The lines between [pd.read_csv] and the loop: the timestamp column is
    converted, then the frame is sorted when [sortData] is set. *)
Definition prepare_input (filterByUser sortData : bool) (dateTimeFormat : json)
  (self : ImportBodyComposition) (InputData : DataFrame) : res DataFrame :=
  name <- mapped_name self "timestamp" ;;
  InputData <- convert_timestamps dateTimeFormat name InputData ;;
  if sortData then
    if filterByUser then
      userName <- mapped_name self "userName" ;;
      name <- mapped_name self "timestamp" ;;
      sort_values [userName; name] InputData
    else
      name <- mapped_name self "timestamp" ;;
      sort_values [name] InputData
  else Ok InputData.

(** [processWeightFile] after its four settings are read. *)
Definition processWeightFile_with (filterByUser sortData : bool)
  (user dateTimeFormat : json) (self : ImportBodyComposition) (InputData : DataFrame)
  : res (ImportBodyComposition * FileReport) :=
  if negb (json_truthy dateTimeFormat) then
    Raise (SystemExit "Date Time Format was not informed.")
  else if filterByUser && negb (json_truthy user) then
    Raise (SystemExit "Filter user was not informed.")
  else
    InputData <- prepare_input filterByUser sortData dateTimeFormat self InputData ;;
    '(self', insertedItems) <- process_rows filterByUser user self 0 (rows InputData) ;;
    let self'' := set_BodyComposition self' (sort_by_timestamp (BodyComposition self')) in
    let found := Z.of_nat (List.length (rows InputData)) in
    Ok (self'', {| rows_found := found;
                   rows_discarded := found - insertedItems;
                   rows_loaded := insertedItems |}).

(** [processWeightFile], from the frame [pd.read_csv(weightFile)] returned. *)
Definition processWeightFile (self : ImportBodyComposition) (InputData : DataFrame)
  : res (ImportBodyComposition * FileReport) :=
  v <- getPropertyValue self "data" "filterByUser" (JStr "False") ;;
  let filterByUser := json_eq_str v "True" in
  user <- getPropertyValue self "data" "user" JNull ;;
  dateTimeFormat <- getPropertyValue self "data" "dateTimeFormat" JNull ;;
  v <- getPropertyValue self "data" "sortData" (JStr "False") ;;
  let sortData := json_eq_str v "True" in
  processWeightFile_with filterByUser sortData user dateTimeFormat self InputData.

(** The loop of [loadDataFromWeightFilesFolder] over the files of the
    folder, each given by the frame read from it. *)
Fixpoint processWeightFiles (self : ImportBodyComposition) (files : list DataFrame)
  : res ImportBodyComposition :=
  match files with
  | [] => Ok self
  | f :: files' =>
      '(self', _) <- processWeightFile self f ;;
      processWeightFiles self' files'
  end.

End Program.

(** ** The importer *)

(** An entry of [daily_weigh_ins['dateWeightList']]. *)
Record weigh_in : Type := { samplePk : Z }.

(** The Garmin Connect client ([garminconnect.Garmin]), an external
    collaborator: every call may change the remote account, behind the client
    state [C], and may fail. *)
Class GarminClient (C : Type) : Type := {
  (** [client.get_daily_weigh_ins(date)['dateWeightList']] *)
  get_daily_weigh_ins : C -> string -> C * res (list weigh_in);
  (** [client.delete_weigh_in(pk, date)] *)
  delete_weigh_in : C -> Z -> string -> C * res unit;
  (** [client.add_body_composition(timestamp = ..., weight = ..., ...)], with
      the row the arguments are read from. *)
  add_body_composition : C -> dict pyval -> C * res unit
}.

(** The effects of the import that are visible outside it, in the order of
    their execution. *)
Inductive event : Type :=
| SetLastDate (date : string)
| GetDailyWeighIns (date : string)
| DeleteWeighIn (pk : Z) (date : string)
| AddBodyComposition (row : dict pyval).

Definition is_remote_call (ev : event) : bool :=
  match ev with
  | SetLastDate _ => false
  | _ => true
  end.

(** [j['data']['lastDate'] = date] *)
Definition set_data_lastDate (j : json) (date : string) : res json :=
  match j with
  | JObj top =>
      match lookup "data" top with
      | Some (JObj data) =>
          Ok (JObj (setitem "data" (JObj (setitem "lastDate" (JStr date) data)) top))
      | Some _ => Raise TypeError
      | None => Raise KeyError
      end
  | _ => Raise TypeError
  end.

(** [t.strftime("%H:%M:%S")] succeeds on a Timestamp only; [NaT] raises
    [ValueError]. *)
Definition strftime_check (v : pyval) : res unit :=
  match v with
  | PStamp _ => Ok tt
  | PNaT => Raise ValueError
  | _ => Raise AttributeError
  end.

Section Importer.

Context {C : Type} {garmin : GarminClient C}.

(** The object, the client it holds ([self.client]) and the effects so
    far.  An exception leaves the state as it is when it is raised. *)
Record World : Type := {
  importer : ImportBodyComposition;
  client : C;
  trace : list event
}.

Definition M (A : Type) : Type := World -> World * res A.

Definition retM {A : Type} (a : A) : M A := fun w => (w, Ok a).

Definition bindM {A B : Type} (c : M A) (k : A -> M B) : M B :=
  fun w =>
    match c w with
    | (w', Ok a) => k a w'
    | (w', Raise e) => (w', Raise e)
    end.

Notation "x <~ c ;; k" := (bindM c (fun x => k))
  (at level 61, c at next level, right associativity).

Definition lift {A : Type} (r : res A) : M A := fun w => (w, r).

Definition log (w : World) (ev : event) (c : C) : World :=
  {| importer := importer w; client := c; trace := (trace w ++ [ev])%list |}.

Definition assign_lastDate (date : string) : M unit :=
  fun w =>
    match set_data_lastDate (jsonProperties (importer w)) date with
    | Ok j =>
        ({| importer := set_jsonProperties (importer w) j;
            client := client w;
            trace := (trace w ++ [SetLastDate date])%list |}, Ok tt)
    | Raise e => (w, Raise e)
    end.

Definition call_get_daily_weigh_ins (date : string) : M (list weigh_in) :=
  fun w =>
    let '(c, r) := get_daily_weigh_ins (client w) date in
    (log w (GetDailyWeighIns date) c, r).

Definition call_delete_weigh_in (pk : Z) (date : string) : M unit :=
  fun w =>
    let '(c, r) := delete_weigh_in (client w) pk date in
    (log w (DeleteWeighIn pk date) c, r).

Definition call_add_body_composition (row : dict pyval) : M unit :=
  fun w =>
    let '(c, r) := add_body_composition (client w) row in
    (log w (AddBodyComposition row) c, r).

(** [for w in daily_weigh_ins['dateWeightList']: self.client.delete_weigh_in(...)] *)
Fixpoint delete_all (l : list weigh_in) (date : string) : M unit :=
  match l with
  | [] => retM tt
  | w :: l' => _ <~ call_delete_weigh_in (samplePk w) date ;; delete_all l' date
  end.

(** The body of the [for index, row in self.BodyComposition.iterrows()]
    loop; [dates] is returned as the body leaves it. *)
Definition import_row (deleteOldData : bool) (dates : list string) (row : dict pyval)
  : M (list string) :=
  dateISOformat <~ lift (timestamp_date_isoformat (record_timestamp row)) ;;
  dates' <~
    (if negb (existsb (String.eqb dateISOformat) dates) then
       _ <~ assign_lastDate dateISOformat ;;
       daily_weigh_ins <~ call_get_daily_weigh_ins dateISOformat ;;
       _ <~ (if deleteOldData && negb (empty daily_weigh_ins)
             then delete_all daily_weigh_ins dateISOformat
             else retM tt) ;;
       retM (dates ++ [dateISOformat])%list
     else retM dates) ;;
  _ <~ call_add_body_composition row ;;
  _ <~ lift (strftime_check (record_timestamp row)) ;;
  retM dates'.

Fixpoint import_rows (deleteOldData : bool) (dates : list string) (loadedItems : Z)
  (l : list (dict pyval)) : M Z :=
  match l with
  | [] => retM loadedItems
  | row :: l' =>
      dates' <~ import_row deleteOldData dates row ;;
      import_rows deleteOldData dates' (loadedItems + 1) l'
  end.

(** [loadDataOnGarminConnect]; the result is the count it prints, [None]
    when the import is skipped. *)
Definition loadDataOnGarminConnect : M (option Z) :=
  fun w =>
    (v <~ lift (getPropertyValue (importer w) "data" "callAPI" (JStr "False")) ;;
     let callAPI := json_eq_str v "True" in
     v <~ lift (getPropertyValue (importer w) "data" "deleteOldData" (JStr "False")) ;;
     let deleteOldData := json_eq_str v "True" in
     if callAPI then
       loadedItems <~ import_rows deleteOldData [] 0 (BodyComposition (importer w)) ;;
       retM (Some loadedItems)
     else retM None) w.

End Importer.

Arguments World C : clear implicits.
Arguments M C A : clear implicits.

(** ** Instances of the interfaces, for the examples

    [pandas_example] covers what the examples need of pandas: the format
    [%Y-%m-%d %H:%M] on cells of the shape [dddd-dd-dd dd:dd] (an empty cell
    is [NaT], any other cell is rejected), and sorting by columns of
    strings or timestamps. *)

Definition two_digits (a b : ascii) : option Z :=
  if is_digit a && is_digit b then Some (10 * digit_value a + digit_value b)
  else None.

Definition days_in_month (y m : Z) : Z :=
  if m =? 2 then
    if ((y mod 4 =? 0) && negb (y mod 100 =? 0)) || (y mod 400 =? 0) then 29 else 28
  else if (m =? 4) || (m =? 6) || (m =? 9) || (m =? 11) then 30
  else 31.

Definition strptime_ymd_hm (s : string) : option Timestamp :=
  match list_ascii_of_string s with
  | [y1; y2; y3; y4; "-"; m1; m2; "-"; d1; d2; " "; h1; h2; ":"; n1; n2]%char =>
      match two_digits y1 y2, two_digits y3 y4, two_digits m1 m2,
            two_digits d1 d2, two_digits h1 h2, two_digits n1 n2 with
      | Some yh, Some yl, Some m, Some d, Some hh, Some mm =>
          let y := 100 * yh + yl in
          if (1 <=? m) && (m <=? 12) && (1 <=? d) && (d <=? days_in_month y m)
             && (hh <=? 23) && (mm <=? 59) && (1 <=? y)
          then Some (mk_timestamp y m d hh mm)
          else None
      | _, _, _, _, _, _ => None
      end
  | _ => None
  end.

Definition example_to_datetime (fmt : json) (cell : pyval) : res (option Timestamp) :=
  match cell with
  | PFloat FNan | PNaT => Ok None
  | PStamp t => Ok (Some t)
  | PStr s =>
      if json_eq_str fmt "%Y-%m-%d %H:%M" then
        match strptime_ymd_hm s with
        | Some t => Ok (Some t)
        | None => Raise ValueError
        end
      else Raise ValueError
  | _ => Raise ValueError
  end.

(** Order of two cells of one column: strings and timestamps ascending,
    missing values last. *)
Definition cell_le (a b : pyval) : bool :=
  match a, b with
  | PStr x, PStr y => String.leb x y
  | PStr _, _ => true
  | _, PStr _ => false
  | _, _ => stamp_le a b
  end.

Definition cell_of (key : string) (row : Series) : pyval :=
  match lookup key row with
  | Some v => v
  | None => PNone
  end.

Fixpoint insert_row (key : string) (r : Series) (l : list Series) : list Series :=
  match l with
  | [] => [r]
  | r' :: l' =>
      if cell_le (cell_of key r) (cell_of key r') then r :: l
      else r' :: insert_row key r l'
  end.

Definition sort_rows (key : string) (l : list Series) : list Series :=
  fold_right (insert_row key) [] l.

(** Stable sorts from the last key to the first. *)
Fixpoint example_sort_rows (keys : list json) (cols : list string) (l : list Series)
  : res (list Series) :=
  match keys with
  | [] => Ok l
  | JStr k :: keys' =>
      if existsb (String.eqb k) cols then
        l' <- example_sort_rows keys' cols l ;; Ok (sort_rows k l')
      else Raise KeyError
  | _ :: _ => Raise KeyError
  end.

Definition example_sort_values (keys : list json) (df : DataFrame) : res DataFrame :=
  l <- example_sort_rows keys (columns df) (rows df) ;;
  Ok {| columns := columns df; rows := l |}.

(** [YYYY-MM-DD HH:MM:SS], then the fraction of a second when there is one,
    in microseconds or in nanoseconds. *)
Definition example_timestamp_str (t : Timestamp) : string :=
  let ns := t mod ns_per_day in
  let s := ns / 1000000000 in
  let frac := ns mod 1000000000 in
  date_isoformat t ++ " "
    ++ pad_zeros 2 (Z.to_N (s / 3600)) ++ ":"
    ++ pad_zeros 2 (Z.to_N (s / 60 mod 60)) ++ ":"
    ++ pad_zeros 2 (Z.to_N (s mod 60))
    ++ (if frac =? 0 then ""
        else if frac mod 1000 =? 0 then "." ++ pad_zeros 6 (Z.to_N (frac / 1000))
        else "." ++ pad_zeros 9 (Z.to_N frac)).

#[local] Instance pandas_example : Library := {|
  to_datetime := example_to_datetime;
  to_datetime_columns := fun _ _ _ => Raise ValueError;
  sort_values := example_sort_values;
  timestamp_str := example_timestamp_str
|}.

(** An account kept in memory: the entries are (date, samplePk) pairs, a new
    entry takes the next key; [offline] makes every call fail. *)
Record account : Type := {
  offline : bool;
  entries : list (string * Z);
  next_pk : Z
}.

Definition account_calls (a : account) {A : Type} (r : account * A) : account * res A :=
  if offline a then (a, Raise (RemoteError "offline")) else (fst r, Ok (snd r)).

#[local] Instance account_client : GarminClient account := {|
  get_daily_weigh_ins := fun a date =>
    account_calls a
      (a, map (fun e => {| samplePk := snd e |})
              (filter (fun e => (fst e =? date)%string) (entries a)));
  delete_weigh_in := fun a pk date =>
    account_calls a
      ({| offline := offline a;
          entries := filter (fun e => negb (snd e =? pk)) (entries a);
          next_pk := next_pk a |}, tt);
  add_body_composition := fun a row =>
    account_calls a
      ({| offline := offline a;
          entries := (entries a ++
                      [(match timestamp_date_isoformat (record_timestamp row) with
                        | Ok d => d
                        | Raise _ => ""
                        end, next_pk a)])%list;
          next_pk := next_pk a + 1 |}, tt)
|}.

(** ** Vocabulary of the properties *)

(** The setting [section.property] of the settings document: a member of
    the object [section] of the document. *)
Definition setting (self : ImportBodyComposition) (section property : string)
  : option json :=
  match jsonProperties self with
  | JObj top =>
      match lookup section top with
      | Some (JObj members) => lookup property members
      | _ => None
      end
  | _ => None
  end.

(** A flag as [processWeightFile] and [loadDataOnGarminConnect] take it:
    [self.getPropertyValue('data', name, 'False') == 'True']. *)
Definition flag_enabled (self : ImportBodyComposition) (name : string) : bool :=
  match getPropertyValue self "data" name (JStr "False") with
  | Ok v => json_eq_str v "True"
  | Raise _ => false
  end.

(** The marker [mandatory] of the rule of a canonical field, when the rule
    is an object that has one. *)
Definition mandatory_marker (self : ImportBodyComposition) (key : string)
  : option json :=
  match lookup key (mapInfo self) with
  | Some (JObj rule) => lookup "mandatory" rule
  | _ => None
  end.

(** ** The data of the examples *)

(** A schema that marks [timestamp] and [weight] mandatory; the timestamp is
    passed through, the weight is of type [weight]. *)
Definition scenario_mapping : dict json :=
  [("timestamp", JObj [("name", JStr "Time"); ("type", JStr "raw");
                       ("mandatory", JStr "True")]);
   ("weight", JObj [("name", JStr "Weight"); ("type", JStr "weight");
                    ("mandatory", JStr "True")])].

Definition scenario_format : json := JStr "%Y-%m-%d %H:%M".

(** A settings document with the flags given as [extra] members of [data]. *)
Definition scenario_settings (extra : dict json) : json :=
  JObj [("data", JObj (("dateTimeFormat", scenario_format)
                       :: ("Mapping", JObj scenario_mapping) :: extra))].

(** The object after [__init__]: an empty RecordSet, the watermark as the
    document has it. *)
Definition scenario_self (extra : dict json) : ImportBodyComposition :=
  {| jsonProperties := scenario_settings extra;
     mapInfo := scenario_mapping;
     BodyComposition := [];
     lastDate := match lookup "lastDate" extra with
                 | Some v => v
                 | None => JNull
                 end |}.

Definition csv_row (time weight : pyval) : Series :=
  [("Time", time); ("Weight", weight)].

Definition csv (l : list Series) : DataFrame :=
  {| columns := ["Time"; "Weight"]; rows := l |}.

(** The three rows of the scenario; [w3] is the cell read from the empty
    weight field. *)
Definition scenario_csv (w3 : pyval) : DataFrame :=
  csv [csv_row (PStr "2024-01-01 08:00") (PStr "70.5kg");
       csv_row (PStr "2024-01-01 08:00") (PStr "71.0kg");
       csv_row (PStr "2024-01-02 08:00") w3].

(** A stored row with a timestamp and a weight, the other fields [None]. *)
Definition record (ts weight : pyval) : dict pyval :=
  ("timestamp", ts) :: ("weight", weight)
  :: map (fun key => (key, PNone))
         ["percent_fat"; "percent_hydration"; "visceral_fat_mass"; "bone_mass";
          "muscle_mass"; "basal_met"; "active_met"; "physique_rating";
          "metabolic_age"; "visceral_fat_rating"; "bmi"].

(** The longest prefix of [s] made of digits and decimal points. *)
Fixpoint leading_run (s : string) : string :=
  match s with
  | String c s' => if is_digit c || is_dot c then String c (leading_run s') else ""
  | "" => ""
  end.

(** Follows the words of the specification of a [weight] rule: "the leading
    numeric token (digits and a single decimal point)" of a text is its
    leading digits, then at most one decimal point and the digits after it;
    a text that starts with no digit of such a token has none. *)
Definition leading_numeric_token (s : string) : option string :=
  let '(ip, r) := span_digits s in
  let tok :=
    match r with
    | String "." r1 => ip ++ "." ++ fst (span_digits r1)
    | _ => ip
    end in
  if (tok =? "")%string || (tok =? ".")%string then None else Some tok.

(** The value the specification gives a [weight] rule on [rowValue], the
    stringified value being [valueStr]. *)
Definition weight_value_specified (valueStr : string) : res pyval :=
  match leading_numeric_token valueStr with
  | Some tok => f <- float_of_string tok ;; Ok (PFloat f)
  | None => Ok PNone
  end.

Fixpoint count_points (s : string) : nat :=
  match s with
  | String c s' => (if is_dot c then 1 else 0) + count_points s'
  | "" => 0
  end.

Fixpoint has_digit (s : string) : bool :=
  match s with
  | String c s' => is_digit c || has_digit s'
  | "" => false
  end.

(** A text of digits and decimal points only. *)
Fixpoint digits_and_points (s : string) : bool :=
  match s with
  | String c s' => (is_digit c || is_dot c) && digits_and_points s'
  | "" => true
  end.

Section Vocabulary.

Context {lib : Library}.

(** The value [getMappingColumnValue] returns for a field of a row. *)
Definition mapped (self : ImportBodyComposition) (row : Series) (field : string)
  : pyval :=
  match getMappingColumnValue self row field with
  | Ok v => v
  | Raise _ => PNone
  end.

(** The canonical row [getMappingRowValues] builds. *)
Definition row_output (self : ImportBodyComposition) (row : Series) : dict pyval :=
  map (fun key => (key, mapped self row key)) BodyComposition_columns.

(** The row passes the user filter. *)
Definition row_considered (filterByUser : bool) (user : json)
  (self : ImportBodyComposition) (row : Series) : bool :=
  negb filterByUser || py_eq (mapped self row "userName") user.

(** The field is marked mandatory by the schema. *)
Definition mandatory (self : ImportBodyComposition) (key : string) : bool :=
  match mandatory_marker self key with
  | Some m => json_eq_str m "True"
  | None => false
  end.

(** Every mandatory field of the canonical row has a value. *)
Definition fields_present (self : ImportBodyComposition) (items : dict pyval) : bool :=
  forallb (fun kv => truthy (snd kv) || negb (mandatory self (fst kv))) items.

(** What the loop body of [processWeightFile] does with a row: it raises,
    leaves the RecordSet as it is ([None]) or appends the canonical row. *)
Definition row_decision (filterByUser : bool) (user : json)
  (self : ImportBodyComposition) (row : Series) : res (option (dict pyval)) :=
  if row_considered filterByUser user self row then
    dateISOformat <- timestamp_date_isoformat (mapped self row "timestamp") ;;
    fresh <- not_before_watermark (lastDate self) dateISOformat ;;
    if fresh && fields_present self (row_output self row)
       && empty (findRecord (BodyComposition self) (mapped self row "timestamp"))
    then Ok (Some (row_output self row))
    else Ok None
  else Ok None.

End Vocabulary.

(** The timestamps of the stored rows that are Timestamps. *)
Fixpoint stamps (bc : list (dict pyval)) : list Timestamp :=
  match bc with
  | [] => []
  | r :: bc' =>
      match record_timestamp r with
      | PStamp t => t :: stamps bc'
      | _ => stamps bc'
      end
  end.

(** No stored row is without a Timestamp. *)
Definition all_stamped (bc : list (dict pyval)) : bool :=
  forallb (fun r => match record_timestamp r with PStamp _ => true | _ => false end) bc.

(** Ascending by timestamp, [NaT] last. *)
Definition sorted_by_timestamp (bc : list (dict pyval)) : Prop :=
  Sorted (fun a b => stamp_le (record_timestamp a) (record_timestamp b) = true) bc.

Section Loop.

Context {lib : Library}.

(** The RecordSet through the loop of [processWeightFile]: the decisions of
    the rows, one after the other, from the RecordSet [bc]. *)
Fixpoint rows_loop (filterByUser : bool) (user : json) (self : ImportBodyComposition)
  (bc : list (dict pyval)) (rowsInput : list Series) : res (list (dict pyval)) :=
  match rowsInput with
  | [] => Ok bc
  | row :: rest =>
      v <- row_decision filterByUser user (set_BodyComposition self bc) row ;;
      rows_loop filterByUser user self
        (match v with
         | Some r => (bc ++ [r])%list
         | None => bc
         end) rest
  end.

End Loop.

(** The settings [processWeightFile] reads beside its flags. *)
Definition user_setting (self : ImportBodyComposition) : json :=
  match setting self "data" "user" with
  | Some v => v
  | None => JNull
  end.

Definition dateTimeFormat_setting (self : ImportBodyComposition) : json :=
  match setting self "data" "dateTimeFormat" with
  | Some v => v
  | None => JNull
  end.

(** The report of a file of [found] rows of which [loaded] were inserted. *)
Definition report (found loaded : Z) : FileReport :=
  {| rows_found := found; rows_discarded := found - loaded; rows_loaded := loaded |}.

Section Admission.

Context {lib : Library}.

(** What the loop body decides before it looks into the RecordSet: the
    row is considered, its timestamp has a date that is not before the
    watermark, and its mandatory fields are present. *)
Definition row_admissible (filterByUser : bool) (user : json)
  (self : ImportBodyComposition) (row : Series) : res bool :=
  if row_considered filterByUser user self row then
    dateISOformat <- timestamp_date_isoformat (mapped self row "timestamp") ;;
    fresh <- not_before_watermark (lastDate self) dateISOformat ;;
    Ok (fresh && fields_present self (row_output self row))
  else Ok false.

End Admission.

(** A schema that marks only [weight] mandatory. *)
Definition lenient_mapping : dict json :=
  [("timestamp", JObj [("name", JStr "Time"); ("type", JStr "raw")]);
   ("weight", JObj [("name", JStr "Weight"); ("type", JStr "weight");
                    ("mandatory", JStr "True")])].

Definition lenient_self : ImportBodyComposition :=
  {| jsonProperties := scenario_settings [];
     mapInfo := lenient_mapping;
     BodyComposition := [];
     lastDate := JNull |}.

(** A CSV whose rows have an empty timestamp field and the given weights. *)
Definition csv_without_timestamps (weights : list string) : DataFrame :=
  csv (map (fun w => csv_row NaN (PStr w)) weights).

(** The calls that delete the entries [l] of the date [date], in order. *)
Definition deletions (l : list weigh_in) (date : string) : list event :=
  map (fun e => DeleteWeighIn (samplePk e) date) l.

(** An object whose settings enable [callAPI], with the rows [bc] in its
    RecordSet and the members [extra] added to [data]. *)
Definition importing_self (extra : dict json) (bc : list (dict pyval))
  : ImportBodyComposition :=
  set_BodyComposition (scenario_self (("callAPI", JStr "True") :: extra)) bc.

Definition empty_account : account :=
  {| offline := false; entries := []; next_pk := 1 |}.

Definition world_of (self : ImportBodyComposition) (a : account) : World account :=
  {| importer := self; client := a; trace := [] |}.

(** A row of the input frame after the conversion of its timestamp. *)
Definition converted_row (time : Timestamp) (weight : string) : Series :=
  csv_row (PStamp time) (PStr weight).

(** A schema whose timestamp rule has no type, and so the type [value]. *)
Definition untyped_timestamp_mapping : dict json :=
  [("timestamp", JObj [("name", JStr "Time")]);
   ("weight", JObj [("name", JStr "Weight"); ("type", JStr "weight")])].

Definition with_mapping (m : dict json) : ImportBodyComposition :=
  {| jsonProperties := scenario_settings [];
     mapInfo := m;
     BodyComposition := [];
     lastDate := JNull |}.

(** ** Vocabulary of the further properties *)

(** The digits at the start of a text. *)
Definition leading_digits (s : string) : string := fst (span_digits s).

(** A decimal point at the start of a text, with the digits after it. *)
Definition point_and_digits (r : string) : string :=
  match r with
  | String c r1 => if is_dot c then String c (leading_digits r1) else ""
  | "" => ""
  end.

(** A decimal point at the start of a text, with the digits after it, when
    there is at least one. *)
Definition fraction (r : string) : option string :=
  match r with
  | String c r1 =>
      if is_dot c then
        match leading_digits r1 with
        | "" => None
        | fs => Some (String c fs)
        end
      else None
  | "" => None
  end.

(** From the first digit of the text: the digits, then a decimal point when
    one follows, then the digits after it. *)
Fixpoint first_numeric_token (s : string) : option string :=
  match s with
  | "" => None
  | String c s' =>
      if is_digit c
      then Some (leading_digits s ++ point_and_digits (snd (span_digits s)))
      else first_numeric_token s'
  end.

(** The first place of the text where digits, a decimal point and at least
    one digit follow each other: those digits, the point and all the digits
    after it. *)
Fixpoint first_decimal_token (s : string) : option string :=
  match s with
  | "" => None
  | String c s' =>
      match leading_digits s, fraction (snd (span_digits s)) with
      | String _ _, Some fr => Some (leading_digits s ++ fr)
      | _, _ => first_decimal_token s'
      end
  end.

(** The rows of the calls of [add_body_composition] among the effects, in the
    order of the calls. *)
Fixpoint add_calls (tr : list event) : list (dict pyval) :=
  match tr with
  | [] => []
  | AddBodyComposition row :: tr' => row :: add_calls tr'
  | _ :: tr' => add_calls tr'
  end.

(** The dates of the calls of [get_daily_weigh_ins], in the order of the
    calls. *)
Fixpoint fetch_calls (tr : list event) : list string :=
  match tr with
  | [] => []
  | GetDailyWeighIns date :: tr' => date :: fetch_calls tr'
  | _ :: tr' => fetch_calls tr'
  end.

(** The dates assigned to [data.lastDate], in the order of the
    assignments. *)
Fixpoint watermark_assignments (tr : list event) : list string :=
  match tr with
  | [] => []
  | SetLastDate date :: tr' => date :: watermark_assignments tr'
  | _ :: tr' => watermark_assignments tr'
  end.

Definition is_delete_call (ev : event) : bool :=
  match ev with
  | DeleteWeighIn _ _ => true
  | _ => false
  end.

(** The dates of the stored rows, as the importer computes them. *)
Fixpoint record_dates (bc : list (dict pyval)) : list string :=
  match bc with
  | [] => []
  | r :: bc' =>
      match timestamp_date_isoformat (record_timestamp r) with
      | Ok d => d :: record_dates bc'
      | Raise _ => record_dates bc'
      end
  end.

Definition last_date (dates : list string) : option string :=
  match rev dates with
  | [] => None
  | d :: _ => Some d
  end.

(** The day of a Timestamp, counted from the epoch. *)
Definition day_number (t : Timestamp) : Z := t / ns_per_day.

(** The Timestamps pandas has: [Timestamp.min] to [Timestamp.max], the
    nanosecond counts that fit 64 bits. *)
Definition timestamp_in_range (t : Timestamp) : Prop :=
  - 2 ^ 63 < t < 2 ^ 63.

(** The civil dates in calendar order. *)
Definition civil_lt (a b : Z * Z * Z) : bool :=
  let '(y1, m1, d1) := a in
  let '(y2, m2, d2) := b in
  (y1 <? y2) || ((y1 =? y2) && ((m1 <? m2) || ((m1 =? m2) && (d1 <? d2)))).

(** A civil date of the years pandas has. *)
Definition civil_in_range (c : Z * Z * Z) : bool :=
  let '(y, m, d) := c in
  (1677 <=? y) && (y <=? 2262) && (1 <=? m) && (m <=? 12) && (1 <=? d) && (d <=? 31).

(** The [n + 1] days from [day], whose civil date is [c], have civil dates
    of these years, in strictly ascending calendar order. *)
Fixpoint ascending_days_from (c : Z * Z * Z) (day : Z) (n : nat) : bool :=
  match n with
  | O => civil_in_range c
  | S n' =>
      let c' := civil_of_days (day + 1) in
      if civil_in_range c && civil_lt c c'
      then ascending_days_from c' (day + 1) n'
      else false
  end.

Definition ascending_days (first : Z) (n : nat) : bool :=
  ascending_days_from (civil_of_days first) first n.

(** The numbers [first] to [first + n], printed with [w] digits, have [w]
    characters and are in strictly ascending order as strings. *)
Fixpoint ascending_numerals (w : nat) (first : Z) (n : nat) : bool :=
  match n with
  | O => Nat.eqb (String.length (pad_zeros w (Z.to_N first))) w
  | S n' =>
      if Nat.eqb (String.length (pad_zeros w (Z.to_N first))) w
         && String.ltb (pad_zeros w (Z.to_N first)) (pad_zeros w (Z.to_N (first + 1)))
      then ascending_numerals w (first + 1) n'
      else false
  end.

(** ["%04d-%02d-%02d"] of a civil date. *)
Definition iso_date (c : Z * Z * Z) : string :=
  let '(y, m, d) := c in
  pad_zeros 4 (Z.to_N y) ++ "-" ++ pad_zeros 2 (Z.to_N m) ++ "-" ++ pad_zeros 2 (Z.to_N d).

(** The world [w] with the rows [rows] as the RecordSet of its object. *)
Definition with_records {C : Type} (w : World C) (rows : list (dict pyval)) : World C :=
  {| importer := set_BodyComposition (importer w) rows;
     client := client w;
     trace := trace w |}.

(** The computation [c] does not read the RecordSet of the object: with the
    rows [rows] put in the object it does the same, and leaves them there. *)
Definition frames {C A : Type} (rows : list (dict pyval)) (c : M C A) : Prop :=
  forall w, c (with_records w rows) = (with_records (fst (c w)) rows, snd (c w)).

(** * Properties *)

(** ** The library models on known values *)

Example float_70_5 : float_of_string "70.5" = Ok (FFin false 141 (-1)).
Proof. reflexivity. Qed.

Example float_tenth : float_of_string "0.1" = Ok (FFin false 3602879701896397 (-55)).
Proof. reflexivity. Qed.

Example float_forms :
  float_of_string " 1_000.e-2 " = Ok (FFin false 5 1) /\
  float_of_string "-.5" = Ok (FFin true 1 (-1)) /\
  float_of_string "12." = Ok (FFin false 3 2) /\
  float_of_string "1e400" = Ok (FInf false) /\
  float_of_string "5e-324" = Ok (FFin false 1 (-1074)) /\
  float_of_string "2e-324" = Ok (FFin false 0 0) /\
  float_of_string "9007199254740993" = Ok (FFin false 1 53) /\
  float_of_string "9007199254740995" = Ok (FFin false 2251799813685249 2) /\
  float_of_string "-Infinity" = Ok (FInf true) /\
  float_of_string "NaN" = Ok FNan.
Proof. repeat apply conj; vm_compute; reflexivity. Qed.

Example float_malformed :
  float_of_string "1.2.3" = Raise ValueError /\
  float_of_string "." = Raise ValueError /\
  float_of_string "" = Raise ValueError /\
  float_of_string "70.5kg" = Raise ValueError /\
  float_of_string "1__0" = Raise ValueError /\
  float_of_string "1e" = Raise ValueError.
Proof. repeat apply conj; vm_compute; reflexivity. Qed.

Example float_repr_examples :
  float_repr false 141 (-1) = "70.5" /\
  float_repr false 3602879701896397 (-55) = "0.1" /\
  float_repr true 1 (-1) = "-0.5" /\
  float_repr false 25 2 = "100.0" /\
  float_repr false 152587890625 16 = "1e+16" /\
  float_repr false 30517578125 15 = "1000000000000000.0" /\
  float_repr false 5902958103587057 (-69) = "1e-05" /\
  float_repr false 1 (-1074) = "5e-324" /\
  float_repr false 0 0 = "0.0".
Proof. repeat apply conj; vm_compute; reflexivity. Qed.

Example date_isoformat_examples :
  date_isoformat (mk_timestamp 2024 1 1 8 0) = "2024-01-01" /\
  date_isoformat (mk_timestamp 2024 2 29 23 59) = "2024-02-29" /\
  date_isoformat (mk_timestamp 1999 12 31 0 0) = "1999-12-31" /\
  date_isoformat 0 = "1970-01-01" /\
  date_isoformat (-1) = "1969-12-31" /\
  mk_timestamp 2024 1 1 8 0 = 1704096000000000000.
Proof. repeat apply conj; vm_compute; reflexivity. Qed.

Example regex_examples :
  map (Re.search regex_weight) ["70.5kg"; "1.2.3kg"; "..."; "kg70"; "nan"; " 70.5"; "12."]
    = [Some "70.5"; Some "1.2.3"; Some "..."; None; None; None; Some "12."] /\
  map (Re.search regex_kcal) ["70.5kg"; "1.2.3kg"; "..."; "kg70"; "a1b2.5"; "x12.y"]
    = [Some "70.5"; Some "1.2"; None; Some "70"; Some "1"; Some "12."] /\
  map (Re.search regex_percent) ["23.4%"; "abc"; "a1b2.5"; "12.x3.4"; "12."; "1.2.3"]
    = [Some "23.4"; None; Some "2.5"; Some "3.4"; None; Some "1.2"].
Proof. repeat apply conj; vm_compute; reflexivity. Qed.

Example strptime_example :
  strptime_ymd_hm "2024-01-01 08:00" = Some (mk_timestamp 2024 1 1 8 0) /\
  strptime_ymd_hm "2024-02-30 08:00" = None /\
  example_timestamp_str (mk_timestamp 2024 1 1 8 0) = "2024-01-01 08:00:00".
Proof. repeat apply conj; vm_compute; reflexivity. Qed.

(** ** Settings and flags *)

Lemma res_bind_Ok {A B : Type} (c : res A) (k : A -> res B) (a : A) :
  c = Ok a -> bind c k = k a.
Proof. intros ->. reflexivity. Qed.

Lemma res_bind_Raise {A B : Type} (c : res A) (k : A -> res B) (e : exn) :
  c = Raise e -> bind c k = Raise e.
Proof. intros ->. reflexivity. Qed.

Lemma has_key_lookup {V : Type} (k : string) (d : dict V) :
  has_key k d = true <-> exists v, lookup k d = Some v.
Proof.
  unfold has_key. destruct (lookup k d) as [v|].
  - split; [eauto | reflexivity].
  - split; [discriminate | intros [v H]; discriminate].
Qed.

(** [getPropertyValue] returns the setting, or the default when the document
    has no such member; it never raises. *)
Lemma getPropertyValue_setting (self : ImportBodyComposition)
  (section property : string) (default : json) :
  getPropertyValue self section property default =
    Ok (match setting self section property with
        | Some v => v
        | None => default
        end).
Proof.
  unfold getPropertyValue, setting, subscript, getitem.
  destruct (jsonProperties self) as [| | | | |l|top]; try reflexivity.
  destruct (lookup section top) as [sec|]; [|reflexivity].
  destruct sec as [| | | | s|l|members]; try reflexivity; simpl.
  - destruct (substring_of property s); reflexivity.
  - destruct (existsb _ l); reflexivity.
  - unfold has_key, getitem. destruct (lookup property members); reflexivity.
Qed.

Lemma json_eq_str_true (j : json) (s : string) :
  json_eq_str j s = true <-> j = JStr s.
Proof.
  destruct j; simpl; try (split; [discriminate | intros H; discriminate]).
  rewrite String.eqb_eq. split; [intros ->; reflexivity | intros H; congruence].
Qed.

Lemma flag_enabled_setting (self : ImportBodyComposition) (name : string) :
  flag_enabled self name = true <-> setting self "data" name = Some (JStr "True").
Proof.
  unfold flag_enabled. rewrite getPropertyValue_setting.
  destruct (setting self "data" name) as [v|].
  - rewrite json_eq_str_true. split; congruence.
  - simpl. split; discriminate.
Qed.

Lemma isMandatory_marker (self : ImportBodyComposition) (key : string) :
  isMandatory self key =
    Ok (match mandatory_marker self key with
        | Some m => json_eq_str m "True"
        | None => false
        end).
Proof.
  unfold isMandatory, mandatory_marker, has_key, getitem, subscript.
  destruct (lookup key (mapInfo self)) as [rule|]; [|reflexivity].
  destruct rule as [| | | | | |members]; try reflexivity; simpl.
  unfold getitem. destruct (lookup "mandatory" members); reflexivity.
Qed.

Section Flags.

Context {lib : Library} {C : Type} {garmin : GarminClient C}.

Lemma processWeightFile_flags (self : ImportBodyComposition) (InputData : DataFrame) :
  processWeightFile self InputData =
    processWeightFile_with
      (flag_enabled self "filterByUser") (flag_enabled self "sortData")
      (match setting self "data" "user" with Some v => v | None => JNull end)
      (match setting self "data" "dateTimeFormat" with Some v => v | None => JNull end)
      self InputData.
Proof.
  unfold processWeightFile, flag_enabled.
  rewrite !getPropertyValue_setting. reflexivity.
Qed.

Lemma loadDataOnGarminConnect_flags (w : World C) :
  loadDataOnGarminConnect w =
    if flag_enabled (importer w) "callAPI" then
      bindM (import_rows (flag_enabled (importer w) "deleteOldData") [] 0
               (BodyComposition (importer w)))
            (fun loadedItems => retM (Some loadedItems)) w
    else (w, Ok None).
Proof.
  unfold loadDataOnGarminConnect, flag_enabled.
  rewrite !getPropertyValue_setting. unfold bindM, lift, retM. simpl.
  destruct (json_eq_str _ "True"); reflexivity.
Qed.

(** C10.  A boolean-like setting counts as true exactly when it is the
    string ['True']: the four flags [filterByUser], [sortData], [callAPI]
    and [deleteOldData] as [processWeightFile] and [loadDataOnGarminConnect]
    take them, and the [mandatory] marker of a mapping rule as
    [validMandatoryValues] takes it.  Any other value, the JSON boolean
    [true] and the string ['true'] among them, counts as false. *)
Theorem boolean_settings_exact_True :
  (forall self name,
     flag_enabled self name = true <-> setting self "data" name = Some (JStr "True")) /\
  (forall self InputData,
     processWeightFile self InputData =
       processWeightFile_with
         (flag_enabled self "filterByUser") (flag_enabled self "sortData")
         (match setting self "data" "user" with Some v => v | None => JNull end)
         (match setting self "data" "dateTimeFormat" with Some v => v | None => JNull end)
         self InputData) /\
  (forall w : World C,
     loadDataOnGarminConnect w =
       if flag_enabled (importer w) "callAPI" then
         bindM (import_rows (flag_enabled (importer w) "deleteOldData") [] 0
                  (BodyComposition (importer w)))
               (fun loadedItems => retM (Some loadedItems)) w
       else (w, Ok None)) /\
  (forall self key,
     exists b, isMandatory self key = Ok b /\
       (b = true <-> mandatory_marker self key = Some (JStr "True"))) /\
  (forall v, v <> JStr "True" -> json_eq_str v "True" = false) /\
  json_eq_str (JBool true) "True" = false /\
  json_eq_str (JStr "true") "True" = false.
Proof.
  split; [exact flag_enabled_setting|].
  split; [exact processWeightFile_flags|].
  split; [exact loadDataOnGarminConnect_flags|].
  split.
  { intros self key. rewrite isMandatory_marker. eexists. split; [reflexivity|].
    destruct (mandatory_marker self key) as [m|].
    - rewrite json_eq_str_true. split; congruence.
    - split; discriminate. }
  split.
  { intros v Hv. destruct (json_eq_str v "True") eqn:E; [|reflexivity].
    apply json_eq_str_true in E. contradiction. }
  split; reflexivity.
Qed.

(** C6.  With the [callAPI] flag disabled, [loadDataOnGarminConnect] leaves
    the whole state as it is, whatever the RecordSet holds: no event is added
    to the trace (no fetch, no deletion, no push), the client is untouched and
    the settings document, [data.lastDate] included, is unchanged. *)
Theorem dry_run_frame (w : World C) :
  flag_enabled (importer w) "callAPI" = false ->
  loadDataOnGarminConnect w = (w, Ok None) /\
  trace (fst (loadDataOnGarminConnect w)) = trace w /\
  client (fst (loadDataOnGarminConnect w)) = client w /\
  setting (importer (fst (loadDataOnGarminConnect w))) "data" "lastDate"
    = setting (importer w) "data" "lastDate".
Proof.
  intros H. rewrite loadDataOnGarminConnect_flags, H. repeat split.
Qed.

End Flags.

(** ** The scenario of the three rows *)

(** C3.  With the schema [scenario_mapping] (timestamp and weight mandatory,
    weight of type [weight]), no watermark and an empty RecordSet, the CSV
    with the rows (2024-01-01 08:00, "70.5kg"), (2024-01-01 08:00, "71.0kg")
    and (2024-01-02 08:00, empty) leaves exactly one record, timestamp
    2024-01-01 08:00 with weight 70.5 (that is 141 * 2^-1), and the report is
    3 rows found, 2 discarded, 1 loaded.  The library is any one that reads
    the two timestamps as written; the empty field is the [NaN] that
    [pd.read_csv] gives, or an empty string. *)
Theorem scenario_three_rows (lib : Library) (w3 : pyval) :
  to_datetime scenario_format (PStr "2024-01-01 08:00")
    = Ok (Some (mk_timestamp 2024 1 1 8 0)) ->
  to_datetime scenario_format (PStr "2024-01-02 08:00")
    = Ok (Some (mk_timestamp 2024 1 2 8 0)) ->
  w3 = NaN \/ w3 = PStr "" ->
  processWeightFile (scenario_self []) (scenario_csv w3) =
    Ok (set_BodyComposition (scenario_self [])
          [record (PStamp (mk_timestamp 2024 1 1 8 0)) (PFloat (FFin false 141 (-1)))],
        {| rows_found := 3; rows_discarded := 2; rows_loaded := 1 |}).
Proof.
  intros H1 H2 Hw.
  rewrite processWeightFile_flags.
  unfold processWeightFile_with, prepare_input. simpl.
  rewrite H1, H2. simpl.
  destruct Hw as [-> | ->]; vm_compute; reflexivity.
Qed.

Lemma scenario_three_rows_witness :
  processWeightFile (scenario_self []) (scenario_csv NaN) =
    Ok (set_BodyComposition (scenario_self [])
          [record (PStamp (mk_timestamp 2024 1 1 8 0)) (PFloat (FFin false 141 (-1)))],
        {| rows_found := 3; rows_discarded := 2; rows_loaded := 1 |}).
Proof.
  apply (scenario_three_rows pandas_example NaN).
  - reflexivity.
  - reflexivity.
  - left. reflexivity.
Defined.

(** ** The mapping engine *)

(** A computation that raises only what [except Exception] catches. *)
Definition catchable {A : Type} (c : res A) : Prop :=
  forall e, c = Raise e -> is_Exception e = true.

Lemma catchable_Ok {A : Type} (a : A) : catchable (Ok a).
Proof. intros e H. discriminate. Qed.

Lemma catchable_Raise {A : Type} (e : exn) :
  is_Exception e = true -> catchable (@Raise A e).
Proof. intros H e' H'. injection H' as <-. exact H. Qed.

Lemma catchable_bind {A B : Type} (c : res A) (k : A -> res B) :
  catchable c -> (forall a, catchable (k a)) -> catchable (bind c k).
Proof.
  intros Hc Hk e H. destruct c as [a|e']; simpl in H.
  - exact (Hk a e H).
  - injection H as <-. apply Hc. reflexivity.
Qed.

Lemma catchable_if {A : Type} (b : bool) (c1 c2 : res A) :
  catchable c1 -> catchable c2 -> catchable (if b then c1 else c2).
Proof. destruct b; auto. Qed.

Create HintDb catchable.

#[local] Hint Resolve catchable_Ok catchable_bind catchable_if : catchable.

Lemma catchable_getitem {V : Type} (k : string) (d : dict V) : catchable (getitem k d).
Proof.
  unfold getitem. destruct (lookup k d); [apply catchable_Ok|].
  apply catchable_Raise. reflexivity.
Qed.

Lemma catchable_subscript (j : json) (k : string) : catchable (subscript j k).
Proof.
  destruct j; simpl; try (apply catchable_Raise; reflexivity).
  apply catchable_getitem.
Qed.

Lemma catchable_json_contains (k : string) (j : json) : catchable (json_contains k j).
Proof.
  destruct j; simpl; try (apply catchable_Raise; reflexivity); apply catchable_Ok.
Qed.

Lemma float_of_string_raises (s : string) (e : exn) :
  float_of_string s = Raise e -> e = ValueError.
Proof.
  unfold float_of_string.
  destruct (drop_underscores _ _) as [t|]; [|congruence].
  destruct (parse_sign t) as [neg u].
  destruct (_ || _)%bool; [discriminate|].
  destruct (_ =? _)%string; [discriminate|].
  destruct (parse_decimal neg u); congruence.
Qed.

Lemma catchable_float_of_string (s : string) : catchable (float_of_string s).
Proof. intros e H. apply float_of_string_raises in H. subst e. reflexivity. Qed.

Lemma catchable_float_of_int (z : Z) : catchable (float_of_int z).
Proof.
  unfold float_of_int. destruct (binary64_of_ratio _ _ _);
    try apply catchable_Ok. apply catchable_Raise. reflexivity.
Qed.

#[local] Hint Resolve catchable_getitem catchable_subscript catchable_json_contains
  catchable_float_of_string catchable_float_of_int : catchable.

Lemma star_leading (p : ascii -> bool) (k : string -> option string) (s : string) :
  (forall t, k t = Some "") ->
  exists m, Re.star p k s = Some m.
Proof.
  intros Hk. induction s as [|c s IH]; simpl.
  - eauto.
  - destruct (p c); [|eauto]. destruct IH as [m ->]. eauto.
Qed.

(** The pattern of the [weight] rule matches the leading run of digits and
    points, when there is one. *)
Lemma search_regex_weight (s : string) :
  Re.search regex_weight s =
    match leading_run s with
    | "" => None
    | run => Some run
    end.
Proof.
  unfold Re.search, regex_weight. simpl.
  destruct s as [|c s]; [reflexivity|]. simpl.
  destruct (is_digit c || is_dot c); [|reflexivity]. simpl.
  assert (H : Re.star (fun c => is_digit c || is_dot c) (fun _ => Some "") s
              = Some (leading_run s)).
  { clear c. induction s as [|c s IH]; simpl; [reflexivity|].
    destruct (is_digit c || is_dot c); [|reflexivity]. rewrite IH. reflexivity. }
  rewrite H. reflexivity.
Qed.

(** *** [float()] on a run of digits and points *)

Lemma digit_or_point_char (c : ascii) :
  is_digit c || is_dot c = true ->
  is_space c = false /\ is_underscore c = false /\ lower c = c /\
  Ascii.eqb c "-" = false /\ Ascii.eqb c "+" = false /\
  Ascii.eqb c "e" = false /\ Ascii.eqb c "i" = false /\ Ascii.eqb c "n" = false /\
  (is_digit c = false -> c = "."%char).
Proof.
  destruct c as [b0 b1 b2 b3 b4 b5 b6 b7].
  destruct b0, b1, b2, b3, b4, b5, b6, b7; vm_compute; intros H;
    try discriminate H; repeat split; try reflexivity; intros H'; discriminate H'.
Qed.

Lemma lstrip_run (s : string) : digits_and_points s = true -> lstrip s = s.
Proof.
  destruct s as [|c s]; [reflexivity|]. simpl. intros H.
  apply andb_prop in H as [Hc _].
  destruct (digit_or_point_char c Hc) as (-> & _). reflexivity.
Qed.

Lemma rstrip_run (s : string) : digits_and_points s = true -> rstrip s = s.
Proof.
  induction s as [|c s IH]; [reflexivity|]. simpl. intros H.
  apply andb_prop in H as [Hc Hs].
  destruct (digit_or_point_char c Hc) as (-> & _). rewrite (IH Hs). reflexivity.
Qed.

Lemma drop_underscores_run (prev : ascii) (s : string) :
  is_underscore prev = false -> digits_and_points s = true ->
  drop_underscores prev s = Some s.
Proof.
  revert prev. induction s as [|c s IH]; intros prev Hp H; simpl.
  - rewrite Hp. reflexivity.
  - simpl in H. apply andb_prop in H as [Hc Hs].
    destruct (digit_or_point_char c Hc) as (_ & Hu & _).
    rewrite Hu, Hp. simpl. rewrite (IH c Hu Hs). reflexivity.
Qed.

Lemma lower_string_run (s : string) : digits_and_points s = true -> lower_string s = s.
Proof.
  induction s as [|c s IH]; [reflexivity|]. simpl. intros H.
  apply andb_prop in H as [Hc Hs].
  destruct (digit_or_point_char c Hc) as (_ & _ & -> & _). rewrite (IH Hs). reflexivity.
Qed.

Lemma span_digits_run (s : string) :
  digits_and_points s = true ->
  digits_and_points (snd (span_digits s)) = true /\
  count_points s = count_points (snd (span_digits s)) /\
  has_digit s = negb (fst (span_digits s) =? "")%string
                || has_digit (snd (span_digits s)) /\
  (snd (span_digits s) = "" \/ exists r, snd (span_digits s) = String "." r).
Proof.
  induction s as [|c s IH]; simpl; intros H.
  - repeat split. left. reflexivity.
  - apply andb_prop in H as [Hc Hs].
    destruct (is_digit c) eqn:Hd.
    + destruct (span_digits s) as [ds r]. simpl in *.
      destruct (IH Hs) as (H1 & H2 & H3 & H4).
      assert (is_dot c = false) as ->.
      { destruct c as [b0 b1 b2 b3 b4 b5 b6 b7].
        destruct b0, b1, b2, b3, b4, b5, b6, b7; vm_compute in Hd |- *;
          congruence. }
      repeat split; assumption.
    + simpl. rewrite Hd, Hs. simpl in Hc.
      destruct (digit_or_point_char c) as (_ & _ & _ & _ & _ & _ & _ & _ & Hdot).
      { rewrite Hd. exact Hc. }
      rewrite Hc. repeat split. right. exists s. rewrite (Hdot Hd). reflexivity.
Qed.

Lemma parse_exponent_point (r : string) : parse_exponent (String "." r) = None.
Proof. reflexivity. Qed.

Lemma parse_decimal_run (neg : bool) (s : string) :
  digits_and_points s = true ->
  (exists f, parse_decimal neg s = Some f) <->
  (count_points s <= 1)%nat /\ has_digit s = true.
Proof.
  intros H. unfold parse_decimal.
  destruct (span_digits_run s H) as (H1 & H2 & H3 & H4).
  destruct (span_digits s) as [ip r]. simpl in *.
  rewrite H2, H3. clear H2 H3.
  destruct H4 as [-> | [r1 ->]].
  - simpl. rewrite orb_false_r.
    destruct (ip =? "")%string; simpl.
    + split; [intros [f Hf]; discriminate | intros [_ Hf]; discriminate].
    + split; [intros _; split; [lia | reflexivity] | intros _; eauto].
  - simpl in H1.
    destruct (span_digits_run r1 H1) as (H5 & H6 & H7 & H8).
    destruct (span_digits r1) as [fp r']. simpl in *.
    rewrite H6, H7. clear H6 H7.
    destruct H8 as [-> | [r2 ->]].
    + simpl. rewrite orb_false_r.
      destruct (ip =? "")%string, (fp =? "")%string; simpl;
        (split; [intros [f Hf]; first [discriminate | split; [lia | reflexivity]]
                | intros [_ Hf]; first [discriminate | eauto]]).
    + rewrite parse_exponent_point. simpl.
      split.
      * intros [f Hf]. destruct (_ && _)%bool; discriminate.
      * intros [Hle _]. lia.
Qed.

(** [float()] accepts a run of digits and points exactly when it has at
    most one point and at least one digit. *)
Lemma float_of_run (s : string) :
  digits_and_points s = true ->
  (exists f, float_of_string s = Ok f) <->
  (count_points s <= 1)%nat /\ has_digit s = true.
Proof.
  intros H. rewrite <- (parse_decimal_run false s H).
  unfold float_of_string.
  rewrite (lstrip_run s H), (rstrip_run s H), (drop_underscores_run "000" s eq_refl H).
  destruct s as [|c s].
  { simpl. split; intros [f Hf]; discriminate. }
  pose proof H as H'. simpl in H'. apply andb_prop in H' as [Hc Hs].
  destruct (digit_or_point_char c Hc) as (_ & _ & _ & Hm & Hp & _ & Hi & Hn & _).
  assert (Hsign : parse_sign (String c s) = (false, String c s)).
  { unfold parse_sign.
    destruct c as [b0 b1 b2 b3 b4 b5 b6 b7].
    destruct b0, b1, b2, b3, b4, b5, b6, b7; try reflexivity;
      vm_compute in Hm, Hp; discriminate. }
  rewrite Hsign, (lower_string_run _ H).
  assert (Hinf : ((String c s =? "inf") || (String c s =? "infinity"))%string = false).
  { simpl. rewrite Hi. reflexivity. }
  assert (Hnan : (String c s =? "nan")%string = false).
  { simpl. rewrite Hn. reflexivity. }
  rewrite Hinf, Hnan.
  destruct (parse_decimal false (String c s)) as [f|].
  - split; eauto.
  - split; intros [f Hf]; discriminate.
Qed.

Lemma leading_run_chars (s : string) : digits_and_points (leading_run s) = true.
Proof.
  induction s as [|c s IH]; [reflexivity|]. simpl.
  destruct (is_digit c || is_dot c) eqn:E; [|reflexivity].
  simpl. rewrite E, IH. reflexivity.
Qed.

Section Mapping.

Context {lib : Library}.

Lemma catchable_py_float (v : pyval) : catchable (py_float v).
Proof.
  destruct v; simpl; auto with catchable; apply catchable_Raise; reflexivity.
Qed.

Lemma catchable_regex_value (r : Re.pattern) (v : pyval) : catchable (regex_value r v).
Proof.
  unfold regex_value. destruct (Re.search r (py_str v)); auto with catchable.
Qed.

Lemma catchable_series_contains (k : json) (row : Series) :
  catchable (series_contains k row).
Proof.
  destruct k; simpl; try apply catchable_Ok; apply catchable_Raise; reflexivity.
Qed.

Lemma catchable_series_getitem (k : json) (row : Series) :
  catchable (series_getitem k row).
Proof.
  destruct k; simpl; auto with catchable; apply catchable_Raise; reflexivity.
Qed.

Lemma catchable_body (self : ImportBodyComposition) (row : Series) (columnName : string) :
  catchable (getMappingColumnValue_body self row columnName).
Proof.
  unfold getMappingColumnValue_body.
  repeat first
    [ apply catchable_if
    | apply catchable_bind; [|intros ?]
    | apply catchable_regex_value
    | apply catchable_py_float
    | apply catchable_series_contains
    | apply catchable_series_getitem
    | solve [auto with catchable] ].
Qed.

Lemma getMappingColumnValue_returns (self : ImportBodyComposition) (row : Series)
  (columnName : string) :
  getMappingColumnValue self row columnName =
    Ok (match getMappingColumnValue_body self row columnName with
        | Ok v => v
        | Raise _ => PNone
        end).
Proof.
  unfold getMappingColumnValue, try_except.
  pose proof (catchable_body self row columnName) as H.
  destruct (getMappingColumnValue_body self row columnName) as [v|e]; [reflexivity|].
  rewrite (H e eq_refl). reflexivity.
Qed.


(** The value of a well-formed rule of the given type on a cell. *)
Lemma getMappingColumnValue_rule (self : ImportBodyComposition) (row : Series)
  (columnName name ty : string) (fields : dict json) (rowValue : pyval) :
  lookup columnName (mapInfo self) = Some (JObj fields) ->
  lookup "name" fields = Some (JStr name) ->
  lookup "type" fields = Some (JStr ty) ->
  lookup name row = Some rowValue ->
  getMappingColumnValue_body self row columnName =
    if (ty =? "weight")%string then regex_value regex_weight rowValue
    else if (ty =? "kcal")%string then regex_value regex_kcal rowValue
    else if (ty =? "percent")%string then regex_value regex_percent rowValue
    else if (ty =? "value")%string then f <- py_float rowValue ;; Ok (PFloat f)
    else Ok rowValue.
Proof.
  intros Hrule Hname Hty Hrow.
  unfold getMappingColumnValue_body, has_key, getitem.
  rewrite Hrule. simpl. unfold has_key, getitem. rewrite Hname. simpl.
  unfold has_key, getitem. rewrite Hrow. simpl. rewrite Hty. simpl.
  reflexivity.
Qed.

(** C8, as the code has it.  A rule of type [weight] takes the leading run of
    digits and decimal points of the stringified value, however many points
    it has, and gives it to [float()]: the result is that float, and it is
    absent when the text starts with neither a digit nor a point or when
    [float()] rejects the run, which it does exactly when the run has more
    than one point or no digit. *)
Theorem weight_rule_value (self : ImportBodyComposition) (row : Series)
  (columnName name : string) (fields : dict json) (rowValue : pyval) :
  lookup columnName (mapInfo self) = Some (JObj fields) ->
  lookup "name" fields = Some (JStr name) ->
  lookup "type" fields = Some (JStr "weight") ->
  lookup name row = Some rowValue ->
  let run := leading_run (py_str rowValue) in
  getMappingColumnValue self row columnName =
    Ok (match run with
        | "" => PNone
        | _ =>
            match float_of_string run with
            | Ok f => PFloat f
            | Raise _ => PNone
            end
        end) /\
  ((exists f, float_of_string run = Ok f) <->
   (count_points run <= 1)%nat /\ has_digit run = true).
Proof.
  intros Hrule Hname Hty Hrow run. split.
  - rewrite getMappingColumnValue_returns.
    rewrite (getMappingColumnValue_rule self row columnName name "weight" fields rowValue)
      by assumption.
    simpl. unfold regex_value. rewrite search_regex_weight. fold run.
    destruct run as [|c r]; [reflexivity|].
    destruct (float_of_string (String c r)); reflexivity.
  - apply float_of_run. apply leading_run_chars.
Qed.

End Mapping.

Lemma weight_rule_value_witness :
  getMappingColumnValue (scenario_self []) (csv_row (PStr "t") (PStr "70.5kg")) "weight"
    = Ok (PFloat (FFin false 141 (-1))) /\
  leading_run "70.5kg" = "70.5".
Proof.
  split; [|reflexivity].
  apply (@weight_rule_value pandas_example (scenario_self [])
           (csv_row (PStr "t") (PStr "70.5kg")) "weight" "Weight"
           [("name", JStr "Weight"); ("type", JStr "weight"); ("mandatory", JStr "True")]
           (PStr "70.5kg")); reflexivity.
Defined.

(** C8, as the specification words it, fails: the text ["1.2.3kg"] begins
    with the numeric token ["1.2"], for which the specification gives 1.2
    (that is 5404319552844595 * 2^-52), and the rule yields [None]. *)
Lemma weight_rule_single_point_counterexample :
  leading_numeric_token "1.2.3kg" = Some "1.2" /\
  weight_value_specified (py_str (PStr "1.2.3kg"))
    = Ok (PFloat (FFin false 5404319552844595 (-52))) /\
  getMappingColumnValue (scenario_self []) (csv_row (PStr "t") (PStr "1.2.3kg")) "weight"
    = Ok PNone /\
  ~ (forall rowValue,
       getMappingColumnValue (scenario_self []) (csv_row (PStr "t") rowValue) "weight"
         = weight_value_specified (py_str rowValue)).
Proof.
  split; [vm_compute; reflexivity|].
  split; [vm_compute; reflexivity|].
  split; [vm_compute; reflexivity|].
  intros H. specialize (H (PStr "1.2.3kg")). vm_compute in H. discriminate.
Qed.

(** ** The loop of processWeightFile *)

Arguments mapped : simpl never.
Arguments row_output : simpl never.
Arguments row_considered : simpl never.
Arguments fields_present : simpl never.
Arguments findRecord : simpl never.

Section Rows.

Context {lib : Library}.

Lemma getMappingColumnValue_mapped (self : ImportBodyComposition) (row : Series)
  (field : string) :
  getMappingColumnValue self row field = Ok (mapped self row field).
Proof.
  unfold mapped. rewrite getMappingColumnValue_returns. reflexivity.
Qed.

Lemma mapM_map {A B : Type} (f : A -> res B) (g : A -> B) (l : list A) :
  (forall a, f a = Ok (g a)) -> mapM f l = Ok (map g l).
Proof.
  intros H. induction l as [|a l IH]; simpl; [reflexivity|].
  rewrite H, IH. reflexivity.
Qed.

Lemma getMappingRowValues_row_output (self : ImportBodyComposition) (row : Series) :
  getMappingRowValues self row = Ok (row_output self row).
Proof.
  unfold getMappingRowValues, row_output. apply mapM_map.
  intros key. rewrite getMappingColumnValue_mapped. reflexivity.
Qed.

Lemma row_output_timestamp (self : ImportBodyComposition) (row : Series) :
  record_timestamp (row_output self row) = mapped self row "timestamp".
Proof. reflexivity. Qed.

Lemma validMandatoryValues_loop_present (self : ImportBodyComposition)
  (items : dict pyval) (b : bool) :
  validMandatoryValues_loop self items b = Ok (b && fields_present self items).
Proof.
  revert b. induction items as [|[key v] items IH]; intros b; simpl.
  - rewrite andb_true_r. reflexivity.
  - rewrite isMandatory_marker. simpl. fold (mandatory self key).
    change (fields_present self ((key, v) :: items))
      with ((truthy v || negb (mandatory self key)) && fields_present self items).
    destruct b; simpl; [|reflexivity].
    destruct (truthy v || negb (mandatory self key)); simpl; [|reflexivity].
    rewrite IH. reflexivity.
Qed.

Lemma validMandatoryValues_present (self : ImportBodyComposition) (items : dict pyval) :
  validMandatoryValues self items = Ok (fields_present self items).
Proof. apply validMandatoryValues_loop_present. Qed.

(** The part of the loop body a considered row goes through. *)
Lemma considered_row_decision (self : ImportBodyComposition) (insertedItems : Z)
  (row : Series) :
  (rowOutput <- getMappingRowValues self row ;;
   ts <- getitem "timestamp" rowOutput ;;
   dateISOformat <- timestamp_date_isoformat ts ;;
   fresh <- not_before_watermark (lastDate self) dateISOformat ;;
   if fresh : bool then
     let found := findRecord (BodyComposition self) ts in
     valid <- validMandatoryValues self rowOutput ;;
     if valid && empty found then
       Ok (set_BodyComposition self (BodyComposition self ++ [rowOutput])%list,
           insertedItems + 1)
     else Ok (self, insertedItems)
   else Ok (self, insertedItems)) =
  (v <- (dateISOformat <- timestamp_date_isoformat (mapped self row "timestamp") ;;
         fresh <- not_before_watermark (lastDate self) dateISOformat ;;
         if fresh && fields_present self (row_output self row)
            && empty (findRecord (BodyComposition self) (mapped self row "timestamp"))
         then Ok (Some (row_output self row))
         else Ok None) ;;
   Ok (match v with
       | Some r => (set_BodyComposition self (BodyComposition self ++ [r]),
                    insertedItems + 1)
       | None => (self, insertedItems)
       end)).
Proof.
  rewrite getMappingRowValues_row_output. cbn [bind].
  change (getitem "timestamp" (row_output self row))
    with (Ok (A := pyval) (mapped self row "timestamp")).
  cbn [bind].
  destruct (timestamp_date_isoformat (mapped self row "timestamp")) as [d|e];
    [|reflexivity].
  cbn [bind].
  destruct (not_before_watermark (lastDate self) d) as [fresh|e]; [|reflexivity].
  cbn [bind]. destruct fresh; [|reflexivity].
  rewrite validMandatoryValues_present. cbn [bind andb].
  destruct (fields_present self (row_output self row)
            && empty (findRecord (BodyComposition self) (mapped self row "timestamp")));
    reflexivity.
Qed.

(** The loop body, by its decision. *)
Lemma process_row_decision (filterByUser : bool) (user : json)
  (self : ImportBodyComposition) (insertedItems : Z) (row : Series) :
  process_row filterByUser user self insertedItems row =
    v <- row_decision filterByUser user self row ;;
    Ok (match v with
        | Some r => (set_BodyComposition self (BodyComposition self ++ [r]),
                     insertedItems + 1)
        | None => (self, insertedItems)
        end).
Proof.
  unfold process_row, row_decision, row_considered.
  rewrite getMappingColumnValue_mapped.
  destruct filterByUser; cbn [negb orb bind].
  - destruct (py_eq (mapped self row "userName") user); [|reflexivity].
    apply considered_row_decision.
  - apply considered_row_decision.
Qed.

End Rows.

Section RowsLoop.

Context {lib : Library}.

Lemma set_BodyComposition_same (self : ImportBodyComposition) :
  set_BodyComposition self (BodyComposition self) = self.
Proof. destruct self. reflexivity. Qed.

(** The loop, by the RecordSet it builds; the count of inserted rows is the
    growth of the RecordSet. *)
Lemma process_rows_loop (filterByUser : bool) (user : json)
  (self : ImportBodyComposition) (rowsInput : list Series)
  (bc : list (dict pyval)) (insertedItems : Z) :
  process_rows filterByUser user (set_BodyComposition self bc) insertedItems rowsInput =
    bc' <- rows_loop filterByUser user self bc rowsInput ;;
    Ok (set_BodyComposition self bc',
        insertedItems + Z.of_nat (List.length bc' - List.length bc)).
Proof.
  revert bc insertedItems.
  induction rowsInput as [|row rest IH]; intros bc insertedItems; simpl.
  - rewrite Nat.sub_diag, Z.add_0_r. reflexivity.
  - rewrite process_row_decision.
    destruct (row_decision filterByUser user (set_BodyComposition self bc) row)
      as [[r|]|e]; simpl; [| |reflexivity].
    + change (set_BodyComposition (set_BodyComposition self bc) (bc ++ [r]))
        with (set_BodyComposition self (bc ++ [r])).
      rewrite IH.
      destruct (rows_loop filterByUser user self (bc ++ [r]) rest) as [bc'|e] eqn:E;
        simpl; [|reflexivity].
      do 2 f_equal.
      assert (List.length (bc ++ [r]) <= List.length bc')%nat.
      { clear IH. revert E. generalize (bc ++ [r])%list. clear.
        induction rest as [|row rest IH]; intros l E; simpl in E.
        - injection E as <-. lia.
        - destruct (row_decision _ _ _ row) as [[r|]|e]; simpl in E;
            [|auto|discriminate].
          apply IH in E. rewrite length_app in E. simpl in E. lia. }
      rewrite length_app in *. simpl in *. lia.
    + apply IH.
Qed.

Lemma process_rows_from (filterByUser : bool) (user : json)
  (self : ImportBodyComposition) (rowsInput : list Series) (insertedItems : Z) :
  process_rows filterByUser user self insertedItems rowsInput =
    bc' <- rows_loop filterByUser user self (BodyComposition self) rowsInput ;;
    Ok (set_BodyComposition self bc',
        insertedItems + Z.of_nat (List.length bc' - List.length (BodyComposition self))).
Proof.
  rewrite <- process_rows_loop. rewrite set_BodyComposition_same. reflexivity.
Qed.

(** The RecordSet only grows in the loop, at its end. *)
Lemma rows_loop_extends (filterByUser : bool) (user : json)
  (self : ImportBodyComposition) (rowsInput : list Series)
  (bc bc' : list (dict pyval)) :
  rows_loop filterByUser user self bc rowsInput = Ok bc' ->
  exists added, bc' = (bc ++ added)%list.
Proof.
  revert bc. induction rowsInput as [|row rest IH]; intros bc E; simpl in E.
  - injection E as <-. exists []. rewrite app_nil_r. reflexivity.
  - destruct (row_decision _ _ _ row) as [[r|]|e]; simpl in E; [| |discriminate].
    + apply IH in E as [added ->]. exists (r :: added).
      rewrite <- app_assoc. reflexivity.
    + apply IH in E. exact E.
Qed.

End RowsLoop.

(** ** Sorting the RecordSet *)

Lemma stamp_le_total (a b : pyval) : stamp_le a b = true \/ stamp_le b a = true.
Proof.
  destruct a, b; simpl; auto.
  destruct (Z.leb_spec t t0); [left; reflexivity | right; apply Z.leb_le; lia].
Qed.

Lemma stamp_le_trans (a b c : pyval) :
  stamp_le a b = true -> stamp_le b c = true -> stamp_le a c = true.
Proof.
  destruct a, b, c; simpl; intros H1 H2; try reflexivity; try discriminate.
  apply Z.leb_le in H1, H2. apply Z.leb_le. lia.
Qed.

Lemma insert_sorted_permutation (r : dict pyval) (l : list (dict pyval)) :
  Permutation (insert_sorted r l) (r :: l).
Proof.
  induction l as [|r' l IH]; simpl; [reflexivity|].
  destruct (stamp_le _ _); [reflexivity|].
  rewrite IH. apply perm_swap.
Qed.

Lemma sort_by_timestamp_permutation (l : list (dict pyval)) :
  Permutation (sort_by_timestamp l) l.
Proof.
  induction l as [|r l IH]; simpl; [reflexivity|].
  rewrite insert_sorted_permutation. apply perm_skip. exact IH.
Qed.

Lemma insert_sorted_keeps_sorted (r : dict pyval) (l : list (dict pyval)) :
  sorted_by_timestamp l -> sorted_by_timestamp (insert_sorted r l).
Proof.
  unfold sorted_by_timestamp.
  induction l as [|r' l IH]; intros H; simpl.
  - repeat constructor.
  - destruct (stamp_le (record_timestamp r) (record_timestamp r')) eqn:E.
    + constructor; [exact H | constructor; exact E].
    + inversion H as [|? ? Hl Hhd]; subst.
      constructor; [apply IH; exact Hl|].
      assert (E' : stamp_le (record_timestamp r') (record_timestamp r) = true).
      { destruct (stamp_le_total (record_timestamp r') (record_timestamp r));
          congruence. }
      destruct l as [|r'' l]; simpl.
      * constructor. exact E'.
      * destruct (stamp_le (record_timestamp r) (record_timestamp r''));
          constructor; [exact E'|].
        inversion Hhd; subst. assumption.
Qed.

Lemma sort_by_timestamp_sorted (l : list (dict pyval)) :
  sorted_by_timestamp (sort_by_timestamp l).
Proof.
  induction l as [|r l IH]; simpl.
  - constructor.
  - apply insert_sorted_keeps_sorted. exact IH.
Qed.

(** Sorting a sorted RecordSet changes nothing. *)
Lemma sort_by_timestamp_of_sorted (l : list (dict pyval)) :
  sorted_by_timestamp l -> sort_by_timestamp l = l.
Proof.
  unfold sorted_by_timestamp.
  induction l as [|r l IH]; intros H; simpl; [reflexivity|].
  inversion H as [|? ? Hl Hhd]; subst. rewrite (IH Hl).
  destruct l as [|r' l]; simpl; [reflexivity|].
  inversion Hhd as [|? ? E]; subst. rewrite E. reflexivity.
Qed.

Lemma sort_by_timestamp_idempotent (l : list (dict pyval)) :
  sort_by_timestamp (sort_by_timestamp l) = sort_by_timestamp l.
Proof. apply sort_by_timestamp_of_sorted, sort_by_timestamp_sorted. Qed.

Lemma stamps_app (l l' : list (dict pyval)) :
  stamps (l ++ l') = (stamps l ++ stamps l')%list.
Proof.
  induction l as [|r l IH]; simpl; [reflexivity|].
  destruct (record_timestamp r); rewrite ?IH; reflexivity.
Qed.

Lemma stamps_permutation (l l' : list (dict pyval)) :
  Permutation l l' -> Permutation (stamps l) (stamps l').
Proof.
  induction 1 as [|r l l' _ IH|r r' l|l l' l'' _ IH1 _ IH2]; simpl.
  - constructor.
  - destruct (record_timestamp r); auto.
  - destruct (record_timestamp r), (record_timestamp r'); auto using perm_swap.
  - etransitivity; eassumption.
Qed.

Lemma all_stamped_permutation (l l' : list (dict pyval)) :
  Permutation l l' -> all_stamped l = all_stamped l'.
Proof.
  unfold all_stamped.
  induction 1 as [|r l l' _ IH|r r' l|l l' l'' _ IH1 _ IH2]; simpl.
  - reflexivity.
  - rewrite IH. reflexivity.
  - rewrite !andb_assoc. f_equal. apply andb_comm.
  - congruence.
Qed.

(** A timestamp is found in the RecordSet exactly when it is a Timestamp
    among the stamps: [NaT] is never found. *)
Lemma findRecord_empty (bc : list (dict pyval)) (ts : pyval) :
  empty (findRecord bc ts) = false <->
  exists t, ts = PStamp t /\ In t (stamps bc).
Proof.
  unfold findRecord. induction bc as [|r bc IH]; simpl.
  - split; [discriminate | intros (t & _ & [])].
  - destruct (stamp_eq (record_timestamp r) ts) eqn:E; simpl.
    + split; [intros _|reflexivity].
      destruct (record_timestamp r) as [| | | | |t|], ts as [| | | | |t'|];
        simpl in E; try discriminate.
      apply Z.eqb_eq in E. subst t'. exists t. split; [reflexivity | left; reflexivity].
    + rewrite IH. split; intros (t & -> & Hin); exists t; split; try reflexivity.
      * destruct (record_timestamp r); simpl; auto.
      * destruct (record_timestamp r) as [| | | | |t0|]; simpl in Hin; auto.
        destruct Hin as [-> | Hin]; [|exact Hin].
        simpl in E. rewrite Z.eqb_refl in E. discriminate.
Qed.

(** ** processWeightFile on a file *)

Lemma raises_Raise {A : Type} (e : exn) : raises (@Raise A e).
Proof. exists e. reflexivity. Qed.

Lemma raises_bind {A B : Type} (c : res A) (k : A -> res B) :
  raises c -> raises (bind c k).
Proof. intros [e ->]. exists e. reflexivity. Qed.

Lemma raises_bind_Ok {A B : Type} (c : res A) (k : A -> res B) (a : A) :
  c = Ok a -> raises (k a) -> raises (bind c k).
Proof. intros -> H. exact H. Qed.

Lemma ltb_empty (s : string) : String.ltb s "" = false.
Proof. destruct s; reflexivity. Qed.

Section File.

Context {lib : Library}.

(** [processWeightFile] by its phases: the two fatal checks, the prepared
    frame, the loop, the final sort and the report. *)
Lemma processWeightFile_phases (self : ImportBodyComposition) (InputData : DataFrame) :
  processWeightFile self InputData =
    if negb (json_truthy (dateTimeFormat_setting self)) then
      Raise (SystemExit "Date Time Format was not informed.")
    else if flag_enabled self "filterByUser" && negb (json_truthy (user_setting self)) then
      Raise (SystemExit "Filter user was not informed.")
    else
      frame <- prepare_input (flag_enabled self "filterByUser")
                 (flag_enabled self "sortData") (dateTimeFormat_setting self)
                 self InputData ;;
      bc <- rows_loop (flag_enabled self "filterByUser") (user_setting self) self
              (BodyComposition self) (rows frame) ;;
      Ok (set_BodyComposition self (sort_by_timestamp bc),
          report (Z.of_nat (List.length (rows frame)))
                 (Z.of_nat (List.length bc - List.length (BodyComposition self)))).
Proof.
  rewrite processWeightFile_flags. unfold processWeightFile_with.
  fold (user_setting self) (dateTimeFormat_setting self).
  destruct (negb (json_truthy (dateTimeFormat_setting self))); [reflexivity|].
  destruct (flag_enabled self "filterByUser" && negb (json_truthy (user_setting self)));
    [reflexivity|].
  destruct (prepare_input _ _ _ self InputData) as [frame|e]; [|reflexivity].
  cbn [bind]. rewrite process_rows_from.
  destruct (rows_loop _ _ self (BodyComposition self) (rows frame)) as [bc|e];
    reflexivity.
Qed.

(** A considered row whose timestamp is extracted as [None] stops the loop,
    wherever it stands in the frame. *)
Lemma rows_loop_absent_timestamp (filterByUser : bool) (user : json)
  (self : ImportBodyComposition) (rowsInput : list Series) (row : Series)
  (bc : list (dict pyval)) :
  In row rowsInput ->
  row_considered filterByUser user self row = true ->
  mapped self row "timestamp" = PNone ->
  raises (rows_loop filterByUser user self bc rowsInput).
Proof.
  intros Hin Hc Hts. revert bc.
  induction rowsInput as [|row' rest IH]; intros bc; [destruct Hin|].
  simpl. destruct Hin as [-> | Hin].
  - apply raises_bind. unfold row_decision.
    change (row_considered filterByUser user (set_BodyComposition self bc) row)
      with (row_considered filterByUser user self row).
    change (mapped (set_BodyComposition self bc) row "timestamp")
      with (mapped self row "timestamp").
    rewrite Hc, Hts. apply raises_Raise.
  - destruct (row_decision filterByUser user (set_BodyComposition self bc) row')
      as [v|e]; simpl; [apply IH; exact Hin | apply raises_Raise].
Qed.

(** C9.  The timestamp is outside the absent-not-error rule:
    [processWeightFile] raises when the schema has no [timestamp] rule, when
    the source column the rule names is not a column of the CSV, and when a
    row that passes the user filter has its timestamp extracted as [None]. *)
Theorem timestamp_absent_raises (self : ImportBodyComposition) (InputData : DataFrame) :
  (lookup "timestamp" (mapInfo self) = None ->
   raises (processWeightFile self InputData)) /\
  (forall name,
     mapped_name self "timestamp" = Ok (JStr name) ->
     existsb (String.eqb name) (columns InputData) = false ->
     raises (processWeightFile self InputData)) /\
  (forall frame row,
     prepare_input (flag_enabled self "filterByUser") (flag_enabled self "sortData")
       (dateTimeFormat_setting self) self InputData = Ok frame ->
     In row (rows frame) ->
     row_considered (flag_enabled self "filterByUser") (user_setting self) self row = true ->
     mapped self row "timestamp" = PNone ->
     raises (processWeightFile self InputData)).
Proof.
  rewrite processWeightFile_phases.
  destruct (negb (json_truthy (dateTimeFormat_setting self)));
    [split; [|split]; intros; apply raises_Raise|].
  destruct (flag_enabled self "filterByUser" && negb (json_truthy (user_setting self)));
    [split; [|split]; intros; apply raises_Raise|].
  split; [|split].
  - intros H. apply raises_bind. unfold prepare_input, mapped_name, getitem.
    rewrite H. apply raises_Raise.
  - intros name Hn Hc. apply raises_bind. unfold prepare_input.
    rewrite Hn. simpl. rewrite Hc. apply raises_Raise.
  - intros frame row Hp Hin Hc Hts. rewrite Hp. simpl.
    apply raises_bind.
    apply (rows_loop_absent_timestamp _ _ self (rows frame) row); assumption.
Qed.

(** Every row the loop adds has a timestamp whose date is not before the
    watermark. *)
Lemma rows_loop_fresh (filterByUser : bool) (user : json)
  (self : ImportBodyComposition) (rowsInput : list Series)
  (bc bc' : list (dict pyval)) (r : dict pyval) :
  rows_loop filterByUser user self bc rowsInput = Ok bc' ->
  In r bc' ->
  In r bc \/
  exists d, timestamp_date_isoformat (record_timestamp r) = Ok d /\
            not_before_watermark (lastDate self) d = Ok true.
Proof.
  revert bc. induction rowsInput as [|row rest IH]; intros bc E Hin; simpl in E.
  - injection E as <-. left. exact Hin.
  - destruct (row_decision filterByUser user (set_BodyComposition self bc) row)
      as [[r'|]|e] eqn:D; simpl in E; [| |discriminate].
    + destruct (IH _ E Hin) as [Hold | Hnew]; [|right; exact Hnew].
      apply in_app_or in Hold as [Hold | [<- | []]]; [left; exact Hold|].
      right. unfold row_decision in D.
      destruct (row_considered _ _ _ row); [|discriminate].
      change (mapped (set_BodyComposition self bc) row "timestamp")
        with (mapped self row "timestamp") in D.
      destruct (timestamp_date_isoformat (mapped self row "timestamp")) as [d|e] eqn:Ed;
        [|discriminate].
      simpl in D.
      change (lastDate (set_BodyComposition self bc)) with (lastDate self) in D.
      destruct (not_before_watermark (lastDate self) d) as [[|]|e] eqn:Ew;
        simpl in D; try discriminate.
      destruct (_ && _) in D; [|discriminate].
      injection D as <-. exists d. split; [exact Ed | exact Ew].
    + exact (IH _ E Hin).
Qed.

(** C4.  With the watermark [w], a row whose timestamp has an ISO date
    strictly less than [w] leaves the RecordSet and the count of inserted rows
    as they are, whatever its fields hold; every row [processWeightFile] adds
    to the RecordSet has a date not less than [w].  Without a watermark no
    date is tested: a considered row that has a timestamp is inserted exactly
    when its mandatory fields are present and its timestamp is not found. *)
Theorem watermark_filter (self : ImportBodyComposition) :
  (forall filterByUser user insertedItems row w d,
     lastDate self = JStr w ->
     timestamp_date_isoformat (mapped self row "timestamp") = Ok d ->
     String.ltb d w = true ->
     process_row filterByUser user self insertedItems row = Ok (self, insertedItems)) /\
  (forall InputData self' rep w r,
     lastDate self = JStr w -> w <> "" ->
     processWeightFile self InputData = Ok (self', rep) ->
     In r (BodyComposition self') ->
     In r (BodyComposition self) \/
     exists d, timestamp_date_isoformat (record_timestamp r) = Ok d /\
               String.ltb d w = false) /\
  (forall filterByUser user insertedItems row d,
     json_truthy (lastDate self) = false ->
     row_considered filterByUser user self row = true ->
     timestamp_date_isoformat (mapped self row "timestamp") = Ok d ->
     process_row filterByUser user self insertedItems row =
       Ok (if fields_present self (row_output self row)
              && empty (findRecord (BodyComposition self) (mapped self row "timestamp"))
           then (set_BodyComposition self (BodyComposition self ++ [row_output self row]),
                 insertedItems + 1)
           else (self, insertedItems))).
Proof.
  split; [|split].
  - intros filterByUser user insertedItems row w d Hw Hd Hlt.
    rewrite process_row_decision. unfold row_decision.
    destruct (row_considered filterByUser user self row); [|reflexivity].
    rewrite Hd. simpl. unfold not_before_watermark. rewrite Hw. simpl.
    destruct (w =? "")%string eqn:E.
    + apply String.eqb_eq in E. subst w. rewrite ltb_empty in Hlt. discriminate.
    + simpl. unfold str_ge. rewrite Hlt. reflexivity.
  - intros InputData self' rep w r Hw Hne E Hin.
    rewrite processWeightFile_phases in E.
    destruct (negb _); [discriminate|].
    destruct (_ && _); [discriminate|].
    destruct (prepare_input _ _ _ self InputData) as [frame|e]; [|discriminate].
    simpl in E.
    destruct (rows_loop _ _ self (BodyComposition self) (rows frame)) as [bc|e] eqn:L;
      [|discriminate].
    simpl in E. injection E as <- _. simpl in Hin.
    apply (Permutation_in _ (sort_by_timestamp_permutation bc)) in Hin.
    destruct (rows_loop_fresh _ _ _ _ _ _ r L Hin) as [Hold | (d & Hd & Hf)];
      [left; exact Hold|].
    right. exists d. split; [exact Hd|].
    unfold not_before_watermark in Hf. rewrite Hw in Hf. simpl in Hf.
    destruct (w =? "")%string eqn:Ew.
    + apply String.eqb_eq in Ew. contradiction.
    + simpl in Hf. injection Hf as Hf. unfold str_ge in Hf.
      destruct (String.ltb d w); [discriminate | reflexivity].
  - intros filterByUser user insertedItems row d Hw Hc Hd.
    rewrite process_row_decision. unfold row_decision.
    rewrite Hc, Hd. simpl. unfold not_before_watermark. rewrite Hw. simpl.
    destruct (fields_present self (row_output self row)
              && empty (findRecord (BodyComposition self) (mapped self row "timestamp")));
      reflexivity.
Qed.

End File.

(** ** The RecordSet across files *)

Section Invariant.

Context {lib : Library}.

Lemma row_decision_admissible (filterByUser : bool) (user : json)
  (self : ImportBodyComposition) (bc : list (dict pyval)) (row : Series) :
  row_decision filterByUser user (set_BodyComposition self bc) row =
    ok <- row_admissible filterByUser user self row ;;
    if ok && empty (findRecord bc (mapped self row "timestamp"))
    then Ok (Some (row_output self row))
    else Ok None.
Proof.
  unfold row_decision, row_admissible.
  change (row_considered filterByUser user (set_BodyComposition self bc) row)
    with (row_considered filterByUser user self row).
  destruct (row_considered filterByUser user self row); [|reflexivity].
  change (mapped (set_BodyComposition self bc) row "timestamp")
    with (mapped self row "timestamp").
  destruct (timestamp_date_isoformat (mapped self row "timestamp")) as [d|e];
    [|reflexivity].
  cbn [bind].
  change (lastDate (set_BodyComposition self bc)) with (lastDate self).
  destruct (not_before_watermark (lastDate self) d) as [fresh|e]; [|reflexivity].
  reflexivity.
Qed.

(** A row is admitted with a Timestamp or with [NaT]. *)
Lemma row_admissible_timestamp (filterByUser : bool) (user : json)
  (self : ImportBodyComposition) (row : Series) :
  row_admissible filterByUser user self row = Ok true ->
  (exists t, mapped self row "timestamp" = PStamp t) \/
  mapped self row "timestamp" = PNaT.
Proof.
  unfold row_admissible.
  destruct (row_considered filterByUser user self row); [|discriminate].
  destruct (mapped self row "timestamp"); simpl; try discriminate; eauto.
Qed.

Lemma NoDup_snoc {A : Type} (l : list A) (a : A) :
  NoDup l -> ~ In a l -> NoDup (l ++ [a]).
Proof.
  intros Hl Ha. apply (Permutation_NoDup (l := a :: l)).
  - apply Permutation_cons_append.
  - constructor; assumption.
Qed.

(** The loop keeps the Timestamps of the RecordSet distinct. *)
Lemma rows_loop_unique (filterByUser : bool) (user : json)
  (self : ImportBodyComposition) (rowsInput : list Series)
  (bc bc' : list (dict pyval)) :
  rows_loop filterByUser user self bc rowsInput = Ok bc' ->
  NoDup (stamps bc) -> NoDup (stamps bc').
Proof.
  revert bc. induction rowsInput as [|row rest IH]; intros bc E Hbc; simpl in E.
  - injection E as <-. exact Hbc.
  - rewrite row_decision_admissible in E.
    destruct (row_admissible filterByUser user self row) as [ok|e]; [|discriminate].
    cbn [bind] in E.
    destruct (ok && empty (findRecord bc (mapped self row "timestamp"))) eqn:D;
      cbn [bind] in E; [|exact (IH _ E Hbc)].
    apply (IH _ E). rewrite stamps_app. simpl.
    rewrite row_output_timestamp.
    apply andb_prop in D as [_ D].
    destruct (mapped self row "timestamp") as [| | | | |t|] eqn:Ets;
      rewrite ?app_nil_r; try exact Hbc.
    apply NoDup_snoc; [exact Hbc|].
    intros Hin.
    assert (F : empty (findRecord bc (PStamp t)) = false).
    { apply findRecord_empty. exists t. split; [reflexivity | exact Hin]. }
    congruence.
Qed.

(** After a file the Timestamps of the RecordSet are distinct, provided they
    were before it, and the RecordSet is in ascending order, the rows without
    a Timestamp last. *)
Lemma processWeightFile_unique_sorted (self self' : ImportBodyComposition)
  (InputData : DataFrame) (rep : FileReport) :
  processWeightFile self InputData = Ok (self', rep) ->
  NoDup (stamps (BodyComposition self)) ->
  NoDup (stamps (BodyComposition self')) /\
  sorted_by_timestamp (BodyComposition self').
Proof.
  intros E Hbc. rewrite processWeightFile_phases in E.
  destruct (negb _); [discriminate|].
  destruct (_ && _); [discriminate|].
  destruct (prepare_input _ _ _ self InputData) as [frame|e]; [|discriminate].
  cbn [bind] in E.
  destruct (rows_loop _ _ self (BodyComposition self) (rows frame)) as [bc|e] eqn:L;
    [|discriminate].
  cbn [bind] in E. injection E as <- _. simpl. split.
  - apply (Permutation_NoDup (l := stamps bc)).
    + apply stamps_permutation. symmetry. apply sort_by_timestamp_permutation.
    + exact (rows_loop_unique _ _ _ _ _ _ L Hbc).
  - apply sort_by_timestamp_sorted.
Qed.

(** From the empty RecordSet, any sequence of files leaves the Timestamps
    distinct and the RecordSet sorted. *)
Lemma processWeightFiles_unique_sorted (files : list DataFrame)
  (self self' : ImportBodyComposition) :
  processWeightFiles self files = Ok self' ->
  NoDup (stamps (BodyComposition self)) ->
  sorted_by_timestamp (BodyComposition self) ->
  NoDup (stamps (BodyComposition self')) /\
  sorted_by_timestamp (BodyComposition self').
Proof.
  revert self. induction files as [|f files IH]; intros self E Hu Hs; simpl in E.
  - injection E as <-. split; assumption.
  - destruct (processWeightFile self f) as [[self1 rep]|e] eqn:F; [|discriminate].
    cbn [bind] in E.
    destruct (processWeightFile_unique_sorted _ _ _ _ F Hu) as [Hu1 Hs1].
    exact (IH _ E Hu1 Hs1).
Qed.

(** The loop reads the schema and the watermark of the object, not its
    RecordSet. *)
Lemma rows_loop_self (filterByUser : bool) (user : json)
  (self : ImportBodyComposition) (rowsInput : list Series)
  (bc0 bc : list (dict pyval)) :
  rows_loop filterByUser user (set_BodyComposition self bc0) bc rowsInput =
  rows_loop filterByUser user self bc rowsInput.
Proof.
  revert bc. induction rowsInput as [|row rest IH]; intros bc; simpl; [reflexivity|].
  change (set_BodyComposition (set_BodyComposition self bc0) bc)
    with (set_BodyComposition self bc).
  destruct (row_decision filterByUser user (set_BodyComposition self bc) row)
    as [v|e]; [|reflexivity].
  cbn [bind]. apply IH.
Qed.

(** A second pass over the same rows adds nothing to a RecordSet that holds
    the Timestamps of the first pass, when the first pass stored no row
    without a Timestamp. *)
Lemma rows_loop_again (filterByUser : bool) (user : json)
  (self : ImportBodyComposition) (rowsInput : list Series)
  (bc bc1 B : list (dict pyval)) :
  rows_loop filterByUser user self bc rowsInput = Ok bc1 ->
  all_stamped bc1 = true ->
  (forall t, In t (stamps bc1) -> In t (stamps B)) ->
  rows_loop filterByUser user self B rowsInput = Ok B.
Proof.
  intros E Hst HB. revert bc E.
  induction rowsInput as [|row rest IH]; intros bc E; simpl in *; [reflexivity|].
  rewrite row_decision_admissible in *.
  destruct (row_admissible filterByUser user self row) as [ok|e]; [|discriminate].
  cbn [bind] in *.
  assert (Hskip : ok && empty (findRecord B (mapped self row "timestamp")) = false).
  { destruct ok; [simpl|reflexivity].
    apply findRecord_empty.
    destruct (empty (findRecord bc (mapped self row "timestamp"))) eqn:F;
      cbn [andb bind] in E.
    - destruct (rows_loop_extends _ _ _ _ _ _ E) as [added ->].
      rewrite <- app_assoc in Hst, HB. simpl in Hst, HB.
      unfold all_stamped in Hst. rewrite forallb_app in Hst.
      apply andb_prop in Hst as [_ Hst]. simpl in Hst.
      apply andb_prop in Hst as [Hst _].
      rewrite row_output_timestamp in Hst.
      destruct (mapped self row "timestamp") as [| | | | |t|] eqn:Ets;
        try discriminate.
      exists t. split; [reflexivity|]. apply HB.
      rewrite stamps_app. apply in_or_app. right. simpl.
      rewrite row_output_timestamp, Ets. left. reflexivity.
    - apply findRecord_empty in F as (t & -> & Hin).
      exists t. split; [reflexivity|]. apply HB.
      destruct (rows_loop_extends _ _ _ _ _ _ E) as [added ->].
      rewrite stamps_app. apply in_or_app. left. exact Hin. }
  rewrite Hskip. cbn [bind].
  destruct (ok && empty (findRecord bc (mapped self row "timestamp")));
    cbn [bind] in E; exact (IH _ E).
Qed.

(** Running [processWeightFile] again on the same file adds no row and
    leaves the RecordSet as it is, when the first run left no row without a
    Timestamp in the RecordSet. *)
Lemma processWeightFile_again (self self1 : ImportBodyComposition)
  (InputData : DataFrame) (rep1 : FileReport) :
  processWeightFile self InputData = Ok (self1, rep1) ->
  all_stamped (BodyComposition self1) = true ->
  processWeightFile self1 InputData = Ok (self1, report (rows_found rep1) 0).
Proof.
  intros E Hst. rewrite processWeightFile_phases in E.
  rewrite processWeightFile_phases.
  destruct (negb (json_truthy (dateTimeFormat_setting self))) eqn:E1; [discriminate|].
  destruct (flag_enabled self "filterByUser" && negb (json_truthy (user_setting self)))
    eqn:E2; [discriminate|].
  destruct (prepare_input _ _ _ self InputData) as [frame|e] eqn:P; [|discriminate].
  cbn [bind] in E.
  destruct (rows_loop _ _ self (BodyComposition self) (rows frame)) as [bc|e] eqn:L;
    [|discriminate].
  cbn [bind] in E. injection E as <- <-.
  change (negb (json_truthy (dateTimeFormat_setting self)) = false) in E1.
  change (dateTimeFormat_setting (set_BodyComposition self (sort_by_timestamp bc)))
    with (dateTimeFormat_setting self).
  change (user_setting (set_BodyComposition self (sort_by_timestamp bc)))
    with (user_setting self).
  change (flag_enabled (set_BodyComposition self (sort_by_timestamp bc)))
    with (flag_enabled self).
  rewrite E1, E2.
  change (prepare_input (flag_enabled self "filterByUser") (flag_enabled self "sortData")
            (dateTimeFormat_setting self)
            (set_BodyComposition self (sort_by_timestamp bc)) InputData)
    with (prepare_input (flag_enabled self "filterByUser") (flag_enabled self "sortData")
            (dateTimeFormat_setting self) self InputData).
  rewrite P. cbn [bind].
  rewrite rows_loop_self.
  change (BodyComposition (set_BodyComposition self (sort_by_timestamp bc)))
    with (sort_by_timestamp bc) in *.
  rewrite (rows_loop_again _ _ self (rows frame) (BodyComposition self) bc
             (sort_by_timestamp bc) L).
  - cbn [bind]. rewrite sort_by_timestamp_idempotent, Nat.sub_diag. reflexivity.
  - rewrite <- Hst. apply all_stamped_permutation. symmetry.
    apply sort_by_timestamp_permutation.
  - intros t Hin.
    apply (Permutation_in (l := stamps bc)); [|exact Hin].
    apply stamps_permutation. symmetry. apply sort_by_timestamp_permutation.
Qed.

End Invariant.

(** ** Rows without a timestamp *)

(** C1 on the code.  A CSV with two rows whose timestamp field is empty:
    both rows are stored, [NaT] being found equal to no stored timestamp, and
    the RecordSet, built from the empty one, ends with two records that have
    the same timestamp [NaT].  The schema marks only the weight mandatory; the
    library is any one that reads an empty cell as [NaT]. *)
Theorem missing_timestamps_stored_twice (lib : Library) :
  to_datetime scenario_format NaN = Ok None ->
  processWeightFiles lenient_self [csv_without_timestamps ["70.5kg"; "71.0kg"]] =
    Ok (set_BodyComposition lenient_self
          [record PNaT (PFloat (FFin false 141 (-1)));
           record PNaT (PFloat (FFin false 71 0))]) /\
  record_timestamp (record PNaT (PFloat (FFin false 141 (-1))))
    = record_timestamp (record PNaT (PFloat (FFin false 71 0))).
Proof.
  intros H. split; [|reflexivity].
  unfold processWeightFiles. rewrite processWeightFile_flags.
  unfold processWeightFile_with, prepare_input. simpl.
  rewrite H. vm_compute. reflexivity.
Qed.

Lemma missing_timestamps_stored_twice_witness :
  processWeightFiles lenient_self [csv_without_timestamps ["70.5kg"; "71.0kg"]] =
    Ok (set_BodyComposition lenient_self
          [record PNaT (PFloat (FFin false 141 (-1)));
           record PNaT (PFloat (FFin false 71 0))]).
Proof.
  apply (missing_timestamps_stored_twice pandas_example). reflexivity.
Defined.

(** C5 on the code.  A CSV with one row whose timestamp field is empty: the
    first run stores the row, and the second run on the same file, against the
    RecordSet of the first, stores it again: one more record, one row
    reported as loaded. *)
Theorem missing_timestamp_stored_again (lib : Library) :
  to_datetime scenario_format NaN = Ok None ->
  let self1 :=
    set_BodyComposition lenient_self [record PNaT (PFloat (FFin false 141 (-1)))] in
  processWeightFile lenient_self (csv_without_timestamps ["70.5kg"])
    = Ok (self1, report 1 1) /\
  processWeightFile self1 (csv_without_timestamps ["70.5kg"])
    = Ok (set_BodyComposition lenient_self
            [record PNaT (PFloat (FFin false 141 (-1)));
             record PNaT (PFloat (FFin false 141 (-1)))],
          report 1 1).
Proof.
  intros H self1. split.
  - rewrite processWeightFile_flags.
    unfold processWeightFile_with, prepare_input. simpl.
    rewrite H. vm_compute. reflexivity.
  - rewrite processWeightFile_flags.
    unfold processWeightFile_with, prepare_input. simpl.
    rewrite H. vm_compute. reflexivity.
Qed.

Lemma missing_timestamp_stored_again_witness :
  processWeightFile
    (set_BodyComposition lenient_self [record PNaT (PFloat (FFin false 141 (-1)))])
    (csv_without_timestamps ["70.5kg"])
  = Ok (set_BodyComposition lenient_self
          [record PNaT (PFloat (FFin false 141 (-1)));
           record PNaT (PFloat (FFin false 141 (-1)))],
        report 1 1).
Proof.
  apply (missing_timestamp_stored_again pandas_example). reflexivity.
Defined.

(** ** The importer *)

Lemma lookup_setitem_same {V : Type} (k : string) (v : V) (d : dict V) :
  lookup k (setitem k v d) = Some v.
Proof.
  induction d as [|[k' v'] d IH]; simpl.
  - rewrite String.eqb_refl. reflexivity.
  - destruct (k' =? k)%string eqn:E; simpl.
    + rewrite String.eqb_refl. reflexivity.
    + rewrite E. exact IH.
Qed.

(** After [j['data']['lastDate'] = date] the setting [data.lastDate] is
    [date]. *)
Lemma set_data_lastDate_setting (self : ImportBodyComposition) (date : string) (j : json) :
  set_data_lastDate (jsonProperties self) date = Ok j ->
  setting (set_jsonProperties self j) "data" "lastDate" = Some (JStr date).
Proof.
  unfold set_data_lastDate, setting. simpl.
  destruct (jsonProperties self) as [| | | | | |top]; try discriminate.
  destruct (lookup "data" top) as [[| | | | | |data]|]; try discriminate.
  intros H. injection H as <-.
  rewrite lookup_setitem_same, lookup_setitem_same. reflexivity.
Qed.

(** With [callAPI] enabled the settings document has an object [data], and
    the assignment of the watermark succeeds. *)
Lemma set_data_lastDate_enabled (self : ImportBodyComposition) (date : string) :
  flag_enabled self "callAPI" = true ->
  exists j, set_data_lastDate (jsonProperties self) date = Ok j.
Proof.
  intros H. apply flag_enabled_setting in H. revert H.
  unfold setting, set_data_lastDate.
  destruct (jsonProperties self) as [| | | | | |top]; try discriminate.
  destruct (lookup "data" top) as [[| | | | | |data]|]; try discriminate.
  eauto.
Qed.

Section ImporterEffects.

Context {C : Type} {garmin : GarminClient C}.

(** The deletions run in order until one fails; they do not touch the
    object. *)
Lemma delete_all_effects (l : list weigh_in) (date : string) (w : World C) :
  exists k,
    trace (fst (delete_all l date w))
      = (trace w ++ deletions (firstn k l) date)%list /\
    importer (fst (delete_all l date w)) = importer w /\
    (snd (delete_all l date w) = Ok tt -> firstn k l = l).
Proof.
  revert w. induction l as [|e l IH]; intros w.
  - exists 0%nat. simpl. rewrite app_nil_r. repeat split.
  - simpl. unfold bindM, call_delete_weigh_in.
    destruct (delete_weigh_in (client w) (samplePk e) date) as [c [[]|err]].
    + destruct (IH (log w (DeleteWeighIn (samplePk e) date) c)) as (k & Ht & Hi & Hk).
      exists (S k). simpl. rewrite Ht. simpl. rewrite <- app_assoc. simpl.
      split; [reflexivity|]. split; [exact Hi|].
      intros H. rewrite (Hk H). reflexivity.
    + exists 1%nat. simpl. split; [reflexivity|]. split; [reflexivity|].
      discriminate.
Qed.

(** A record whose date has been entered: the push and nothing else. *)
Lemma import_row_entered (deleteOldData : bool) (dates : list string)
  (row : dict pyval) (date : string) (w : World C) :
  timestamp_date_isoformat (record_timestamp row) = Ok date ->
  existsb (String.eqb date) dates = true ->
  trace (fst (import_row deleteOldData dates row w))
    = (trace w ++ [AddBodyComposition row])%list /\
  importer (fst (import_row deleteOldData dates row w)) = importer w.
Proof.
  intros Hd Hin. unfold import_row, bindM, lift, retM.
  rewrite Hd, Hin. simpl. unfold call_add_body_composition.
  destruct (add_body_composition (client w) row) as [c [[]|err]]; simpl.
  - destruct (strftime_check (record_timestamp row)); simpl; split; reflexivity.
  - split; reflexivity.
Qed.

(** A record that enters a new date: the watermark is assigned, then the
    entries of the date are fetched, then deleted when [deleteOldData] is
    set, then the record is pushed. *)
Lemma import_row_new_date (deleteOldData : bool) (dates : list string)
  (row : dict pyval) (date : string) (w : World C) (j : json) :
  timestamp_date_isoformat (record_timestamp row) = Ok date ->
  existsb (String.eqb date) dates = false ->
  set_data_lastDate (jsonProperties (importer w)) date = Ok j ->
  exists evs,
    trace (fst (import_row deleteOldData dates row w))
      = (trace w ++ SetLastDate date :: GetDailyWeighIns date :: evs)%list /\
    importer (fst (import_row deleteOldData dates row w))
      = set_jsonProperties (importer w) j /\
    (deleteOldData = false -> evs = [] \/ evs = [AddBodyComposition row]) /\
    (forall dates',
       snd (import_row deleteOldData dates row w) = Ok dates' ->
       exists l,
         snd (get_daily_weigh_ins (client w) date) = Ok l /\
         evs = ((if deleteOldData then deletions l date else [])
                ++ [AddBodyComposition row])%list /\
         dates' = (dates ++ [date])%list).
Proof.
  intros Hd Hin Hj. unfold import_row, bindM, lift, retM.
  rewrite Hd, Hin. simpl. unfold assign_lastDate. rewrite Hj.
  unfold call_get_daily_weigh_ins. simpl.
  destruct (get_daily_weigh_ins (client w) date) as [c1 [l|err]]; simpl.
  2: { exists []. split; [rewrite <- app_assoc; reflexivity|].
       split; [reflexivity|]. split; [auto|]. intros dates' H. discriminate. }
  remember (log _ (GetDailyWeighIns date) c1) as w1 eqn:Ew1.
  assert (Ht1 : trace w1 = (trace w ++ [SetLastDate date; GetDailyWeighIns date])%list).
  { subst w1. unfold log. simpl. rewrite <- app_assoc. reflexivity. }
  assert (Hi1 : importer w1 = set_jsonProperties (importer w) j).
  { subst w1. reflexivity. }
  clear Ew1.
  destruct (deleteOldData && negb (empty l)) eqn:Edel.
  - apply andb_prop in Edel as [-> Hne].
    destruct (delete_all_effects l date w1) as (k & Ht & Hi & Hk).
    destruct (delete_all l date w1) as [w2 [[]|err]] eqn:Edl; simpl in *.
    + unfold call_add_body_composition.
      destruct (add_body_composition (client w2) row) as [c3 [[]|err]]; simpl.
      * exists (deletions l date ++ [AddBodyComposition row])%list.
        rewrite (Hk eq_refl) in Ht.
        assert (Htr : (trace w2 ++ [AddBodyComposition row])%list
                      = (trace w ++ SetLastDate date :: GetDailyWeighIns date
                           :: deletions l date ++ [AddBodyComposition row])%list).
        { rewrite Ht, Ht1, <- !app_assoc. reflexivity. }
        destruct (strftime_check (record_timestamp row)); simpl;
          (split; [exact Htr|]); (split; [congruence|]);
          (split; [discriminate|]); intros dates' H;
          [injection H as <-; exists l; auto | discriminate].
      * exists (deletions l date ++ [AddBodyComposition row])%list.
        rewrite (Hk eq_refl) in Ht.
        split; [rewrite Ht, Ht1, <- !app_assoc; reflexivity|].
        split; [congruence|]. split; [discriminate|].
        intros dates' H. discriminate.
    + exists (deletions (firstn k l) date).
      split; [rewrite Ht, Ht1, <- !app_assoc; reflexivity|].
      split; [congruence|]. split; [discriminate|].
      intros dates' H. discriminate.
  - simpl. unfold call_add_body_composition.
    assert (Hevs : (if deleteOldData then deletions l date else []) = []).
    { destruct deleteOldData; [|reflexivity]. destruct l; [reflexivity|discriminate]. }
    destruct (add_body_composition (client w1) row) as [c3 [[]|err]]; simpl.
    + exists [AddBodyComposition row].
      assert (Htr : (trace w1 ++ [AddBodyComposition row])%list
                    = (trace w ++ [SetLastDate date; GetDailyWeighIns date;
                                   AddBodyComposition row])%list).
      { rewrite Ht1, <- app_assoc. reflexivity. }
      destruct (strftime_check (record_timestamp row)); simpl;
        (split; [exact Htr|]); (split; [exact Hi1|]);
        (split; [auto|]); intros dates' H;
        [injection H as <-; exists l; rewrite Hevs; auto | discriminate].
    + exists [AddBodyComposition row].
      split; [rewrite Ht1, <- app_assoc; reflexivity|].
      split; [exact Hi1|]. split; [auto|].
      intros dates' H. discriminate.
Qed.

End ImporterEffects.

(** ** The import and the delete-old-data flag *)

(** C7, as the specification words it, fails: with [callAPI] enabled and
    [deleteOldData] not configured, the import of one record still fetches
    the remote entries of its date. *)
Lemma fetch_without_deleteOldData_counterexample :
  let w0 := world_of
              (importing_self []
                 [record (PStamp (mk_timestamp 2024 1 1 8 0))
                         (PFloat (FFin false 141 (-1)))])
              empty_account in
  flag_enabled (importer w0) "callAPI" = true /\
  flag_enabled (importer w0) "deleteOldData" = false /\
  trace (fst (loadDataOnGarminConnect w0)) =
    [SetLastDate "2024-01-01"; GetDailyWeighIns "2024-01-01";
     AddBodyComposition (record (PStamp (mk_timestamp 2024 1 1 8 0))
                                (PFloat (FFin false 141 (-1))))] /\
  ~ (In (GetDailyWeighIns "2024-01-01") (trace (fst (loadDataOnGarminConnect w0))) ->
     flag_enabled (importer w0) "deleteOldData" = true).
Proof.
  intros w0.
  assert (Ht : trace (fst (loadDataOnGarminConnect w0)) =
    [SetLastDate "2024-01-01"; GetDailyWeighIns "2024-01-01";
     AddBodyComposition (record (PStamp (mk_timestamp 2024 1 1 8 0))
                                (PFloat (FFin false 141 (-1))))]).
  { vm_compute. reflexivity. }
  split; [vm_compute; reflexivity|].
  split; [vm_compute; reflexivity|].
  split; [exact Ht|].
  intros H. rewrite Ht in H.
  assert (F : flag_enabled (importer w0) "deleteOldData" = false)
    by (vm_compute; reflexivity).
  rewrite H in F; [discriminate|]. right. left. reflexivity.
Qed.

(** ** The properties on concrete inputs *)

(** A dry run: [callAPI] is the JSON boolean [true], which does not enable
    the flag. *)
Lemma dry_run_frame_witness :
  let w0 := world_of
              (set_BodyComposition (scenario_self [("callAPI", JBool true)])
                 [record (PStamp (mk_timestamp 2024 1 1 8 0))
                         (PFloat (FFin false 141 (-1)))])
              empty_account in
  loadDataOnGarminConnect w0 = (w0, Ok None).
Proof.
  intros w0. apply (dry_run_frame w0). reflexivity.
Defined.

Lemma boolean_settings_exact_True_witness :
  flag_enabled (scenario_self [("sortData", JStr "true")]) "sortData" = false /\
  flag_enabled (scenario_self [("sortData", JStr "True")]) "sortData" = true.
Proof.
  destruct (@boolean_settings_exact_True pandas_example account account_client)
    as (Hflag & _).
  split.
  - destruct (flag_enabled (scenario_self [("sortData", JStr "true")]) "sortData") eqn:E;
      [|reflexivity].
    apply Hflag in E. discriminate E.
  - apply Hflag. reflexivity.
Defined.


(** The watermark 2024-01-02: a valid row of 2024-01-01 is skipped; without
    a watermark it is inserted. *)
Lemma watermark_filter_witness :
  process_row false JNull (scenario_self [("lastDate", JStr "2024-01-02")]) 0
    (converted_row (mk_timestamp 2024 1 1 8 0) "70.5kg")
  = Ok (scenario_self [("lastDate", JStr "2024-01-02")], 0) /\
  process_row false JNull (scenario_self []) 0
    (converted_row (mk_timestamp 2024 1 1 8 0) "70.5kg")
  = Ok (set_BodyComposition (scenario_self [])
          [record (PStamp (mk_timestamp 2024 1 1 8 0)) (PFloat (FFin false 141 (-1)))],
        1).
Proof.
  split.
  - apply (proj1 (@watermark_filter pandas_example
                    (scenario_self [("lastDate", JStr "2024-01-02")])))
      with (w := "2024-01-02") (d := "2024-01-01"); reflexivity.
  - apply (proj2 (proj2 (@watermark_filter pandas_example (scenario_self []))))
      with (d := "2024-01-01"); reflexivity.
Defined.

(** No timestamp rule; a timestamp column that the CSV does not have; a
    timestamp rule without a type, whose coercion to a float fails. *)
Lemma timestamp_absent_raises_witness :
  raises (processWeightFile (with_mapping []) (scenario_csv NaN)) /\
  raises (processWeightFile (scenario_self [])
            {| columns := ["Date"; "Weight"]; rows := [] |}) /\
  raises (processWeightFile (with_mapping untyped_timestamp_mapping) (scenario_csv NaN)).
Proof.
  split; [|split].
  - apply (proj1 (@timestamp_absent_raises pandas_example (with_mapping [])
                    (scenario_csv NaN))).
    reflexivity.
  - apply (proj1 (proj2 (@timestamp_absent_raises pandas_example (scenario_self [])
                           {| columns := ["Date"; "Weight"]; rows := [] |})))
      with (name := "Time"); reflexivity.
  - apply (proj2 (proj2 (@timestamp_absent_raises pandas_example
                           (with_mapping untyped_timestamp_mapping) (scenario_csv NaN))))
      with (frame := csv [converted_row (mk_timestamp 2024 1 1 8 0) "70.5kg";
                          converted_row (mk_timestamp 2024 1 1 8 0) "71.0kg";
                          csv_row (PStamp (mk_timestamp 2024 1 2 8 0)) NaN])
           (row := converted_row (mk_timestamp 2024 1 1 8 0) "70.5kg").
    + vm_compute. reflexivity.
    + left. reflexivity.
    + reflexivity.
    + reflexivity.
Defined.

(** * Further properties *)

(** ** The patterns of the kcal and percent rules *)

Lemma append_empty_r (s : string) : s ++ "" = s.
Proof. induction s as [|c s IH]; simpl; [reflexivity | rewrite IH; reflexivity]. Qed.

Lemma span_digits_fst_snd (s : string) :
  span_digits s = (leading_digits s, snd (span_digits s)).
Proof. unfold leading_digits. destruct (span_digits s). reflexivity. Qed.

Lemma span_digits_rest_not_digit (s : string) :
  match snd (span_digits s) with
  | String c _ => is_digit c = false
  | "" => True
  end.
Proof.
  induction s as [|c s IH]; simpl; [exact I|].
  destruct (is_digit c) eqn:E.
  - destruct (span_digits s). exact IH.
  - simpl. exact E.
Qed.

(** A greedy repetition of digits before a continuation that accepts
    everything takes all the digits. *)
Lemma star_digits_total (k : string -> option string) (kf : string -> string)
  (s : string) :
  (forall t, k t = Some (kf t)) ->
  Re.star is_digit k s = Some (leading_digits s ++ kf (snd (span_digits s))).
Proof.
  intros Hk. unfold leading_digits.
  induction s as [|c s IH]; simpl; [apply Hk|].
  destruct (is_digit c) eqn:E; [|apply Hk].
  rewrite IH. destruct (span_digits s). reflexivity.
Qed.

(** Before a continuation that rejects every text starting with a digit, it
    takes all the digits or fails. *)
Lemma star_digits_strict (k : string -> option string) (s : string) :
  (forall c t, is_digit c = true -> k (String c t) = None) ->
  Re.star is_digit k s
    = option_map (append (leading_digits s)) (k (snd (span_digits s))).
Proof.
  intros Hk. unfold leading_digits.
  induction s as [|c s IH]; simpl.
  - destruct (k ""); reflexivity.
  - destruct (is_digit c) eqn:E.
    + rewrite IH. destruct (span_digits s) as [ds r]. simpl.
      destruct (k r); simpl; [reflexivity|]. apply Hk. exact E.
    + simpl. destruct (k (String c s)); reflexivity.
Qed.

Lemma digit_not_dot (c : ascii) : is_digit c = true -> is_dot c = false.
Proof.
  destruct c as [b0 b1 b2 b3 b4 b5 b6 b7].
  destruct b0, b1, b2, b3, b4, b5, b6, b7; vm_compute; congruence.
Qed.

Lemma is_dot_point (c : ascii) : is_dot c = true -> c = "."%char.
Proof. unfold is_dot. apply Ascii.eqb_eq. Qed.

Lemma match_here_digits (s : string) :
  Re.match_here [(is_digit, Re.Star)] s = Some (leading_digits s).
Proof.
  simpl. rewrite (star_digits_total _ (fun _ => "")); [|reflexivity].
  rewrite append_empty_r. reflexivity.
Qed.

Arguments Re.match_here : simpl never.
Arguments Re.star : simpl never.

(** What follows the digits in the pattern of the [kcal] rule. *)
Lemma match_here_point_digits (t : string) :
  Re.match_here [(is_dot, Re.Opt); (is_digit, Re.Star)] t =
    Some (match t with
          | String c r1 => if is_dot c then String c (leading_digits r1)
                           else leading_digits t
          | "" => ""
          end).
Proof.
  change (Re.match_here [(is_dot, Re.Opt); (is_digit, Re.Star)] t)
    with (match match t with
                | String c t' =>
                    if is_dot c
                    then option_map (String c) (Re.match_here [(is_digit, Re.Star)] t')
                    else None
                | "" => None
                end with
          | Some m => Some m
          | None => Re.match_here [(is_digit, Re.Star)] t
          end).
  destruct t as [|c t]; [reflexivity|].
  rewrite !match_here_digits.
  destruct (is_dot c); reflexivity.
Qed.

Lemma match_here_kcal (s : string) :
  Re.match_here (Re.atoms regex_kcal) s =
    match s with
    | String c s' =>
        if is_digit c
        then Some (leading_digits s ++ point_and_digits (snd (span_digits s)))
        else None
    | "" => None
    end.
Proof.
  destruct s as [|c s]; [reflexivity|].
  change (Re.match_here (Re.atoms regex_kcal) (String c s))
    with (if is_digit c
          then option_map (String c)
                 (Re.star is_digit
                    (Re.match_here [(is_dot, Re.Opt); (is_digit, Re.Star)]) s)
          else None).
  destruct (is_digit c) eqn:E; [|reflexivity].
  rewrite (star_digits_total _ _ s match_here_point_digits).
  unfold leading_digits. simpl. rewrite E.
  pose proof (span_digits_rest_not_digit s) as Hr.
  destruct (span_digits s) as [ds r]. simpl in *.
  destruct r as [|c2 r]; [reflexivity|].
  unfold point_and_digits. destruct (is_dot c2); [reflexivity|].
  unfold leading_digits. simpl. rewrite Hr. reflexivity.
Qed.

(** The pattern of the [kcal] rule finds the first numeric token. *)
Lemma search_regex_kcal (s : string) :
  Re.search regex_kcal s = first_numeric_token s.
Proof.
  unfold Re.search. change (Re.anchored regex_kcal) with false. cbv iota.
  induction s as [|c s IH].
  - reflexivity.
  - unfold Re.search_from. fold Re.search_from. rewrite match_here_kcal.
    unfold first_numeric_token. fold first_numeric_token.
    destruct (is_digit c) eqn:E; [reflexivity | exact IH].
Qed.

Lemma match_here_one_digit (t : string) :
  Re.match_here [(is_digit, Re.Plus)] t =
    match leading_digits t with
    | "" => None
    | fs => Some fs
    end.
Proof.
  destruct t as [|d t]; [reflexivity|].
  change (Re.match_here [(is_digit, Re.Plus)] (String d t))
    with (if is_digit d
          then option_map (String d) (Re.match_here [(is_digit, Re.Star)] t)
          else None).
  rewrite match_here_digits. unfold leading_digits. simpl.
  destruct (is_digit d); [|reflexivity].
  destruct (span_digits t). reflexivity.
Qed.

Lemma match_here_percent (s : string) :
  Re.match_here (Re.atoms regex_percent) s =
    match leading_digits s, fraction (snd (span_digits s)) with
    | String _ _, Some fr => Some (leading_digits s ++ fr)
    | _, _ => None
    end.
Proof.
  destruct s as [|c s]; [reflexivity|].
  change (Re.match_here (Re.atoms regex_percent) (String c s))
    with (if is_digit c
          then option_map (String c)
                 (Re.star is_digit
                    (Re.match_here [(is_dot, Re.One); (is_digit, Re.Plus)]) s)
          else None).
  unfold leading_digits at 1 2. simpl.
  destruct (is_digit c) eqn:E; [|reflexivity].
  rewrite star_digits_strict.
  2: { intros c' t Hc'.
       change (Re.match_here [(is_dot, Re.One); (is_digit, Re.Plus)] (String c' t))
         with (if is_dot c'
               then option_map (String c') (Re.match_here [(is_digit, Re.Plus)] t)
               else None).
       rewrite (digit_not_dot c' Hc'). reflexivity. }
  unfold leading_digits at 1.
  destruct (span_digits s) as [ds r]. simpl.
  destruct r as [|c2 r]; [reflexivity|].
  change (Re.match_here [(is_dot, Re.One); (is_digit, Re.Plus)] (String c2 r))
    with (if is_dot c2
          then option_map (String c2) (Re.match_here [(is_digit, Re.Plus)] r)
          else None).
  rewrite match_here_one_digit. unfold fraction.
  destruct (is_dot c2); [|reflexivity].
  destruct (leading_digits r); reflexivity.
Qed.

(** The pattern of the [percent] rule finds the first decimal token. *)
Lemma search_regex_percent (s : string) :
  Re.search regex_percent s = first_decimal_token s.
Proof.
  unfold Re.search. change (Re.anchored regex_percent) with false. cbv iota.
  induction s as [|c s IH].
  - reflexivity.
  - unfold Re.search_from. fold Re.search_from. rewrite match_here_percent.
    unfold first_decimal_token. fold first_decimal_token.
    destruct (leading_digits (String c s)) as [|d ds]; [exact IH|].
    destruct (fraction (snd (span_digits (String c s)))); [reflexivity | exact IH].
Qed.

(** ** The rule types *)

Lemma digits_and_points_app (a b : string) :
  digits_and_points (a ++ b) = digits_and_points a && digits_and_points b.
Proof.
  induction a as [|c a IH]; simpl; [reflexivity|].
  rewrite IH, andb_assoc. reflexivity.
Qed.

Lemma count_points_app (a b : string) :
  count_points (a ++ b) = (count_points a + count_points b)%nat.
Proof.
  induction a as [|c a IH]; simpl; [reflexivity|]. rewrite IH. lia.
Qed.

Lemma has_digit_app (a b : string) :
  has_digit (a ++ b) = has_digit a || has_digit b.
Proof.
  induction a as [|c a IH]; simpl; [reflexivity|].
  rewrite IH, orb_assoc. reflexivity.
Qed.

Lemma leading_digits_cons (c : ascii) (s : string) :
  leading_digits (String c s) = if is_digit c then String c (leading_digits s) else "".
Proof.
  unfold leading_digits. simpl. destruct (is_digit c); [|reflexivity].
  destruct (span_digits s). reflexivity.
Qed.

Lemma leading_digits_chars (s : string) :
  digits_and_points (leading_digits s) = true /\
  count_points (leading_digits s) = 0%nat /\
  has_digit (leading_digits s) = negb (leading_digits s =? "")%string.
Proof.
  induction s as [|c s (IH1 & IH2 & IH3)]; [repeat split|].
  rewrite leading_digits_cons. destruct (is_digit c) eqn:E; [|repeat split].
  simpl. rewrite E, IH1, IH2, (digit_not_dot c E). repeat split.
Qed.

Lemma point_and_digits_chars (r : string) :
  digits_and_points (point_and_digits r) = true /\
  (count_points (point_and_digits r) <= 1)%nat.
Proof.
  destruct r as [|c r]; [split; [reflexivity | simpl; lia]|].
  unfold point_and_digits. destruct (is_dot c) eqn:E; [|split; [reflexivity | simpl; lia]].
  destruct (leading_digits_chars r) as (H1 & H2 & _).
  simpl. rewrite E, H1, H2, orb_true_r. split; [reflexivity | lia].
Qed.

Lemma fraction_chars (r fr : string) :
  fraction r = Some fr ->
  digits_and_points fr = true /\ count_points fr = 1%nat.
Proof.
  destruct r as [|c r]; [discriminate|]. unfold fraction.
  destruct (is_dot c) eqn:E; [|discriminate].
  destruct (leading_digits_chars r) as (H1 & H2 & _).
  destruct (leading_digits r) as [|d fs] eqn:L; [discriminate|].
  intros H. injection H as <-.
  change (digits_and_points (String c (String d fs)))
    with ((is_digit c || is_dot c) && digits_and_points (String d fs)).
  change (count_points (String c (String d fs)))
    with ((if is_dot c then 1 else 0) + count_points (String d fs))%nat.
  rewrite E, H1, H2, orb_true_r. split; reflexivity.
Qed.

(** The points of a text are those after its leading digits. *)
Lemma span_digits_run_count (s : string) :
  count_points s = count_points (snd (span_digits s)).
Proof.
  induction s as [|c s IH]; [reflexivity|]. simpl.
  destruct (is_digit c) eqn:E.
  - rewrite (digit_not_dot c E). destruct (span_digits s). simpl in *. exact IH.
  - reflexivity.
Qed.

(** The first numeric token is a float literal; there is none exactly when
    the text has no digit. *)
Lemma first_numeric_token_float (s : string) :
  match first_numeric_token s with
  | Some tok => has_digit s = true /\ exists f, float_of_string tok = Ok f
  | None => has_digit s = false
  end.
Proof.
  induction s as [|c s IH]; [reflexivity|].
  unfold first_numeric_token. fold first_numeric_token.
  change (has_digit (String c s)) with (is_digit c || has_digit s).
  destruct (is_digit c) eqn:E.
  - split; [reflexivity|].
    destruct (leading_digits_chars (String c s)) as (H1 & H2 & H3).
    destruct (point_and_digits_chars (snd (span_digits (String c s)))) as (H4 & H5).
    apply float_of_run.
    + rewrite digits_and_points_app, H1, H4. reflexivity.
    + rewrite count_points_app, has_digit_app, H2, H3.
      split; [lia|]. rewrite leading_digits_cons, E. reflexivity.
  - simpl. destruct (first_numeric_token s); exact IH.
Qed.

(** The first decimal token is a float literal; a text without a decimal
    point has none. *)
Lemma first_decimal_token_float (s : string) :
  match first_decimal_token s with
  | Some tok => (1 <= count_points s)%nat /\ exists f, float_of_string tok = Ok f
  | None => True
  end.
Proof.
  induction s as [|c s IH]; [exact I|].
  unfold first_decimal_token. fold first_decimal_token.
  assert (Hrec : match first_decimal_token s with
                 | Some tok => (1 <= count_points (String c s))%nat /\
                               exists f, float_of_string tok = Ok f
                 | None => True
                 end).
  { destruct (first_decimal_token s); [|exact I].
    destruct IH as [Hc Hf]. split; [simpl; lia | exact Hf]. }
  destruct (leading_digits_chars (String c s)) as (H1 & H2 & H3).
  destruct (leading_digits (String c s)) as [|d ds] eqn:L; [exact Hrec|].
  destruct (fraction (snd (span_digits (String c s)))) as [fr|] eqn:F; [|exact Hrec].
  destruct (fraction_chars _ _ F) as (H4 & H5).
  split.
  - pose proof (span_digits_run_count (String c s)) as Hcount.
    destruct (snd (span_digits (String c s))) as [|c2 r] eqn:R; [discriminate|].
    unfold fraction in F. destruct (is_dot c2) eqn:E2; [|discriminate].
    rewrite Hcount. simpl. rewrite E2. lia.
  - apply float_of_run.
    + rewrite digits_and_points_app, H1, H4. reflexivity.
    + rewrite count_points_app, has_digit_app, H2, H3, H5. split; [lia|reflexivity].
Qed.

(** ** Settings, validation and extraction *)

(** X1.  [getPropertyValue] never raises.  It returns the member [property]
    of the member [section] of the settings document when both are members
    of objects; whenever the document or the section is not an object, or a
    member is missing, it returns the default. *)
Theorem getPropertyValue_member_or_default (self : ImportBodyComposition)
  (section property : string) (default : json) :
  getPropertyValue self section property default =
    Ok (match jsonProperties self with
        | JObj top =>
            match lookup section top with
            | Some (JObj members) =>
                match lookup property members with
                | Some v => v
                | None => default
                end
            | _ => default
            end
        | _ => default
        end).
Proof.
  rewrite getPropertyValue_setting. unfold setting.
  destruct (jsonProperties self) as [| | | | | |top]; try reflexivity.
  destruct (lookup section top) as [[| | | | | |members]|]; reflexivity.
Qed.

Section ExtrasMapping.

Context {lib : Library}.

(** X2.  [validMandatoryValues] never raises, and accepts a row exactly when
    every field whose rule carries the marker [mandatory] = ['True'] has a
    value that Python counts as true; a mandatory field extracted as the
    number zero makes the row invalid like a missing one. *)
Theorem validMandatoryValues_mandatory_present (self : ImportBodyComposition)
  (row : dict pyval) :
  exists b,
    validMandatoryValues self row = Ok b /\
    (b = true <->
     forall key v, In (key, v) row ->
       mandatory_marker self key = Some (JStr "True") -> truthy v = true) /\
    (forall key neg e, In (key, PFloat (FFin neg 0 e)) row ->
       mandatory_marker self key = Some (JStr "True") -> b = false).
Proof.
  exists (fields_present self row). split; [apply validMandatoryValues_present|].
  assert (Hiff : fields_present self row = true <->
                 forall key v, In (key, v) row ->
                   mandatory_marker self key = Some (JStr "True") -> truthy v = true).
  { unfold fields_present. rewrite forallb_forall. split.
    - intros H key v Hin Hm. specialize (H (key, v) Hin). simpl in H.
      unfold mandatory in H. rewrite Hm in H. simpl in H.
      rewrite orb_false_r in H. exact H.
    - intros H [key v] Hin. simpl. unfold mandatory.
      destruct (mandatory_marker self key) as [m|] eqn:Em; [|apply orb_true_r].
      destruct (json_eq_str m "True") eqn:Et; [|apply orb_true_r].
      apply json_eq_str_true in Et. subst m.
      rewrite (H key v Hin Em). reflexivity. }
  split; [exact Hiff|].
  intros key neg e Hin Hm.
  destruct (fields_present self row) eqn:E; [|reflexivity].
  assert (Ht := proj1 Hiff eq_refl key _ Hin Hm). discriminate Ht.
Qed.

(** X3.  A field without a usable rule is absent, not an error:
    [getMappingColumnValue] returns [None] when the schema has no rule for
    the field, when the rule has no [name], and when the column the rule
    names is not in the row. *)
Theorem unmapped_field_absent (self : ImportBodyComposition) (row : Series)
  (columnName : string) :
  (lookup columnName (mapInfo self) = None ->
   getMappingColumnValue self row columnName = Ok PNone) /\
  (forall fields,
     lookup columnName (mapInfo self) = Some (JObj fields) ->
     lookup "name" fields = None ->
     getMappingColumnValue self row columnName = Ok PNone) /\
  (forall fields name,
     lookup columnName (mapInfo self) = Some (JObj fields) ->
     lookup "name" fields = Some (JStr name) ->
     lookup name row = None ->
     getMappingColumnValue self row columnName = Ok PNone).
Proof.
  split; [|split].
  - intros H. rewrite getMappingColumnValue_returns.
    unfold getMappingColumnValue_body, has_key. rewrite H. reflexivity.
  - intros fields Hr Hn. rewrite getMappingColumnValue_returns.
    unfold getMappingColumnValue_body, has_key, getitem. rewrite Hr. simpl.
    unfold has_key. rewrite Hn. reflexivity.
  - intros fields name Hr Hn Hrow. rewrite getMappingColumnValue_returns.
    unfold getMappingColumnValue_body, has_key, getitem. rewrite Hr. simpl.
    unfold has_key, getitem. rewrite Hn. simpl. unfold has_key. rewrite Hrow.
    reflexivity.
Qed.

(** X4.  A rule of type [kcal] is absent exactly when the stringified value
    has no digit; otherwise it is the float of the first numeric token of the
    text (digits, an optional point, digits), which [float()] always
    accepts. *)
Theorem kcal_rule_value (self : ImportBodyComposition) (row : Series)
  (columnName name : string) (fields : dict json) (rowValue : pyval) :
  lookup columnName (mapInfo self) = Some (JObj fields) ->
  lookup "name" fields = Some (JStr name) ->
  lookup "type" fields = Some (JStr "kcal") ->
  lookup name row = Some rowValue ->
  if has_digit (py_str rowValue) then
    exists tok f,
      first_numeric_token (py_str rowValue) = Some tok /\
      float_of_string tok = Ok f /\
      getMappingColumnValue self row columnName = Ok (PFloat f)
  else getMappingColumnValue self row columnName = Ok PNone.
Proof.
  intros Hrule Hname Hty Hrow.
  rewrite getMappingColumnValue_returns.
  rewrite (getMappingColumnValue_rule self row columnName name "kcal" fields rowValue)
    by assumption.
  simpl. unfold regex_value. rewrite search_regex_kcal.
  pose proof (first_numeric_token_float (py_str rowValue)) as H.
  destruct (first_numeric_token (py_str rowValue)) as [tok|].
  - destruct H as [-> [f Hf]]. exists tok, f. rewrite Hf. repeat split.
  - rewrite H. reflexivity.
Qed.

(** X5.  A rule of type [percent] is the float of the first decimal token of
    the stringified value (digits, a point, digits), which [float()] always
    accepts, and is absent when the text has none; a text without a decimal
    point, a whole number included, is absent. *)
Theorem percent_rule_value (self : ImportBodyComposition) (row : Series)
  (columnName name : string) (fields : dict json) (rowValue : pyval) :
  lookup columnName (mapInfo self) = Some (JObj fields) ->
  lookup "name" fields = Some (JStr name) ->
  lookup "type" fields = Some (JStr "percent") ->
  lookup name row = Some rowValue ->
  match first_decimal_token (py_str rowValue) with
  | Some tok =>
      exists f, float_of_string tok = Ok f /\
                getMappingColumnValue self row columnName = Ok (PFloat f)
  | None => getMappingColumnValue self row columnName = Ok PNone
  end /\
  (count_points (py_str rowValue) = 0%nat ->
   getMappingColumnValue self row columnName = Ok PNone).
Proof.
  intros Hrule Hname Hty Hrow.
  rewrite getMappingColumnValue_returns.
  rewrite (getMappingColumnValue_rule self row columnName name "percent" fields rowValue)
    by assumption.
  simpl. unfold regex_value. rewrite search_regex_percent.
  pose proof (first_decimal_token_float (py_str rowValue)) as H.
  destruct (first_decimal_token (py_str rowValue)) as [tok|].
  - destruct H as [Hc [f Hf]]. rewrite Hf. split.
    + exists f. split; reflexivity.
    + intros H0. lia.
  - split; reflexivity.
Qed.

(** X6.  A rule without a [type] is a rule of type [value]: the cell goes
    through [float()] and is absent when [float()] rejects it.  A rule whose
    [type] is none of ['weight'], ['kcal'], ['percent'], ['value'] (names
    compare exactly) passes the cell through unchanged. *)
Theorem untyped_and_unknown_rules (self : ImportBodyComposition) (row : Series)
  (columnName name : string) (fields : dict json) (rowValue : pyval) :
  lookup columnName (mapInfo self) = Some (JObj fields) ->
  lookup "name" fields = Some (JStr name) ->
  lookup name row = Some rowValue ->
  (lookup "type" fields = None ->
   getMappingColumnValue self row columnName =
     Ok (match py_float rowValue with
         | Ok f => PFloat f
         | Raise _ => PNone
         end)) /\
  (forall ty,
     lookup "type" fields = Some ty ->
     ty <> JStr "weight" -> ty <> JStr "kcal" ->
     ty <> JStr "percent" -> ty <> JStr "value" ->
     getMappingColumnValue self row columnName = Ok rowValue).
Proof.
  intros Hrule Hname Hrow.
  assert (Hbody : getMappingColumnValue_body self row columnName =
    let colType := match lookup "type" fields with
                   | Some ty => ty
                   | None => JStr "value"
                   end in
    if json_eq_str colType "weight" then regex_value regex_weight rowValue
    else if json_eq_str colType "kcal" then regex_value regex_kcal rowValue
    else if json_eq_str colType "percent" then regex_value regex_percent rowValue
    else if json_eq_str colType "value" then f <- py_float rowValue ;; Ok (PFloat f)
    else Ok rowValue).
  { unfold getMappingColumnValue_body, has_key, getitem.
    rewrite Hrule. simpl. unfold has_key, getitem. rewrite Hname. simpl.
    unfold has_key, getitem. rewrite Hrow. simpl.
    destruct (lookup "type" fields); reflexivity. }
  rewrite getMappingColumnValue_returns, Hbody. split.
  - intros ->. simpl. destruct (py_float rowValue); reflexivity.
  - intros ty -> H1 H2 H3 H4. simpl.
    assert (E : forall s, ty <> JStr s -> json_eq_str ty s = false).
    { intros s Hs. destruct (json_eq_str ty s) eqn:E; [|reflexivity].
      apply json_eq_str_true in E. contradiction. }
    rewrite (E _ H1), (E _ H2), (E _ H3), (E _ H4). reflexivity.
Qed.

End ExtrasMapping.

(** A mandatory weight of zero: the row is invalid. *)
Lemma validMandatoryValues_mandatory_present_witness :
  validMandatoryValues (scenario_self [])
    (record (PStamp (mk_timestamp 2024 1 1 8 0)) (PFloat (FFin false 0 0))) = Ok false.
Proof.
  destruct (validMandatoryValues_mandatory_present (scenario_self [])
              (record (PStamp (mk_timestamp 2024 1 1 8 0)) (PFloat (FFin false 0 0))))
    as (b & Hb & _ & Hzero).
  rewrite Hb. f_equal.
  apply (Hzero "weight" false 0).
  - right. left. reflexivity.
  - reflexivity.
Defined.

Lemma unmapped_field_absent_witness :
  getMappingColumnValue (scenario_self []) (csv_row (PStr "t") (PStr "70.5kg")) "bmi"
    = Ok PNone /\
  getMappingColumnValue (scenario_self []) [("Time", PStr "t")] "weight" = Ok PNone.
Proof.
  split.
  - apply (proj1 (@unmapped_field_absent pandas_example (scenario_self [])
                    (csv_row (PStr "t") (PStr "70.5kg")) "bmi")).
    reflexivity.
  - apply (proj2 (proj2 (@unmapped_field_absent pandas_example (scenario_self [])
                           [("Time", PStr "t")] "weight")))
      with (fields := [("name", JStr "Weight"); ("type", JStr "weight");
                       ("mandatory", JStr "True")])
           (name := "Weight"); reflexivity.
Defined.

Lemma kcal_rule_value_witness :
  exists tok f,
    first_numeric_token "about 1850.5 kcal" = Some tok /\
    float_of_string tok = Ok f /\
    getMappingColumnValue
      (with_mapping [("basal_met", JObj [("name", JStr "BMR"); ("type", JStr "kcal")])])
      [("BMR", PStr "about 1850.5 kcal")] "basal_met" = Ok (PFloat f).
Proof.
  apply (@kcal_rule_value pandas_example
           (with_mapping [("basal_met", JObj [("name", JStr "BMR"); ("type", JStr "kcal")])])
           [("BMR", PStr "about 1850.5 kcal")] "basal_met" "BMR"
           [("name", JStr "BMR"); ("type", JStr "kcal")]
           (PStr "about 1850.5 kcal")); reflexivity.
Defined.

Lemma percent_rule_value_witness :
  getMappingColumnValue
    (with_mapping [("percent_fat", JObj [("name", JStr "Fat"); ("type", JStr "percent")])])
    [("Fat", PStr "23%")] "percent_fat" = Ok PNone.
Proof.
  apply (proj2 (@percent_rule_value pandas_example
           (with_mapping [("percent_fat", JObj [("name", JStr "Fat"); ("type", JStr "percent")])])
           [("Fat", PStr "23%")] "percent_fat" "Fat"
           [("name", JStr "Fat"); ("type", JStr "percent")]
           (PStr "23%") eq_refl eq_refl eq_refl eq_refl)).
  reflexivity.
Defined.

Lemma untyped_and_unknown_rules_witness :
  getMappingColumnValue
    (with_mapping [("weight", JObj [("name", JStr "Weight"); ("type", JStr "Weight")])])
    [("Weight", PStr "70.5kg")] "weight" = Ok (PStr "70.5kg").
Proof.
  apply (proj2 (@untyped_and_unknown_rules pandas_example
           (with_mapping [("weight", JObj [("name", JStr "Weight"); ("type", JStr "Weight")])])
           [("Weight", PStr "70.5kg")] "weight" "Weight"
           [("name", JStr "Weight"); ("type", JStr "Weight")]
           (PStr "70.5kg") eq_refl eq_refl eq_refl))
    with (ty := JStr "Weight"); [reflexivity| | | |]; discriminate.
Defined.

(** ** The normaliser on a file *)

Section ExtrasFile.

Context {lib : Library}.

(** What the loop adds: one canonical row for some of the rows of the frame,
    each of them admitted. *)
Lemma rows_loop_added (filterByUser : bool) (user : json)
  (self : ImportBodyComposition) (rowsInput : list Series)
  (bc bc' : list (dict pyval)) :
  rows_loop filterByUser user self bc rowsInput = Ok bc' ->
  exists added,
    bc' = (bc ++ added)%list /\
    (List.length added <= List.length rowsInput)%nat /\
    forall r, In r added ->
      exists row, In row rowsInput /\
                  row_admissible filterByUser user self row = Ok true /\
                  r = row_output self row.
Proof.
  revert bc. induction rowsInput as [|row rest IH]; intros bc E; simpl in E.
  - injection E as <-. exists []. rewrite app_nil_r.
    split; [reflexivity|]. split; [apply Nat.le_refl|]. intros r [].
  - rewrite row_decision_admissible in E.
    destruct (row_admissible filterByUser user self row) as [ok|e] eqn:A;
      [|discriminate].
    cbn [bind] in E.
    destruct (ok && empty (findRecord bc (mapped self row "timestamp"))) eqn:D;
      cbn [bind] in E.
    + apply andb_prop in D as [-> _].
      apply IH in E as (added & -> & Hlen & Hrows).
      exists (row_output self row :: added). rewrite <- app_assoc.
      split; [reflexivity|]. split; [simpl; lia|].
      intros r [<- | Hin].
      * exists row. split; [left; reflexivity|]. split; [exact A | reflexivity].
      * destruct (Hrows r Hin) as (row' & Hin' & Ha & Hr).
        exists row'. split; [right; exact Hin'|]. split; assumption.
    + apply IH in E as (added & -> & Hlen & Hrows).
      exists added. split; [reflexivity|]. split; [simpl; lia|].
      intros r Hin. destruct (Hrows r Hin) as (row' & Hin' & Ha & Hr).
      exists row'. split; [right; exact Hin'|]. split; assumption.
Qed.

(** X7.  A file that is processed to its end changes the RecordSet only:
    settings, schema and watermark stay as they are.  Every record stored
    before is still stored, and each record added is the canonical row of a
    row of the converted frame that passes the user filter, has a date not
    before the watermark and has its mandatory fields. *)
Theorem processWeightFile_frame (self self' : ImportBodyComposition)
  (InputData : DataFrame) (rep : FileReport) :
  processWeightFile self InputData = Ok (self', rep) ->
  jsonProperties self' = jsonProperties self /\
  mapInfo self' = mapInfo self /\
  lastDate self' = lastDate self /\
  exists frame added,
    prepare_input (flag_enabled self "filterByUser") (flag_enabled self "sortData")
      (dateTimeFormat_setting self) self InputData = Ok frame /\
    Permutation (BodyComposition self') (BodyComposition self ++ added) /\
    forall r, In r added ->
      exists row,
        In row (rows frame) /\
        row_admissible (flag_enabled self "filterByUser") (user_setting self) self row
          = Ok true /\
        r = row_output self row.
Proof.
  intros E. rewrite processWeightFile_phases in E.
  destruct (negb _); [discriminate|].
  destruct (_ && _); [discriminate|].
  destruct (prepare_input _ _ _ self InputData) as [frame|e] eqn:P; [|discriminate].
  cbn [bind] in E.
  destruct (rows_loop _ _ self (BodyComposition self) (rows frame)) as [bc|e] eqn:L;
    [|discriminate].
  cbn [bind] in E. injection E as <- _.
  split; [reflexivity|]. split; [reflexivity|]. split; [reflexivity|].
  destruct (rows_loop_added _ _ _ _ _ _ L) as (added & -> & _ & Hrows).
  exists frame, added. split; [reflexivity|]. split; [|exact Hrows].
  simpl. apply sort_by_timestamp_permutation.
Qed.

(** X8.  The counts printed for a file agree with what happened: the rows
    found are the rows of the converted frame, the rows loaded are the growth
    of the RecordSet, the rows discarded are the rest, and neither count is
    negative. *)
Theorem processWeightFile_report (self self' : ImportBodyComposition)
  (InputData : DataFrame) (rep : FileReport) :
  processWeightFile self InputData = Ok (self', rep) ->
  (exists frame,
     prepare_input (flag_enabled self "filterByUser") (flag_enabled self "sortData")
       (dateTimeFormat_setting self) self InputData = Ok frame /\
     rows_found rep = Z.of_nat (List.length (rows frame))) /\
  Z.of_nat (List.length (BodyComposition self')) =
    Z.of_nat (List.length (BodyComposition self)) + rows_loaded rep /\
  rows_found rep = rows_loaded rep + rows_discarded rep /\
  0 <= rows_loaded rep /\ 0 <= rows_discarded rep.
Proof.
  intros E. rewrite processWeightFile_phases in E.
  destruct (negb _); [discriminate|].
  destruct (_ && _); [discriminate|].
  destruct (prepare_input _ _ _ self InputData) as [frame|e] eqn:P; [|discriminate].
  cbn [bind] in E.
  destruct (rows_loop _ _ self (BodyComposition self) (rows frame)) as [bc|e] eqn:L;
    [|discriminate].
  cbn [bind] in E. injection E as <- <-.
  destruct (rows_loop_added _ _ _ _ _ _ L) as (added & -> & Hlen & _).
  split; [exists frame; split; reflexivity|].
  assert (Hsort : List.length (sort_by_timestamp (BodyComposition self ++ added))
                  = List.length (BodyComposition self ++ added)).
  { apply Permutation_length, sort_by_timestamp_permutation. }
  unfold report. cbn [rows_found rows_loaded rows_discarded BodyComposition
                      set_BodyComposition].
  rewrite Hsort, length_app.
  replace (List.length (BodyComposition self) + List.length added
           - List.length (BodyComposition self))%nat
    with (List.length added) by lia.
  lia.
Qed.

(** X9.  Over any sequence of files the Timestamps of the RecordSet stay
    pairwise distinct and the RecordSet stays in ascending order of
    timestamp, the rows without a Timestamp last. *)
Theorem recordset_distinct_sorted (files : list DataFrame)
  (self self' : ImportBodyComposition) :
  processWeightFiles self files = Ok self' ->
  NoDup (stamps (BodyComposition self)) ->
  sorted_by_timestamp (BodyComposition self) ->
  NoDup (stamps (BodyComposition self')) /\
  sorted_by_timestamp (BodyComposition self').
Proof.
  intros E Hu Hs. exact (processWeightFiles_unique_sorted files self self' E Hu Hs).
Qed.

(** X10.  Processing the same file a second time stores nothing and reports
    every row as discarded, when the first run left no row without a
    Timestamp in the RecordSet. *)
Theorem processWeightFile_twice (self self1 : ImportBodyComposition)
  (InputData : DataFrame) (rep1 : FileReport) :
  processWeightFile self InputData = Ok (self1, rep1) ->
  all_stamped (BodyComposition self1) = true ->
  exists rep2,
    processWeightFile self1 InputData = Ok (self1, rep2) /\
    rows_found rep2 = rows_found rep1 /\
    rows_loaded rep2 = 0 /\
    rows_discarded rep2 = rows_found rep1.
Proof.
  intros E Hst. exists (report (rows_found rep1) 0).
  split; [exact (processWeightFile_again self self1 InputData rep1 E Hst)|].
  unfold report. simpl. repeat split. lia.
Qed.

End ExtrasFile.

(** The scenario file: two records are stored, both from rows of the file. *)
Lemma processWeightFile_frame_witness :
  exists self' rep,
    processWeightFile (scenario_self []) (scenario_csv NaN) = Ok (self', rep) /\
    mapInfo self' = scenario_mapping /\
    lastDate self' = JNull.
Proof.
  eexists. eexists. split; [vm_compute; reflexivity|].
  destruct (@processWeightFile_frame pandas_example (scenario_self []) _
              (scenario_csv NaN) _ ltac:(vm_compute; reflexivity))
    as (_ & Hm & Hl & _).
  split; [exact Hm | exact Hl].
Defined.

Lemma processWeightFile_report_witness :
  exists self' rep,
    processWeightFile (scenario_self []) (scenario_csv NaN) = Ok (self', rep) /\
    rows_found rep = rows_loaded rep + rows_discarded rep.
Proof.
  eexists. eexists. split; [vm_compute; reflexivity|].
  exact (proj1 (proj2 (proj2
           (@processWeightFile_report pandas_example (scenario_self []) _
              (scenario_csv NaN) _ ltac:(vm_compute; reflexivity))))).
Defined.

Lemma recordset_distinct_sorted_witness :
  exists self',
    processWeightFiles (scenario_self []) [scenario_csv NaN; scenario_csv NaN]
      = Ok self' /\
    NoDup (stamps (BodyComposition self')).
Proof.
  eexists. split; [vm_compute; reflexivity|].
  apply (@recordset_distinct_sorted pandas_example
           [scenario_csv NaN; scenario_csv NaN] (scenario_self [])).
  - vm_compute. reflexivity.
  - constructor.
  - constructor.
Defined.

Lemma processWeightFile_twice_witness :
  exists self1 rep1 rep2,
    processWeightFile (scenario_self []) (scenario_csv NaN) = Ok (self1, rep1) /\
    processWeightFile self1 (scenario_csv NaN) = Ok (self1, rep2) /\
    rows_loaded rep2 = 0.
Proof.
  eexists. eexists.
  destruct (@processWeightFile_twice pandas_example (scenario_self []) _
              (scenario_csv NaN) _ ltac:(vm_compute; reflexivity)
              ltac:(vm_compute; reflexivity))
    as (rep2 & H2 & _ & Hl & _).
  exists rep2. split; [vm_compute; reflexivity|]. split; [exact H2 | exact Hl].
Defined.

(** ** The importer over the RecordSet *)

Lemma add_calls_app (a b : list event) :
  add_calls (a ++ b) = (add_calls a ++ add_calls b)%list.
Proof.
  induction a as [|[] a IH]; simpl; rewrite ?IH; reflexivity.
Qed.

Lemma fetch_calls_app (a b : list event) :
  fetch_calls (a ++ b) = (fetch_calls a ++ fetch_calls b)%list.
Proof.
  induction a as [|[] a IH]; simpl; rewrite ?IH; reflexivity.
Qed.

Lemma watermark_assignments_app (a b : list event) :
  watermark_assignments (a ++ b)
  = (watermark_assignments a ++ watermark_assignments b)%list.
Proof.
  induction a as [|[] a IH]; simpl; rewrite ?IH; reflexivity.
Qed.

Lemma deletions_calls (l : list weigh_in) (date : string) :
  add_calls (deletions l date) = [] /\
  fetch_calls (deletions l date) = [] /\
  watermark_assignments (deletions l date) = [].
Proof.
  induction l as [|e l (Ha & Hf & Hw)]; simpl; repeat split; assumption.
Qed.

Lemma lookup_setitem_other {V : Type} (k k' : string) (v : V) (d : dict V) :
  k' <> k -> lookup k' (setitem k v d) = lookup k' d.
Proof.
  intros Hne. induction d as [|[k0 v0] d IH]; simpl.
  - destruct (k =? k')%string eqn:E; [|reflexivity].
    apply String.eqb_eq in E. congruence.
  - destruct (k0 =? k)%string eqn:E; simpl.
    + apply String.eqb_eq in E. subst k0.
      destruct (k =? k')%string eqn:E'; [|reflexivity].
      apply String.eqb_eq in E'. congruence.
    + rewrite IH. reflexivity.
Qed.

Lemma setting_jsonProperties (a b : ImportBodyComposition) (s p : string) :
  jsonProperties a = jsonProperties b -> setting a s p = setting b s p.
Proof. unfold setting. intros ->. reflexivity. Qed.

(** The assignment of the watermark changes no other setting. *)
Lemma set_data_lastDate_other (self : ImportBodyComposition) (date : string)
  (j : json) (s p : string) :
  set_data_lastDate (jsonProperties self) date = Ok j ->
  s <> "data" \/ p <> "lastDate" ->
  setting (set_jsonProperties self j) s p = setting self s p.
Proof.
  unfold set_data_lastDate, setting. simpl.
  destruct (jsonProperties self) as [| | | | | |top]; try discriminate.
  destruct (lookup "data" top) as [[| | | | | |data]|] eqn:D; try discriminate.
  intros H Hne. injection H as <-.
  destruct (String.eqb_spec s "data") as [->|Hs].
  - rewrite lookup_setitem_same, D.
    destruct Hne as [Hne|Hne]; [congruence|].
    apply lookup_setitem_other. exact Hne.
  - rewrite lookup_setitem_other by exact Hs. reflexivity.
Qed.

Section ImportSummary.

Context {C : Type} {garmin : GarminClient C}.

(** What one round of the loop does, whatever the client answers. *)
Lemma import_row_summary (deleteOldData : bool) (dates : list string)
  (row : dict pyval) (w : World C) :
  exists new,
    trace (fst (import_row deleteOldData dates row w)) = (trace w ++ new)%list /\
    set_jsonProperties (importer (fst (import_row deleteOldData dates row w)))
      (jsonProperties (importer w)) = importer w /\
    (add_calls new = [] \/ add_calls new = [row]) /\
    (deleteOldData = false -> existsb is_delete_call new = false) /\
    watermark_assignments new = fetch_calls new /\
    (fetch_calls new = [] /\
     jsonProperties (importer (fst (import_row deleteOldData dates row w)))
       = jsonProperties (importer w)
     \/
     exists date,
       fetch_calls new = [date] /\
       existsb (String.eqb date) dates = false /\
       timestamp_date_isoformat (record_timestamp row) = Ok date /\
       set_data_lastDate (jsonProperties (importer w)) date
         = Ok (jsonProperties (importer (fst (import_row deleteOldData dates row w))))) /\
    (forall dates',
       snd (import_row deleteOldData dates row w) = Ok dates' ->
       add_calls new = [row] /\
       (exists t, record_timestamp row = PStamp t) /\
       dates' = (dates ++ fetch_calls new)%list).
Proof.
  assert (Hself : forall s : ImportBodyComposition,
            set_jsonProperties s (jsonProperties s) = s) by (intros []; reflexivity).
  assert (Hback : forall (s : ImportBodyComposition) (j : json),
            set_jsonProperties (set_jsonProperties s j) (jsonProperties s) = s)
    by (intros [] ?; reflexivity).
  unfold import_row, bindM, lift, retM.
  destruct (timestamp_date_isoformat (record_timestamp row)) as [date|e] eqn:Hd.
  2: { exists []. simpl. rewrite app_nil_r. split; [reflexivity|].
       split; [apply Hself|]. split; [auto|]. split; [reflexivity|].
       split; [reflexivity|]. split; [auto|]. discriminate. }
  assert (Hstamp : forall u : unit, strftime_check (record_timestamp row) = Ok u ->
                   exists t, record_timestamp row = PStamp t).
  { intros u. destruct (record_timestamp row); try discriminate. eauto. }
  destruct (existsb (String.eqb date) dates) eqn:Hin; cbn [negb].
  - unfold call_add_body_composition.
    destruct (add_body_composition (client w) row) as [c [[]|err]].
    + exists [AddBodyComposition row].
      destruct (strftime_check (record_timestamp row)) as [u|e] eqn:Hs; simpl;
        (split; [reflexivity|]); (split; [apply Hself|]); (split; [auto|]);
        (split; [reflexivity|]); (split; [reflexivity|]); (split; [auto|]);
        intros dates' H; [|discriminate].
      injection H as <-. rewrite app_nil_r. split; [reflexivity|].
      split; [exact (Hstamp u eq_refl) | reflexivity].
    + exists [AddBodyComposition row]. simpl.
      split; [reflexivity|]. split; [apply Hself|]. split; [auto|].
      split; [reflexivity|]. split; [reflexivity|]. split; [auto|]. discriminate.
  - unfold assign_lastDate.
    destruct (set_data_lastDate (jsonProperties (importer w)) date) as [j|e] eqn:Hj.
    2: { exists []. simpl. rewrite app_nil_r. split; [reflexivity|].
         split; [apply Hself|]. split; [auto|]. split; [reflexivity|].
         split; [reflexivity|]. split; [auto|]. discriminate. }
    unfold call_get_daily_weigh_ins. cbn [client].
    destruct (get_daily_weigh_ins (client w) date) as [c1 [l|err]].
    2: { exists [SetLastDate date; GetDailyWeighIns date]. simpl.
         rewrite <- app_assoc. split; [reflexivity|].
         split; [apply Hback|]. split; [auto|]. split; [reflexivity|].
         split; [reflexivity|].
         split; [right; exists date; repeat split; assumption|]. discriminate. }
    remember (log _ (GetDailyWeighIns date) c1) as w1 eqn:Ew1.
    assert (Ht1 : trace w1 = (trace w ++ [SetLastDate date; GetDailyWeighIns date])%list).
    { subst w1. unfold log. simpl. rewrite <- app_assoc. reflexivity. }
    assert (Hi1 : importer w1 = set_jsonProperties (importer w) j).
    { subst w1. reflexivity. }
    clear Ew1.
    assert (Hdel : exists w2 r2 evs,
              (if deleteOldData && negb (empty l)
               then delete_all l date else (fun w0 => (w0, Ok tt))) w1 = (w2, r2) /\
              trace w2 = (trace w1 ++ evs)%list /\
              importer w2 = importer w1 /\
              add_calls evs = [] /\ fetch_calls evs = [] /\
              watermark_assignments evs = [] /\
              (deleteOldData = false -> evs = [])).
    { destruct (deleteOldData && negb (empty l)) eqn:Edel.
      - destruct (delete_all_effects l date w1) as (k & Ht & Hi & _).
        destruct (delete_all l date w1) as [w2 r2]. simpl in Ht, Hi.
        exists w2, r2, (deletions (firstn k l) date).
        destruct (deletions_calls (firstn k l) date) as (Ha & Hf & Hw).
        repeat split; try assumption.
        intros ->. discriminate Edel.
      - exists w1, (Ok tt), []. rewrite app_nil_r. repeat split. }
    destruct Hdel as (w2 & r2 & evs & -> & Ht2 & Hi2 & Ha & Hf & Hw & Hoff).
    assert (Hjs : jsonProperties (importer w2) = j) by (rewrite Hi2, Hi1; reflexivity).
    assert (Himp : set_jsonProperties (importer w2) (jsonProperties (importer w))
                   = importer w).
    { rewrite Hi2, Hi1. destruct (importer w); reflexivity. }
    assert (Hnodel : deleteOldData = false ->
                     forall tl, existsb is_delete_call
                       ([SetLastDate date; GetDailyWeighIns date] ++ evs ++ tl)
                       = existsb is_delete_call tl).
    { intros Hoff' tl. rewrite (Hoff Hoff'). reflexivity. }
    destruct r2 as [[]|err].
    2: { exists ([SetLastDate date; GetDailyWeighIns date] ++ evs)%list.
         cbn [fst snd]. rewrite Ht2, Ht1, <- app_assoc.
         split; [reflexivity|]. split; [exact Himp|].
         rewrite add_calls_app, fetch_calls_app, watermark_assignments_app, Ha, Hf, Hw.
         split; [left; reflexivity|].
         split; [intros Hoff'; rewrite <- (app_nil_r evs), (Hnodel Hoff' []); reflexivity|].
         split; [reflexivity|].
         split; [right; exists date; rewrite Hjs; repeat split; assumption|].
         discriminate. }
    unfold call_add_body_composition.
    destruct (add_body_composition (client w2) row) as [c3 [[]|err]].
    + exists ([SetLastDate date; GetDailyWeighIns date] ++ evs
              ++ [AddBodyComposition row])%list.
      assert (Htr : (trace w2 ++ [AddBodyComposition row])%list
                    = (trace w ++ [SetLastDate date; GetDailyWeighIns date] ++ evs
                         ++ [AddBodyComposition row])%list).
      { rewrite Ht2, Ht1, <- !app_assoc. reflexivity. }
      assert (Hadd : add_calls ([SetLastDate date; GetDailyWeighIns date] ++ evs
                                ++ [AddBodyComposition row]) = [row]).
      { rewrite !add_calls_app, Ha. reflexivity. }
      assert (Hfetch : fetch_calls ([SetLastDate date; GetDailyWeighIns date] ++ evs
                                    ++ [AddBodyComposition row]) = [date]).
      { rewrite !fetch_calls_app, Hf. reflexivity. }
      assert (Hwm : watermark_assignments
                      ([SetLastDate date; GetDailyWeighIns date] ++ evs
                       ++ [AddBodyComposition row]) = [date]).
      { rewrite !watermark_assignments_app, Hw. reflexivity. }
      rewrite Hadd, Hfetch, Hwm.
      destruct (strftime_check (record_timestamp row)) as [u|e] eqn:Hs;
        cbn [fst snd log trace importer];
        (split; [exact Htr|]); (split; [exact Himp|]); (split; [auto|]);
        (split; [intros Hoff'; rewrite (Hnodel Hoff'); reflexivity|]);
        (split; [reflexivity|]);
        (split; [right; exists date; rewrite Hjs; repeat split; assumption|]);
        intros dates' H; [|discriminate].
      injection H as <-. split; [reflexivity|].
      split; [exact (Hstamp u eq_refl) | reflexivity].
    + exists ([SetLastDate date; GetDailyWeighIns date] ++ evs
              ++ [AddBodyComposition row])%list.
      cbn [fst snd log trace importer].
      split; [rewrite Ht2, Ht1, <- !app_assoc; reflexivity|].
      split; [exact Himp|].
      rewrite !add_calls_app, !fetch_calls_app, !watermark_assignments_app, Ha, Hf, Hw.
      split; [right; reflexivity|].
      split; [intros Hoff'; rewrite (Hnodel Hoff'); reflexivity|].
      split; [reflexivity|].
      split; [right; exists date; rewrite Hjs; repeat split; assumption|].
      discriminate.
Qed.

End ImportSummary.

Lemma last_date_app (a b : list string) :
  last_date (a ++ b) = match last_date b with
                       | Some d => Some d
                       | None => last_date a
                       end.
Proof.
  unfold last_date. rewrite rev_app_distr.
  destruct (rev b); reflexivity.
Qed.

Lemma existsb_eqb_In (d : string) (l : list string) :
  existsb (String.eqb d) l = true <-> In d l.
Proof.
  rewrite existsb_exists. split.
  - intros (x & Hin & E). apply String.eqb_eq in E. subst x. exact Hin.
  - intros Hin. exists d. split; [exact Hin | apply String.eqb_refl].
Qed.

Section ImportLoop.

Context {C : Type} {garmin : GarminClient C}.

(** What the loop does over the rows, whatever the client answers. *)
Lemma import_rows_summary (deleteOldData : bool) (l : list (dict pyval)) :
  forall (dates : list string) (loadedItems : Z) (w : World C),
  exists new,
    trace (fst (import_rows deleteOldData dates loadedItems l w))
      = (trace w ++ new)%list /\
    (BodyComposition (importer (fst (import_rows deleteOldData dates loadedItems l w)))
       = BodyComposition (importer w) /\
     mapInfo (importer (fst (import_rows deleteOldData dates loadedItems l w)))
       = mapInfo (importer w) /\
     lastDate (importer (fst (import_rows deleteOldData dates loadedItems l w)))
       = lastDate (importer w)) /\
    (exists rest,
       l = (add_calls new ++ rest)%list /\
       forall k, snd (import_rows deleteOldData dates loadedItems l w) = Ok k ->
                 rest = [] /\ k = loadedItems + Z.of_nat (List.length l) /\
                 all_stamped l = true) /\
    (deleteOldData = false -> existsb is_delete_call new = false) /\
    watermark_assignments new = fetch_calls new /\
    (NoDup (fetch_calls new) /\
     forall d, In d (fetch_calls new) -> ~ In d dates /\ In d (record_dates l)) /\
    (forall s p, s <> "data" \/ p <> "lastDate" ->
       setting (importer (fst (import_rows deleteOldData dates loadedItems l w))) s p
       = setting (importer w) s p) /\
    match last_date (fetch_calls new) with
    | Some d =>
        setting (importer (fst (import_rows deleteOldData dates loadedItems l w)))
          "data" "lastDate" = Some (JStr d)
    | None =>
        jsonProperties (importer (fst (import_rows deleteOldData dates loadedItems l w)))
        = jsonProperties (importer w)
    end.
Proof.
  induction l as [|row l IH]; intros dates loadedItems w.
  - exists []. simpl. rewrite app_nil_r.
    split; [reflexivity|]. split; [repeat split|].
    split. { exists []. split; [reflexivity|]. intros k H. injection H as <-.
             repeat split. lia. }
    split; [reflexivity|]. split; [reflexivity|].
    split. { split; [constructor|]. intros d []. }
    split; reflexivity.
  - destruct (import_row_summary deleteOldData dates row w)
      as (new1 & Ht1 & Hi1 & Hadd1 & Hdel1 & Hwm1 & Hfetch1 & Hok1).
    assert (Estep : import_rows deleteOldData dates loadedItems (row :: l) w =
              match import_row deleteOldData dates row w with
              | (w', Ok dates') => import_rows deleteOldData dates' (loadedItems + 1) l w'
              | (w', Raise e) => (w', Raise e)
              end) by reflexivity.
    rewrite Estep. clear Estep.
    destruct (import_row deleteOldData dates row w) as [w1 [dates1|e]] eqn:R;
      cbn [fst snd] in *.
    2: { (* the round raises *)
      exists new1. split; [exact Ht1|].
      split. { apply (f_equal BodyComposition) in Hi1 as Hb.
               apply (f_equal mapInfo) in Hi1 as Hm.
               apply (f_equal lastDate) in Hi1 as Hl.
               simpl in Hb, Hm, Hl. repeat split; assumption. }
      split. { destruct Hadd1 as [-> | ->].
               - exists (row :: l). split; [reflexivity|]. discriminate.
               - exists l. split; [reflexivity|]. discriminate. }
      split; [exact Hdel1|]. split; [exact Hwm1|].
      destruct Hfetch1 as [[Hf Hjs] | (date & Hf & Hnew & Hd & Hset)]; rewrite Hf.
      - split. { split; [constructor|]. intros d []. }
        split. { intros s p _. apply setting_jsonProperties. exact Hjs. }
        exact Hjs.
      - split.
        { split; [repeat constructor; intros []|].
          intros d [<-|[]]. split.
          - intros Hin. apply existsb_eqb_In in Hin. congruence.
          - simpl. rewrite Hd. left. reflexivity. }
        split.
        { intros s p Hne.
          rewrite <- (set_data_lastDate_other (importer w) date _ s p Hset Hne).
          apply setting_jsonProperties. reflexivity. }
        cbn [last_date rev app].
        rewrite <- (set_data_lastDate_setting (importer w) date _ Hset).
        apply setting_jsonProperties. reflexivity. }
    destruct (Hok1 dates1 eq_refl) as (Ha1 & [t Hstamp] & ->). clear Hok1 Hadd1.
    destruct (IH (dates ++ fetch_calls new1)%list (loadedItems + 1) w1)
      as (new2 & Ht2 & (Hb2 & Hm2 & Hl2) & (rest & Hrest & Hok2) & Hdel2 & Hwm2
          & (Hnd2 & Hin2) & Hset2 & Hlast2).
    set (w2 := fst (import_rows deleteOldData (dates ++ fetch_calls new1)
                      (loadedItems + 1) l w1)) in *.
    exists (new1 ++ new2)%list.
    split; [rewrite Ht2, Ht1, app_assoc; reflexivity|].
    apply (f_equal BodyComposition) in Hi1 as Hb.
    apply (f_equal mapInfo) in Hi1 as Hm.
    apply (f_equal lastDate) in Hi1 as Hl.
    simpl in Hb, Hm, Hl.
    split; [repeat split; congruence|].
    split.
    { exists rest. rewrite add_calls_app, Ha1. simpl.
      split; [rewrite <- Hrest; reflexivity|].
      intros k Hk. destruct (Hok2 k Hk) as (-> & -> & Hst).
      split; [reflexivity|]. split.
      - cbn [List.length]. lia.
      - simpl. rewrite Hstamp. exact Hst. }
    split.
    { intros Hoff. rewrite existsb_app, (Hdel1 Hoff), (Hdel2 Hoff). reflexivity. }
    split.
    { rewrite watermark_assignments_app, fetch_calls_app, Hwm1, Hwm2. reflexivity. }
    assert (Hsettings1 : forall s p, s <> "data" \/ p <> "lastDate" ->
              setting (importer w1) s p = setting (importer w) s p).
    { intros s p Hne.
      destruct Hfetch1 as [[_ Hjs] | (date & _ & _ & _ & Hset)].
      - apply setting_jsonProperties. exact Hjs.
      - rewrite <- (set_data_lastDate_other (importer w) date _ s p Hset Hne).
        apply setting_jsonProperties. reflexivity. }
    split.
    { rewrite fetch_calls_app. split.
      - destruct Hfetch1 as [[Hf _] | (date & Hf & _ & _ & _)]; rewrite Hf in *.
        + exact Hnd2.
        + simpl. constructor; [|exact Hnd2].
          intros Hin. destruct (Hin2 date Hin) as [Hno _].
          apply Hno, in_or_app. right. left. reflexivity.
      - intros d Hin. apply in_app_or in Hin as [Hin|Hin].
        + destruct Hfetch1 as [[Hf _] | (date & Hf & Hnew & Hd & _)];
            rewrite Hf in Hin; [destruct Hin|].
          destruct Hin as [<-|[]]. split.
          * intros Hin. apply existsb_eqb_In in Hin. congruence.
          * simpl. rewrite Hd. left. reflexivity.
        + destruct (Hin2 d Hin) as [Hno Hrec]. split.
          * intros Hd. apply Hno, in_or_app. left. exact Hd.
          * simpl. rewrite Hstamp. simpl. right. exact Hrec. }
    split.
    { intros s p Hne. rewrite (Hset2 s p Hne). apply Hsettings1. exact Hne. }
    rewrite fetch_calls_app, last_date_app.
    destruct (last_date (fetch_calls new2)) as [d|]; [exact Hlast2|].
    destruct Hfetch1 as [[Hf Hjs] | (date & Hf & _ & _ & Hset)]; rewrite Hf.
    + cbn [last_date rev]. rewrite Hlast2. exact Hjs.
    + cbn [last_date rev app].
      rewrite <- (set_data_lastDate_setting (importer w) date _ Hset).
      apply setting_jsonProperties. rewrite Hlast2. reflexivity.
Qed.

End ImportLoop.

(** ** loadDataOnGarminConnect over the RecordSet *)

Section ImportProperties.

Context {C : Type} {garmin : GarminClient C}.

Lemma loadDataOnGarminConnect_enabled (w : World C) :
  flag_enabled (importer w) "callAPI" = true ->
  fst (loadDataOnGarminConnect w)
    = fst (import_rows (flag_enabled (importer w) "deleteOldData") [] 0
             (BodyComposition (importer w)) w) /\
  snd (loadDataOnGarminConnect w)
    = match snd (import_rows (flag_enabled (importer w) "deleteOldData") [] 0
                   (BodyComposition (importer w)) w) with
      | Ok n => Ok (Some n)
      | Raise e => Raise e
      end.
Proof.
  intros H. rewrite loadDataOnGarminConnect_flags, H. unfold bindM, retM.
  destruct (import_rows _ [] 0 (BodyComposition (importer w)) w) as [w' [n|e]];
    split; reflexivity.
Qed.

Lemma loadDataOnGarminConnect_disabled (w : World C) :
  flag_enabled (importer w) "callAPI" = false ->
  loadDataOnGarminConnect w = (w, Ok None).
Proof.
  intros H. rewrite loadDataOnGarminConnect_flags, H. reflexivity.
Qed.

(** X11.  With [callAPI] enabled the records are sent to
    [add_body_composition] in the order of the RecordSet, each at most once
    and none skipped: whatever the client answers, the rows of the calls made
    are a prefix of the RecordSet.  When the import completes, every record
    has been sent and the count it reports is the size of the RecordSet. *)
Theorem import_sends_records_in_order (w : World C) :
  flag_enabled (importer w) "callAPI" = true ->
  exists new rest,
    trace (fst (loadDataOnGarminConnect w)) = (trace w ++ new)%list /\
    BodyComposition (importer w) = (add_calls new ++ rest)%list /\
    forall r, snd (loadDataOnGarminConnect w) = Ok r ->
      rest = [] /\
      r = Some (Z.of_nat (List.length (BodyComposition (importer w)))).
Proof.
  intros H. destruct (loadDataOnGarminConnect_enabled w H) as [-> ->].
  destruct (import_rows_summary (flag_enabled (importer w) "deleteOldData")
              (BodyComposition (importer w)) [] 0 w)
    as (new & Ht & _ & (rest & Hrest & Hok) & _).
  exists new, rest. split; [exact Ht|]. split; [exact Hrest|].
  intros r Hr.
  destruct (snd (import_rows _ [] 0 (BodyComposition (importer w)) w)) as [n|e];
    [|discriminate].
  injection Hr as <-. destruct (Hok n eq_refl) as (-> & -> & _).
  split; reflexivity.
Qed.

(** X12.  The remote entries of a date are fetched at most once in an
    import, every date fetched is the date of a stored record, and the
    watermark [data.lastDate] is assigned exactly the dates fetched, in the
    same order. *)
Theorem import_fetches_each_date_once (w : World C) :
  flag_enabled (importer w) "callAPI" = true ->
  exists new,
    trace (fst (loadDataOnGarminConnect w)) = (trace w ++ new)%list /\
    NoDup (fetch_calls new) /\
    (forall d, In d (fetch_calls new) ->
       In d (record_dates (BodyComposition (importer w)))) /\
    watermark_assignments new = fetch_calls new.
Proof.
  intros H. destruct (loadDataOnGarminConnect_enabled w H) as [-> _].
  destruct (import_rows_summary (flag_enabled (importer w) "deleteOldData")
              (BodyComposition (importer w)) [] 0 w)
    as (new & Ht & _ & _ & _ & Hwm & (Hnd & Hin) & _).
  exists new. split; [exact Ht|]. split; [exact Hnd|]. split; [|exact Hwm].
  intros d Hd. exact (proj2 (Hin d Hd)).
Qed.

(** X13.  Unless [deleteOldData] is the string ['True'], the import never
    calls [delete_weigh_in], whatever the remote account holds. *)
Theorem import_deletes_only_with_flag (w : World C) :
  flag_enabled (importer w) "deleteOldData" = false ->
  exists new,
    trace (fst (loadDataOnGarminConnect w)) = (trace w ++ new)%list /\
    existsb is_delete_call new = false.
Proof.
  intros Hoff.
  destruct (flag_enabled (importer w) "callAPI") eqn:H.
  - destruct (loadDataOnGarminConnect_enabled w H) as [-> _].
    destruct (import_rows_summary (flag_enabled (importer w) "deleteOldData")
                (BodyComposition (importer w)) [] 0 w)
      as (new & Ht & _ & _ & Hdel & _).
    exists new. split; [exact Ht | exact (Hdel Hoff)].
  - rewrite (loadDataOnGarminConnect_disabled w H).
    exists []. rewrite app_nil_r. split; reflexivity.
Qed.

(** X14.  The import changes nothing of the object but the setting
    [data.lastDate]: RecordSet, schema and the watermark [self.lastDate] read
    at start-up stay as they are, and so does every other setting.  When a
    date was fetched, [data.lastDate] ends as the last date fetched, also
    when the import fails later; otherwise the settings document is
    unchanged. *)
Theorem import_changes_only_watermark_setting (w : World C) :
  exists new,
    trace (fst (loadDataOnGarminConnect w)) = (trace w ++ new)%list /\
    BodyComposition (importer (fst (loadDataOnGarminConnect w)))
      = BodyComposition (importer w) /\
    mapInfo (importer (fst (loadDataOnGarminConnect w))) = mapInfo (importer w) /\
    lastDate (importer (fst (loadDataOnGarminConnect w))) = lastDate (importer w) /\
    (forall s p, s <> "data" \/ p <> "lastDate" ->
       setting (importer (fst (loadDataOnGarminConnect w))) s p
       = setting (importer w) s p) /\
    match last_date (fetch_calls new) with
    | Some d =>
        setting (importer (fst (loadDataOnGarminConnect w))) "data" "lastDate"
        = Some (JStr d)
    | None =>
        jsonProperties (importer (fst (loadDataOnGarminConnect w)))
        = jsonProperties (importer w)
    end.
Proof.
  destruct (flag_enabled (importer w) "callAPI") eqn:H.
  - destruct (loadDataOnGarminConnect_enabled w H) as [-> _].
    destruct (import_rows_summary (flag_enabled (importer w) "deleteOldData")
                (BodyComposition (importer w)) [] 0 w)
      as (new & Ht & (Hb & Hm & Hl) & _ & _ & _ & _ & Hset & Hlast).
    exists new. repeat (split; [assumption|]). exact Hlast.
  - rewrite (loadDataOnGarminConnect_disabled w H).
    exists []. rewrite app_nil_r. simpl. repeat split.
Qed.

(** X15.  An import over a RecordSet that holds a row without a Timestamp
    does not complete: it raises, at that row at the latest. *)
Theorem import_stops_without_timestamp (w : World C) :
  flag_enabled (importer w) "callAPI" = true ->
  all_stamped (BodyComposition (importer w)) = false ->
  raises (snd (loadDataOnGarminConnect w)).
Proof.
  intros H Hst. destruct (loadDataOnGarminConnect_enabled w H) as [_ ->].
  destruct (import_rows_summary (flag_enabled (importer w) "deleteOldData")
              (BodyComposition (importer w)) [] 0 w)
    as (new & _ & _ & (rest & _ & Hok) & _).
  destruct (snd (import_rows _ [] 0 (BodyComposition (importer w)) w)) as [n|e].
  - destruct (Hok n eq_refl) as (_ & _ & Hall). congruence.
  - exists e. reflexivity.
Qed.

End ImportProperties.

(** Two records of one day and one of the next, pushed to an empty
    account. *)
Lemma import_sends_records_in_order_witness :
  let bc := [record (PStamp (mk_timestamp 2024 1 1 8 0)) (PFloat (FFin false 141 (-1)));
             record (PStamp (mk_timestamp 2024 1 1 9 0)) (PFloat (FFin false 71 0));
             record (PStamp (mk_timestamp 2024 1 2 8 0)) (PFloat (FFin false 35 1))] in
  let w0 := world_of (importing_self [] bc) empty_account in
  exists new rest,
    trace (fst (loadDataOnGarminConnect w0)) = (trace w0 ++ new)%list /\
    BodyComposition (importer w0) = (add_calls new ++ rest)%list /\
    forall r, snd (loadDataOnGarminConnect w0) = Ok r ->
      rest = [] /\ r = Some (Z.of_nat (List.length (BodyComposition (importer w0)))).
Proof.
  intros bc w0. apply (import_sends_records_in_order w0). reflexivity.
Defined.

Lemma import_fetches_each_date_once_witness :
  let bc := [record (PStamp (mk_timestamp 2024 1 1 8 0)) (PFloat (FFin false 141 (-1)));
             record (PStamp (mk_timestamp 2024 1 1 9 0)) (PFloat (FFin false 71 0));
             record (PStamp (mk_timestamp 2024 1 2 8 0)) (PFloat (FFin false 35 1))] in
  let w0 := world_of (importing_self [] bc) empty_account in
  exists new,
    trace (fst (loadDataOnGarminConnect w0)) = (trace w0 ++ new)%list /\
    NoDup (fetch_calls new) /\
    (forall d, In d (fetch_calls new) ->
       In d (record_dates (BodyComposition (importer w0)))) /\
    watermark_assignments new = fetch_calls new.
Proof.
  intros bc w0. apply (import_fetches_each_date_once w0). reflexivity.
Defined.

(** [deleteOldData] is the JSON boolean [true]: the entry of the account is
    kept. *)
Lemma import_deletes_only_with_flag_witness :
  let w0 := world_of
              (importing_self [("deleteOldData", JBool true)]
                 [record (PStamp (mk_timestamp 2024 1 1 8 0))
                         (PFloat (FFin false 141 (-1)))])
              {| offline := false; entries := [("2024-01-01", 7)]; next_pk := 8 |} in
  exists new,
    trace (fst (loadDataOnGarminConnect w0)) = (trace w0 ++ new)%list /\
    existsb is_delete_call new = false.
Proof.
  intros w0. apply (import_deletes_only_with_flag w0). reflexivity.
Defined.

Lemma import_changes_only_watermark_setting_witness :
  let w0 := world_of
              (importing_self []
                 [record (PStamp (mk_timestamp 2024 1 1 8 0))
                         (PFloat (FFin false 141 (-1)))])
              empty_account in
  setting (importer (fst (loadDataOnGarminConnect w0))) "data" "dateTimeFormat"
  = setting (importer w0) "data" "dateTimeFormat".
Proof.
  intros w0.
  destruct (import_changes_only_watermark_setting w0) as (new & _ & _ & _ & _ & H & _).
  apply H. right. discriminate.
Defined.

(** A stored row whose timestamp is [NaT]. *)
Lemma import_stops_without_timestamp_witness :
  raises (snd (loadDataOnGarminConnect
                 (world_of (importing_self [] [record PNaT (PFloat (FFin false 141 (-1)))])
                           empty_account))).
Proof.
  apply import_stops_without_timestamp; reflexivity.
Defined.

(** ** The watermark comparison *)

Lemma ascii_compare_lt_trans (a b c : ascii) :
  Ascii.compare a b = Lt -> Ascii.compare b c = Lt -> Ascii.compare a c = Lt.
Proof.
  unfold Ascii.compare. rewrite !N.compare_lt_iff. apply N.lt_trans.
Qed.

Lemma string_compare_lt_trans (a b c : string) :
  String.compare a b = Lt -> String.compare b c = Lt -> String.compare a c = Lt.
Proof.
  revert b c. induction a as [|x a IH]; intros [|y b] [|z c]; simpl;
    try discriminate; try reflexivity.
  destruct (Ascii.compare x y) eqn:Exy; try discriminate.
  - apply Ascii.compare_eq_iff in Exy. subst y.
    destruct (Ascii.compare x z); try discriminate; [apply IH | reflexivity].
  - intros _. destruct (Ascii.compare y z) eqn:Eyz; try discriminate.
    + apply Ascii.compare_eq_iff in Eyz. subst z. rewrite Exy. reflexivity.
    + rewrite (ascii_compare_lt_trans x y z Exy Eyz). reflexivity.
Qed.

Lemma string_compare_refl (a : string) : String.compare a a = Eq.
Proof.
  destruct (String.compare a a) eqn:E; [reflexivity| |];
    pose proof (String.compare_antisym a a) as H; rewrite E in H; discriminate H.
Qed.

(** Strings with prefixes of one length compare by the prefixes first. *)
Lemma string_compare_app (a b s t : string) :
  String.length a = String.length b ->
  String.compare (a ++ s) (b ++ t) =
    match String.compare a b with
    | Eq => String.compare s t
    | c => c
    end.
Proof.
  revert b. induction a as [|x a IH]; intros [|y b] H; simpl in *;
    try discriminate; [reflexivity|].
  destruct (Ascii.compare x y); [apply IH; congruence | reflexivity | reflexivity].
Qed.

Section Chain.

Context {A : Type} (f : Z -> A) (R : A -> A -> Prop).
Hypothesis R_trans : forall x y z, R x y -> R y z -> R x z.

(** Consecutive steps of a transitive relation give every pair. *)
Lemma chain_lt (first last : Z) :
  (forall k, first <= k < last -> R (f k) (f (k + 1))) ->
  forall a b, first <= a -> a < b -> b <= last -> R (f a) (f b).
Proof.
  intros Hstep a b Ha Hab Hb.
  replace b with (a + 1 + Z.of_nat (Z.to_nat (b - a - 1))) in * by lia.
  induction (Z.to_nat (b - a - 1)) as [|m IH].
  - rewrite Z.add_0_r. apply Hstep. lia.
  - apply (R_trans _ (f (a + 1 + Z.of_nat m))).
    + apply IH; lia.
    + replace (a + 1 + Z.of_nat (S m)) with (a + 1 + Z.of_nat m + 1) by lia.
      apply Hstep. lia.
Qed.

End Chain.

Lemma ascending_days_from_step (n : nat) (first k : Z) :
  ascending_days_from (civil_of_days first) first n = true ->
  0 <= k <= Z.of_nat n ->
  civil_in_range (civil_of_days (first + k)) = true /\
  (k < Z.of_nat n ->
   civil_lt (civil_of_days (first + k)) (civil_of_days (first + k + 1)) = true).
Proof.
  revert first k. induction n as [|n IH]; intros first k H Hk;
    cbn [ascending_days_from] in H.
  - replace k with 0 by lia. rewrite Z.add_0_r. split; [exact H | lia].
  - cbv zeta in H.
    destruct (civil_in_range (civil_of_days first)
              && civil_lt (civil_of_days first) (civil_of_days (first + 1))) eqn:E;
      [|discriminate].
    apply andb_prop in E as [Er El].
    destruct (Z.eq_dec k 0) as [->|Hne].
    + rewrite Z.add_0_r. split; [exact Er | intros _; exact El].
    + replace (first + k) with (first + 1 + (k - 1)) by lia.
      destruct (IH (first + 1) (k - 1) H ltac:(lia)) as [Hr Hl].
      split; [exact Hr | intros Hlt; apply Hl; lia].
Qed.

Lemma ascending_days_step (n : nat) (first k : Z) :
  ascending_days first n = true ->
  0 <= k <= Z.of_nat n ->
  civil_in_range (civil_of_days (first + k)) = true /\
  (k < Z.of_nat n ->
   civil_lt (civil_of_days (first + k)) (civil_of_days (first + k + 1)) = true).
Proof. apply ascending_days_from_step. Qed.

Lemma ascending_numerals_step (w n : nat) (first k : Z) :
  ascending_numerals w first n = true ->
  0 <= k <= Z.of_nat n ->
  String.length (pad_zeros w (Z.to_N (first + k))) = w /\
  (k < Z.of_nat n ->
   String.compare (pad_zeros w (Z.to_N (first + k)))
                  (pad_zeros w (Z.to_N (first + k + 1))) = Lt).
Proof.
  revert first k. induction n as [|n IH]; intros first k H Hk;
    cbn [ascending_numerals] in H.
  - replace k with 0 by lia. rewrite Z.add_0_r.
    split; [apply Nat.eqb_eq; exact H | lia].
  - destruct (Nat.eqb (String.length (pad_zeros w (Z.to_N first))) w
              && String.ltb (pad_zeros w (Z.to_N first))
                            (pad_zeros w (Z.to_N (first + 1)))) eqn:E;
      [|discriminate].
    apply andb_prop in E as [Er El]. apply Nat.eqb_eq in Er.
    destruct (Z.eq_dec k 0) as [->|Hne].
    + rewrite Z.add_0_r. split; [exact Er|]. intros _.
      unfold String.ltb in El.
      destruct (String.compare _ _); [discriminate | reflexivity | discriminate].
    + replace (first + k) with (first + 1 + (k - 1)) by lia.
      destruct (IH (first + 1) (k - 1) H ltac:(lia)) as [Hr Hl].
      split; [exact Hr | intros Hlt; apply Hl; lia].
Qed.

(** Numerals of one width compare as the numbers. *)
Lemma ascending_numerals_lt (w n : nat) (first a b : Z) :
  ascending_numerals w first n = true ->
  first <= a -> a < b -> b <= first + Z.of_nat n ->
  String.compare (pad_zeros w (Z.to_N a)) (pad_zeros w (Z.to_N b)) = Lt.
Proof.
  intros H Ha Hab Hb.
  apply (chain_lt (fun k => pad_zeros w (Z.to_N k))
           (fun x y => String.compare x y = Lt) string_compare_lt_trans
           first (first + Z.of_nat n)); try assumption.
  intros k Hk. replace k with (first + (k - first)) by lia.
  apply (ascending_numerals_step w n); [exact H | lia | lia].
Qed.

Lemma ascending_numerals_length (w n : nat) (first a : Z) :
  ascending_numerals w first n = true ->
  first <= a <= first + Z.of_nat n ->
  String.length (pad_zeros w (Z.to_N a)) = w.
Proof.
  intros H Ha. replace a with (first + (a - first)) by lia.
  apply (ascending_numerals_step w n); [exact H | lia].
Qed.

Lemma civil_lt_trans (x y z : Z * Z * Z) :
  civil_lt x y = true -> civil_lt y z = true -> civil_lt x z = true.
Proof.
  destruct x as [[y1 m1] d1], y as [[y2 m2] d2], z as [[y3 m3] d3].
  unfold civil_lt.
  rewrite !orb_true_iff, !andb_true_iff, !orb_true_iff, !andb_true_iff,
    !Z.ltb_lt, !Z.eqb_eq.
  lia.
Qed.

(** The years 1677 to 2262 in four digits, the months and days in two. *)
Lemma ascending_years : ascending_numerals 4 1677 585 = true.
Proof. vm_compute. reflexivity. Qed.

Lemma ascending_months_days : ascending_numerals 2 1 30 = true.
Proof. vm_compute. reflexivity. Qed.

(** The days of the Timestamps pandas has, 1677-09-21 to 2262-04-11. *)
Lemma ascending_days_pandas : ascending_days (-106752) (Z.to_nat 213503) = true.
Proof. vm_compute. reflexivity. Qed.

(** On the dates of these years the ISO format keeps the calendar order. *)
Lemma iso_date_lt (c1 c2 : Z * Z * Z) :
  civil_in_range c1 = true -> civil_in_range c2 = true ->
  civil_lt c1 c2 = true ->
  String.compare (iso_date c1) (iso_date c2) = Lt.
Proof.
  destruct c1 as [[y1 m1] d1], c2 as [[y2 m2] d2].
  unfold civil_in_range, civil_lt, iso_date. intros R1 R2 H.
  repeat (apply andb_prop in R1 as [R1 ?]). repeat (apply andb_prop in R2 as [R2 ?]).
  repeat match goal with
         | H : (_ <=? _) = true |- _ => apply Z.leb_le in H
         end.
  assert (L4 : forall y, 1677 <= y <= 2262 ->
                 String.length (pad_zeros 4 (Z.to_N y)) = 4%nat).
  { intros y Hy. apply (ascending_numerals_length 4 585 1677); [exact ascending_years|].
    simpl. lia. }
  assert (L2 : forall m, 1 <= m <= 31 ->
                 String.length (pad_zeros 2 (Z.to_N m)) = 2%nat).
  { intros m Hm. apply (ascending_numerals_length 2 30 1);
      [exact ascending_months_days|]. simpl. lia. }
  assert (C4 : forall a b, 1677 <= a -> a < b -> b <= 2262 ->
                 String.compare (pad_zeros 4 (Z.to_N a)) (pad_zeros 4 (Z.to_N b)) = Lt).
  { intros a b Ha Hab Hb.
    apply (ascending_numerals_lt 4 585 1677); [exact ascending_years|lia|lia|simpl; lia]. }
  assert (C2 : forall a b, 1 <= a -> a < b -> b <= 31 ->
                 String.compare (pad_zeros 2 (Z.to_N a)) (pad_zeros 2 (Z.to_N b)) = Lt).
  { intros a b Ha Hab Hb.
    apply (ascending_numerals_lt 2 30 1);
      [exact ascending_months_days|lia|lia|simpl; lia]. }
  rewrite string_compare_app by (rewrite !L4 by lia; reflexivity).
  destruct (Z.ltb_spec y1 y2) as [Hy|Hy]; simpl in H.
  { rewrite C4 by lia. reflexivity. }
  apply andb_prop in H as [Ey H]. apply Z.eqb_eq in Ey. subst y2.
  rewrite string_compare_refl.
  change (String.compare ("-" ++ ?a) ("-" ++ ?b)) with (String.compare a b).
  rewrite string_compare_app by (rewrite !L2 by lia; reflexivity).
  destruct (Z.ltb_spec m1 m2) as [Hm|Hm]; simpl in H.
  { rewrite C2 by lia. reflexivity. }
  apply andb_prop in H as [Em H]. apply Z.eqb_eq in Em. subst m2.
  rewrite string_compare_refl.
  change (String.compare ("-" ++ ?a) ("-" ++ ?b)) with (String.compare a b).
  apply Z.ltb_lt in H. apply C2; lia.
Qed.

Lemma day_number_in_range (t : Timestamp) :
  timestamp_in_range t -> -106752 <= day_number t <= 106751.
Proof.
  unfold timestamp_in_range, day_number, ns_per_day. intros [Hlo Hhi].
  split.
  - apply Z.div_le_lower_bound; lia.
  - apply Z.lt_succ_r, Z.div_lt_upper_bound; lia.
Qed.

Lemma date_isoformat_day (t : Timestamp) :
  date_isoformat t = iso_date (civil_of_days (day_number t)).
Proof.
  unfold iso_date, day_number, date_isoformat.
  destruct (civil_of_days (t / ns_per_day)) as [[y m] d]. reflexivity.
Qed.

(** Of two days of the Timestamps pandas has, the earlier has the smaller
    ISO date. *)
Lemma iso_date_of_days_lt (a b : Z) :
  -106752 <= a -> a < b -> b <= 106751 ->
  String.compare (iso_date (civil_of_days a)) (iso_date (civil_of_days b)) = Lt.
Proof.
  intros Ha Hab Hb.
  assert (Hn : Z.of_nat (Z.to_nat 213503) = 213503) by lia.
  assert (Hr : forall k, -106752 <= k <= 106751 ->
                 civil_in_range (civil_of_days k) = true).
  { intros k Hk. replace k with (-106752 + (k + 106752)) by lia.
    apply (ascending_days_step (Z.to_nat 213503)); [exact ascending_days_pandas | lia]. }
  apply iso_date_lt; [apply Hr; lia | apply Hr; lia|].
  apply (chain_lt civil_of_days (fun x y => civil_lt x y = true) civil_lt_trans
           (-106752) 106751); try assumption.
  intros k Hk. replace k with (-106752 + (k + 106752)) by lia.
  apply (ascending_days_step (Z.to_nat 213503)); [exact ascending_days_pandas | lia | lia].
Qed.

Lemma date_isoformat_nonempty (t : Timestamp) : date_isoformat t <> "".
Proof.
  unfold date_isoformat. destruct (civil_of_days (t / ns_per_day)) as [[y m] d].
  destruct (pad_zeros 4 (Z.to_N y)); discriminate.
Qed.

(** X16.  The watermark filter compares dates as strings, and on the
    Timestamps pandas has the comparison is the chronological one: a row is
    not before the watermark exactly when its day is not before the day of
    the watermark. *)
Theorem watermark_comparison_chronological (t tw : Timestamp) :
  timestamp_in_range t ->
  timestamp_in_range tw ->
  not_before_watermark (JStr (date_isoformat tw)) (date_isoformat t)
  = Ok (day_number tw <=? day_number t).
Proof.
  intros Ht Htw.
  apply day_number_in_range in Ht, Htw.
  unfold not_before_watermark.
  assert (Htruthy : json_truthy (JStr (date_isoformat tw)) = true).
  { pose proof (date_isoformat_nonempty tw) as Hne. simpl.
    destruct (date_isoformat tw); [congruence | reflexivity]. }
  rewrite Htruthy. cbn [negb]. f_equal.
  rewrite !date_isoformat_day. unfold str_ge, String.ltb.
  destruct (Z.leb_spec (day_number tw) (day_number t)) as [Hle|Hlt].
  - destruct (Z.eq_dec (day_number tw) (day_number t)) as [->|Hne].
    + rewrite string_compare_refl. reflexivity.
    + rewrite String.compare_antisym.
      rewrite (iso_date_of_days_lt (day_number tw) (day_number t)); [reflexivity|lia..].
  - rewrite (iso_date_of_days_lt (day_number t) (day_number tw)); [reflexivity|lia..].
Qed.

(** The last minute of a year against the first day of the next. *)
Lemma watermark_comparison_chronological_witness :
  not_before_watermark (JStr (date_isoformat (mk_timestamp 2024 1 1 0 0)))
    (date_isoformat (mk_timestamp 2023 12 31 23 59))
  = Ok false.
Proof.
  apply (watermark_comparison_chronological (mk_timestamp 2023 12 31 23 59)
           (mk_timestamp 2024 1 1 0 0)); vm_compute; split; reflexivity.
Defined.

(** ** The import, record by record *)

Section ImportByDate.

Context {C : Type} {garmin : GarminClient C}.

(** A round that completes has entered the date of its record. *)
Lemma import_row_dates (deleteOldData : bool) (dates dates' : list string)
  (row : dict pyval) (w : World C) :
  snd (import_row deleteOldData dates row w) = Ok dates' ->
  exists date,
    timestamp_date_isoformat (record_timestamp row) = Ok date /\
    dates' = if existsb (String.eqb date) dates then dates else (dates ++ [date])%list.
Proof.
  unfold import_row, bindM, lift, retM.
  destruct (timestamp_date_isoformat (record_timestamp row)) as [date|e];
    [|discriminate].
  intros H. exists date. split; [reflexivity|]. revert H.
  destruct (existsb (String.eqb date) dates); cbn [negb].
  - unfold call_add_body_composition.
    destruct (add_body_composition (client w) row) as [c [[]|err]]; [|discriminate].
    destruct (strftime_check (record_timestamp row)); [|discriminate].
    intros H. injection H as <-. reflexivity.
  - unfold assign_lastDate.
    destruct (set_data_lastDate (jsonProperties (importer w)) date) as [j|e];
      [|discriminate].
    unfold call_get_daily_weigh_ins. cbn [client].
    destruct (get_daily_weigh_ins (client w) date) as [c1 [l|err]]; [|discriminate].
    cbn [bind]. unfold call_add_body_composition.
    destruct (deleteOldData && negb (empty l)).
    + match goal with
      | |- context [delete_all l date ?x] =>
          destruct (delete_all l date x) as [w2 [[]|err]]
      end; [|discriminate].
      destruct (add_body_composition (client w2) row) as [c3 [[]|err]];
        [|discriminate].
      destruct (strftime_check (record_timestamp row)); [|discriminate].
      intros H. injection H as <-. reflexivity.
    + match goal with
      | |- context [add_body_composition ?x row] =>
          destruct (add_body_composition x row) as [c3 [[]|err]]
      end; [|discriminate].
      destruct (strftime_check (record_timestamp row)); [|discriminate].
      intros H. injection H as <-. reflexivity.
Qed.

(** The loop over [a ++ b] is the loop over [a], then the loop over [b] with
    the dates of [a] entered. *)
Lemma import_rows_app (deleteOldData : bool) (a b : list (dict pyval)) :
  forall (dates : list string) (n n1 : Z) (w w1 : World C),
  import_rows deleteOldData dates n a w = (w1, Ok n1) ->
  exists dates1,
    import_rows deleteOldData dates n (a ++ b) w
      = import_rows deleteOldData dates1 n1 b w1 /\
    forall x, existsb (String.eqb x) dates1
              = existsb (String.eqb x) (dates ++ record_dates a).
Proof.
  induction a as [|row a IH]; intros dates n n1 w w1 H.
  - simpl in H. injection H as <- <-. exists dates. split; [reflexivity|].
    intros x. simpl. rewrite app_nil_r. reflexivity.
  - assert (Estep : forall l, import_rows deleteOldData dates n (row :: l) w =
              match import_row deleteOldData dates row w with
              | (w', Ok dates') => import_rows deleteOldData dates' (n + 1) l w'
              | (w', Raise e) => (w', Raise e)
              end) by reflexivity.
    rewrite Estep in H. change ((row :: a) ++ b)%list with (row :: (a ++ b))%list.
    rewrite Estep. clear Estep.
    pose proof (fun d' => import_row_dates deleteOldData dates d' row w) as Hd.
    destruct (import_row deleteOldData dates row w) as [w' [dates'|e]];
      [|discriminate].
    destruct (Hd dates' eq_refl) as (date & Hdate & ->). clear Hd.
    destruct (IH _ _ _ _ _ H) as (dates1 & E & Hin).
    exists dates1. split; [exact E|].
    intros x. rewrite Hin. simpl. rewrite Hdate.
    destruct (existsb (String.eqb date) dates) eqn:Eseen.
    + rewrite !existsb_app. simpl.
      destruct (String.eqb_spec x date) as [->|Hne]; [|reflexivity].
      rewrite Eseen. reflexivity.
    + rewrite !existsb_app. simpl.
      destruct (existsb (String.eqb x) dates), (x =? date)%string; reflexivity.
Qed.

(** The import does not read the RecordSet of the object while it runs. *)
Lemma frames_ret {A : Type} (rows : list (dict pyval)) (a : A) : frames (C := C) rows (retM a).
Proof. intros w. reflexivity. Qed.

Lemma frames_lift {A : Type} (rows : list (dict pyval)) (r : res A) :
  frames (C := C) rows (lift r).
Proof. intros w. reflexivity. Qed.

Lemma frames_bind {A B : Type} (rows : list (dict pyval)) (c : M C A) (k : A -> M C B) :
  frames (C := C) rows c -> (forall a, frames (C := C) rows (k a)) -> frames (C := C) rows (bindM c k).
Proof.
  intros Hc Hk w. unfold bindM. rewrite Hc.
  destruct (c w) as [w' [a|e]]; cbn [fst snd]; [apply Hk | reflexivity].
Qed.

Lemma frames_assign_lastDate (rows : list (dict pyval)) (date : string) :
  frames (C := C) rows (assign_lastDate date).
Proof.
  intros w. unfold assign_lastDate.
  change (jsonProperties (importer (with_records w rows)))
    with (jsonProperties (importer w)).
  destruct (set_data_lastDate (jsonProperties (importer w)) date); reflexivity.
Qed.

Lemma frames_get (rows : list (dict pyval)) (date : string) :
  frames (C := C) rows (call_get_daily_weigh_ins date).
Proof.
  intros w. unfold call_get_daily_weigh_ins.
  change (client (with_records w rows)) with (client w).
  destruct (get_daily_weigh_ins (client w) date); reflexivity.
Qed.

Lemma frames_delete (rows : list (dict pyval)) (pk : Z) (date : string) :
  frames (C := C) rows (call_delete_weigh_in pk date).
Proof.
  intros w. unfold call_delete_weigh_in.
  change (client (with_records w rows)) with (client w).
  destruct (delete_weigh_in (client w) pk date); reflexivity.
Qed.

Lemma frames_add (rows : list (dict pyval)) (row : dict pyval) :
  frames (C := C) rows (call_add_body_composition row).
Proof.
  intros w. unfold call_add_body_composition.
  change (client (with_records w rows)) with (client w).
  destruct (add_body_composition (client w) row); reflexivity.
Qed.

Lemma frames_delete_all (rows : list (dict pyval)) (l : list weigh_in) (date : string) :
  frames (C := C) rows (delete_all l date).
Proof.
  induction l as [|e l IH]; simpl.
  - apply frames_ret.
  - apply frames_bind; [apply frames_delete | intros _; exact IH].
Qed.

Lemma frames_import_row (rows : list (dict pyval)) (deleteOldData : bool)
  (dates : list string) (row : dict pyval) :
  frames (C := C) rows (import_row deleteOldData dates row).
Proof.
  unfold import_row.
  apply frames_bind; [apply frames_lift | intros date].
  apply frames_bind.
  - destruct (negb (existsb (String.eqb date) dates)); [|apply frames_ret].
    apply frames_bind; [apply frames_assign_lastDate | intros _].
    apply frames_bind; [apply frames_get | intros l].
    apply frames_bind; [|intros _; apply frames_ret].
    destruct (deleteOldData && negb (empty l));
      [apply frames_delete_all | apply frames_ret].
  - intros dates'.
    apply frames_bind; [apply frames_add | intros _].
    apply frames_bind; [apply frames_lift | intros _; apply frames_ret].
Qed.

Lemma frames_import_rows (rows : list (dict pyval)) (deleteOldData : bool)
  (l : list (dict pyval)) :
  forall dates n, frames (C := C) rows (import_rows deleteOldData dates n l).
Proof.
  induction l as [|row l IH]; intros dates n; simpl.
  - apply frames_ret.
  - apply frames_bind; [apply frames_import_row | intros dates'; apply IH].
Qed.

(** C7, as the code has it.  Let the import of the records [before], with
    [callAPI] enabled, complete in the state [w1].  The import of the same
    records followed by one more record [row] then does what follows after
    [w1], with [deleteOldData] as the settings give it.  When the date of
    [row] is the date of a record before it, [row] is pushed and nothing else
    happens: no watermark is assigned, nothing is fetched or deleted.  When
    [row] is the first record of its date, first the watermark
    [data.lastDate] is assigned the date, in memory and whatever follows;
    then the remote entries of the date are fetched, whether or not
    [deleteOldData] is set; then each entry the fetch returned is deleted,
    before the push, exactly when [deleteOldData] is set; without the flag
    nothing follows the fetch but the push. *)
Theorem first_record_of_date_effects (w w1 : World C) (before : list (dict pyval))
  (row : dict pyval) (date : string) (n : Z) :
  flag_enabled (importer w) "callAPI" = true ->
  loadDataOnGarminConnect (with_records w before) = (w1, Ok (Some n)) ->
  timestamp_date_isoformat (record_timestamp row) = Ok date ->
  let deleteOldData := flag_enabled (importer w) "deleteOldData" in
  let w2 := fst (loadDataOnGarminConnect (with_records w (before ++ [row]))) in
  if existsb (String.eqb date) (record_dates before) then
    trace w2 = (trace w1 ++ [AddBodyComposition row])%list /\
    jsonProperties (importer w2) = jsonProperties (importer w1)
  else
    exists evs,
      trace w2 = (trace w1 ++ SetLastDate date :: GetDailyWeighIns date :: evs)%list /\
      setting (importer w2) "data" "lastDate" = Some (JStr date) /\
      (deleteOldData = false -> evs = [] \/ evs = [AddBodyComposition row]) /\
      (forall r,
         snd (loadDataOnGarminConnect (with_records w (before ++ [row]))) = Ok r ->
         exists l,
           snd (get_daily_weigh_ins (client w1) date) = Ok l /\
           evs = ((if deleteOldData then deletions l date else [])
                  ++ [AddBodyComposition row])%list /\
           r = Some (n + 1)).
Proof.
  intros Hcall Hbefore Hdate deleteOldData w2.
  set (W0 := with_records w before) in *.
  set (W := with_records w (before ++ [row])) in *.
  assert (Hcall0 : flag_enabled (importer W0) "callAPI" = true) by exact Hcall.
  assert (HcallW : flag_enabled (importer W) "callAPI" = true) by exact Hcall.
  (* the records before *)
  destruct (loadDataOnGarminConnect_enabled W0 Hcall0) as [Hf0 Hs0].
  rewrite Hbefore in Hf0, Hs0. cbn [fst snd] in Hf0, Hs0.
  change (flag_enabled (importer W0) "deleteOldData") with deleteOldData in Hf0, Hs0.
  change (BodyComposition (importer W0)) with before in Hf0, Hs0.
  destruct (import_rows deleteOldData [] 0 before W0) as [w1' [n'|e]] eqn:Eb;
    [|discriminate].
  cbn [fst snd] in Hf0, Hs0. subst w1'. injection Hs0 as <-.
  (* the settings after them *)
  assert (Hcall1 : flag_enabled (importer w1) "callAPI" = true).
  { apply flag_enabled_setting.
    destruct (import_rows_summary deleteOldData before [] 0 W0)
      as (new & _ & _ & _ & _ & _ & _ & Hset & _).
    rewrite Eb in Hset. cbn [fst] in Hset. rewrite Hset by (right; discriminate).
    apply flag_enabled_setting. exact Hcall0. }
  (* the last record *)
  destruct (import_rows_app deleteOldData before [row] [] 0 n W0 w1 Eb)
    as (dates1 & Eapp & Hin).
  assert (Hlast : import_rows deleteOldData [] 0 (before ++ [row]) W
                  = (with_records
                       (fst (import_row deleteOldData dates1 row w1)) (before ++ [row]),
                     match snd (import_row deleteOldData dates1 row w1) with
                     | Ok _ => Ok (n + 1)
                     | Raise e => Raise e
                     end)).
  { change W with (with_records W0 (before ++ [row])).
    rewrite (frames_import_rows (before ++ [row]) deleteOldData (before ++ [row]) [] 0 W0).
    rewrite Eapp. cbn [import_rows]. unfold bindM, retM.
    destruct (import_row deleteOldData dates1 row w1) as [w' [dates'|e]]; reflexivity. }
  destruct (loadDataOnGarminConnect_enabled W HcallW) as [Hf Hs].
  change (flag_enabled (importer W) "deleteOldData") with deleteOldData in Hf, Hs.
  change (BodyComposition (importer W)) with (before ++ [row])%list in Hf, Hs.
  rewrite Hlast in Hf, Hs. cbn [fst snd] in Hf, Hs.
  subst w2. rewrite Hf, Hs. clear Hf Hs Hlast Eapp.
  specialize (Hin date). simpl in Hin. rewrite <- Hin.
  destruct (existsb (String.eqb date) dates1) eqn:Eseen.
  - destruct (import_row_entered deleteOldData dates1 row date w1 Hdate Eseen)
      as [Ht Hi].
    split; [exact Ht|]. simpl. rewrite Hi. reflexivity.
  - destruct (set_data_lastDate_enabled (importer w1) date Hcall1) as [j Hj].
    destruct (import_row_new_date deleteOldData dates1 row date w1 j Hdate Eseen Hj)
      as (evs & Ht & Hi & Hoff & Hok).
    exists evs. split; [exact Ht|]. split.
    { rewrite <- (set_data_lastDate_setting (importer w1) date j Hj).
      apply setting_jsonProperties. simpl. rewrite Hi. reflexivity. }
    split; [exact Hoff|].
    intros r Hr.
    destruct (snd (import_row deleteOldData dates1 row w1)) as [dates'|e];
      [|discriminate].
    destruct (Hok dates' eq_refl) as (l & Hl & Hevs & _).
    exists l. split; [exact Hl|]. split; [exact Hevs|].
    injection Hr as <-. reflexivity.
Qed.

End ImportByDate.

(** An account that holds one entry of 2024-01-01, [deleteOldData] set: the
    first record of the day assigns the watermark, fetches, deletes the
    entry and pushes; the second record of the day is pushed and nothing
    else. *)
Lemma first_record_of_date_effects_witness :
  let w := world_of (importing_self [("deleteOldData", JStr "True")] [])
             {| offline := false; entries := [("2024-01-01", 7)]; next_pk := 8 |} in
  let first := record (PStamp (mk_timestamp 2024 1 1 8 0)) (PFloat (FFin false 141 (-1))) in
  let second := record (PStamp (mk_timestamp 2024 1 1 9 0)) (PFloat (FFin false 71 0)) in
  trace (fst (loadDataOnGarminConnect (with_records w [first])))
    = [SetLastDate "2024-01-01"; GetDailyWeighIns "2024-01-01";
       DeleteWeighIn 7 "2024-01-01"; AddBodyComposition first] /\
  trace (fst (loadDataOnGarminConnect (with_records w [first; second])))
    = (trace (fst (loadDataOnGarminConnect (with_records w [first])))
       ++ [AddBodyComposition second])%list.
Proof.
  intros w first second. split.
  - destruct (first_record_of_date_effects w (with_records w []) [] first
                "2024-01-01" 0 eq_refl eq_refl eq_refl)
      as (evs & Ht & _ & _ & Hok).
    destruct (Hok (Some 1) ltac:(vm_compute; reflexivity)) as (l & Hl & Hevs & _).
    change ([] ++ [first])%list with [first] in Ht.
    rewrite Ht, Hevs.
    assert (El : l = [{| samplePk := 7 |}]).
    { assert (E : Ok l = Ok [{| samplePk := 7 |}]) by (rewrite <- Hl; reflexivity).
      injection E as E. exact E. }
    rewrite El. reflexivity.
  - assert (Hb : loadDataOnGarminConnect (with_records w [first])
                 = (fst (loadDataOnGarminConnect (with_records w [first])),
                    Ok (Some 1)))
      by (vm_compute; reflexivity).
    pose proof (first_record_of_date_effects w _ [first] second "2024-01-01" 1
                  eq_refl Hb eq_refl) as H.
    cbv zeta in H.
    assert (Eseen : existsb (String.eqb "2024-01-01") (record_dates [first]) = true)
      by (vm_compute; reflexivity).
    rewrite Eseen in H.
    change [first; second] with ([first] ++ [second])%list.
    exact (proj1 H).
Defined.
